(** * Website audit tool: scoring and recommendation engine

    A shallow embedding of [src/lib/auditor.js] (class [WebsiteAuditor]) and
    [src/lib/simpleAuditor.js] (class [SimpleWebsiteAuditor]), followed by the
    properties of the scoring rules, the aggregation and the recommendation
    rules.

    JavaScript has one numeric type, the IEEE-754 binary64 float.  Quantities
    that the program only ever builds from integer literals by adding,
    subtracting and multiplying small integers (scores, penalties, element
    counts) are embedded as [Z]: binary64 arithmetic is exact on them.
    Quantities that are measured or that involve the literals 0.3, 0.2, 0.25,
    0.1, 0.044, ... are embedded as binary64 values, with the operations of
    [SpecFloat] at precision 53 and maximal exponent 1024. *)

From Stdlib Require Import ZArith List String Ascii Bool Lia QArith Qround.
From Stdlib Require Import DecimalString.
From Stdlib Require Import SpecFloat.
From Stdlib Require Import FMapPositive.
Import ListNotations.

Open Scope string_scope.
Open Scope list_scope.
Open Scope Z_scope.

(** ** JavaScript numbers and the few built-ins the auditors use *)

Module JS.

Definition number := spec_float.

Definition prec : Z := 53.
Definition emax : Z := 1024.

Definition NaN : number := S754_nan.

(** An integer literal, or an integer-valued number, as a binary64. *)
Definition of_Z (z : Z) : number := binary_normalize prec emax z 0 false.

Definition add (x y : number) : number := SFadd prec emax x y.
Definition sub (x y : number) : number := SFsub prec emax x y.
Definition mul (x y : number) : number := SFmul prec emax x y.
Definition div (x y : number) : number := SFdiv prec emax x y.

(** The relational operators [<] and [>]: false as soon as one side is NaN. *)
Definition lt (x y : number) : bool := SFltb x y.
Definition gt (x y : number) : bool := SFltb y x.

(** A decimal literal [n / d] with [d] a power of ten ([0.3] is [dec 3 10]):
    the parser yields the binary64 nearest to the decimal value, which is
    what the correctly rounded division of the two integers yields. *)
Definition dec (n d : Z) : number := div (of_Z n) (of_Z d).

(** [ToNumber] on a property that may be missing: [undefined] becomes NaN. *)
Definition toNumber (v : option number) : number :=
  match v with
  | Some x => x
  | None => NaN
  end.

(** [Math.round]: the nearest integer, ties towards +infinity; NaN, the
    infinities and the zeros are returned as they are, and a value in
    [-0.5, 0) gives -0. *)
Definition Math_round (x : number) : number :=
  match x with
  | S754_finite s m e =>
      if 0 <=? e then x
      else
        let sm := if s then Z.neg m else Z.pos m in
        let n := (2 * sm + 2 ^ (- e)) / 2 ^ (1 - e) in
        if n =? 0 then S754_zero s else of_Z n
  | _ => x
  end.

(** [String.prototype.includes]. *)
Fixpoint includes (needle hay : string) : bool :=
  if prefix needle hay then true
  else
    match hay with
    | EmptyString => false
    | String _ rest => includes needle rest
    end.

(** The one-character string holding a double quote. *)
Definition dquote : string := String (ascii_of_nat 34) EmptyString.

(** The decimal rendering of an integer inside a template literal. *)
Definition toString (z : Z) : string := NilZero.string_of_int (Z.to_int z).

End JS.

(** ** The ambient world of an audit run

    The methods run inside Node: they can read the clock and write to the
    console.  A method is a computation over the world; [await] on a promise
    returned by an [async] method is sequencing. *)

Record World := mkWorld {
  clock : string;          (* what [new Date().toISOString()] returns now *)
  console : list string    (* lines written by [console.log] so far *)
}.

Definition M (A : Type) : Type := World -> A * World.

Definition ret {A : Type} (a : A) : M A := fun w => (a, w).

Definition bind {A B : Type} (m : M A) (k : A -> M B) : M B :=
  fun w => let (a, w') := m w in k a w'.

Notation "'perform' x <- c1 ; c2" := (bind c1 (fun x => c2))
  (at level 61, x name, c1 at next level, right associativity).

Definition console_log (line : string) : M unit :=
  fun w => (tt, mkWorld (clock w) (console w ++ [line])).

Definition new_Date_toISOString : M string :=
  fun w => (clock w, w).

Definition eval {A : Type} (m : M A) (w : World) : A := fst (m w).

(** ** Data model: the signal bundles *)

(** [seoChecks.title] and [seoChecks.metaDescription]. *)
Module TextCheck.
Record t := mk {
  present : bool;
  content : string;
  length : Z;
  optimal : bool
}.
End TextCheck.

Module Headings.
Record t := mk {
  h1 : Z; h2 : Z; h3 : Z; h4 : Z; h5 : Z; h6 : Z;
  hasH1 : bool;
  multipleH1 : bool
}.
End Headings.

Module Images.
Record t := mk {
  total : Z;
  withAlt : Z;
  withoutAlt : Z;
  altTextCoverage : JS.number
}.
End Images.

Module Links.
Record t := mk {
  total : Z;
  internal : Z;
  external : Z;
  withTitle : Z
}.
End Links.

Module StructuredData.
Record t := mk {
  jsonLd : Z;
  microdata : Z;
  rdfa : Z
}.
End StructuredData.

Module Robots.
Record t := mk {
  metaRobots : string;
  robotsTxt : string
}.
End Robots.

Module Sitemap.
Record t := mk {
  present : bool;
  url : string
}.
End Sitemap.

Module SeoChecks.
Record t := mk {
  title : TextCheck.t;
  metaDescription : TextCheck.t;
  headings : Headings.t;
  images : Images.t;
  links : Links.t;
  structuredData : StructuredData.t;
  robots : Robots.t;
  sitemap : Sitemap.t
}.
End SeoChecks.

(** The object [{...seoChecks, score}]. *)
Module SeoData.
Record t := mk {
  checks : SeoChecks.t;
  score : Z
}.
End SeoData.

(** An entry of an [issues] array; a field an object literal does not
    mention is [None]. *)
Module Issue.
Record t := mk {
  type : string;
  message : string;
  severity : option string;
  category : option string;
  count : option Z;
  elements : option (list string)
}.

Definition severityIs (label : string) (issue : t) : bool :=
  match severity issue with
  | Some s => String.eqb s label
  | None => false
  end.
End Issue.

Module Recommendation.
Record t := mk {
  category : string;
  priority : string;
  message : string;
  details : string
}.
End Recommendation.

(** The four keys of the [weights] object, in insertion order, which is the
    order [Object.keys] enumerates them in. *)
Inductive Category := Performance | SEO | Accessibility | Crawlability.

Definition keys : list Category := [Performance; SEO; Accessibility; Crawlability].

Definition Category_eqb (a b : Category) : bool :=
  match a, b with
  | Performance, Performance | SEO, SEO
  | Accessibility, Accessibility | Crawlability, Crawlability => true
  | _, _ => false
  end.

(** The [category] string the recommendations of a category carry. *)
Definition label (c : Category) : string :=
  match c with
  | Performance => "Performance"
  | SEO => "SEO"
  | Accessibility => "Accessibility"
  | Crawlability => "Crawlability"
  end.

(** ** [src/lib/simpleAuditor.js]: class [SimpleWebsiteAuditor] *)

Module SimpleAuditor.

Module CoreWebVitals.
Record t := mk {
  lcp : JS.number;
  fid : JS.number;
  cls : JS.number;
  fcp : JS.number;
  tbt : JS.number;
  si : JS.number
}.
End CoreWebVitals.

Module Metrics.
Record t := mk {
  domContentLoaded : JS.number;
  loadComplete : JS.number;
  firstPaint : JS.number;
  firstContentfulPaint : JS.number;
  largestContentfulPaint : JS.number;
  totalBlockingTime : JS.number;
  speedIndex : JS.number
}.
End Metrics.

Module PerformanceData.
Record t := mk {
  coreWebVitals : CoreWebVitals.t;
  metrics : Metrics.t;
  score : Z;
  note : string
}.
End PerformanceData.

Module AccessibilityData.
Record t := mk {
  issues : list Issue.t;
  score : Z;
  totalElements : Z;
  passedAudits : Z;
  manualChecks : Z;
  note : string
}.
End AccessibilityData.

Module CrawlabilityData.
Record t := mk {
  issues : list Issue.t;
  score : Z;
  url : string;
  hasContent : bool;
  scriptCount : Z
}.
End CrawlabilityData.

(** A category slot of the [results] object: the empty object literal [{}]
    it is created with, or the bundle an extractor returned. *)
Inductive Slot (A : Type) : Type :=
| Empty : Slot A
| Filled : A -> Slot A.

Arguments Empty {A}.
Arguments Filled {A} _.

Module Results.
Record t := mk {
  url : string;
  timestamp : string;
  performance : Slot PerformanceData.t;
  seo : Slot SeoData.t;
  accessibility : Slot AccessibilityData.t;
  crawlability : Slot CrawlabilityData.t;
  overallScore : JS.number;
  recommendations : list Recommendation.t
}.
End Results.

Definition isComplexSite (url : string) : bool :=
  JS.includes "optimizemydata" url || JS.includes "google" url
  || JS.includes "facebook" url.

Definition isSimpleSite (url : string) : bool :=
  JS.includes "example.com" url || JS.includes "github.io" url.

Definition createMockPerformanceData (url : string) : PerformanceData.t :=
  let '(performanceScore, lcp, fid, cls, fcp, tbt, si) :=
    if isComplexSite url then
      (86, JS.of_Z 700, JS.of_Z 180, JS.dec 44 1000, JS.of_Z 600,
       JS.of_Z 180, JS.of_Z 4000)
    else if isSimpleSite url then
      (95, JS.of_Z 800, JS.of_Z 50, JS.dec 2 100, JS.of_Z 400,
       JS.of_Z 50, JS.of_Z 1500)
    else
      (78, JS.of_Z 1800, JS.of_Z 120, JS.dec 5 100, JS.of_Z 800,
       JS.of_Z 120, JS.of_Z 2500) in
  PerformanceData.mk
    (CoreWebVitals.mk lcp fid cls fcp tbt si)
    (Metrics.mk
       (JS.Math_round (JS.add fcp (JS.of_Z 200)))
       (JS.Math_round (JS.add lcp (JS.of_Z 300)))
       (JS.Math_round (JS.sub fcp (JS.of_Z 50)))
       fcp lcp tbt si)
    performanceScore
    "Performance data estimated using Google Lighthouse parameters (browser-based audit unavailable)".

Definition createMockAccessibilityData (_ : unit) : AccessibilityData.t :=
  let issues : list Issue.t := [] in
  let issues := issues ++
    [Issue.mk "warning"
       "Heading elements are not in a sequentially-descending order"
       (Some "medium") (Some "Navigation") (Some 1) None] in
  let issues := issues ++
    [Issue.mk "info"
       (String.append "<video> elements contain a <track> element with [kind="
          (String.append JS.dquote
             (String.append "captions" (String.append JS.dquote "]"))))
       (Some "low") (Some "Audio and video") (Some 1) None] in
  let score := 98 in
  let score :=
    fold_left
      (fun score issue =>
         if Issue.severityIs "high" issue then score - 10
         else if Issue.severityIs "medium" issue then score - 5
         else if Issue.severityIs "low" issue then score - 2
         else score)
      issues score in
  AccessibilityData.mk issues (Z.max 0 score) 150 25 10
    "Accessibility data estimated using Google Lighthouse parameters (browser-based audit unavailable)".

Definition calculateSEOScore (seoChecks : SeoChecks.t) : Z :=
  let score := 92 in
  let score :=
    if negb (TextCheck.present (SeoChecks.title seoChecks)) then score - 25
    else if negb (TextCheck.optimal (SeoChecks.title seoChecks)) then score - 10
    else score in
  let score :=
    if negb (TextCheck.present (SeoChecks.metaDescription seoChecks))
    then score - 15
    else if negb (TextCheck.optimal (SeoChecks.metaDescription seoChecks))
    then score - 5
    else score in
  let score :=
    if negb (Headings.hasH1 (SeoChecks.headings seoChecks)) then score - 20
    else score in
  let score :=
    if Headings.multipleH1 (SeoChecks.headings seoChecks) then score - 15
    else score in
  let score :=
    if JS.lt (Images.altTextCoverage (SeoChecks.images seoChecks)) (JS.of_Z 80)
    then score - 15 else score in
  let score :=
    if (Links.total (SeoChecks.links seoChecks) >? 0)
       && (Links.external (SeoChecks.links seoChecks)
           >? Links.internal (SeoChecks.links seoChecks))
    then score - 10 else score in
  let score :=
    if StructuredData.jsonLd (SeoChecks.structuredData seoChecks) >? 0
    then score + 5 else score in
  let score :=
    if String.eqb (Robots.robotsTxt (SeoChecks.robots seoChecks)) "Not found"
    then score - 5 else score in
  let score :=
    if negb (Sitemap.present (SeoChecks.sitemap seoChecks)) then score - 3
    else score in
  Z.max 0 (Z.min 100 score).

Definition auditSEO (url : string) : M SeoData.t :=
  let seoChecks :=
    if isComplexSite url then
      SeoChecks.mk
        (TextCheck.mk true "Optimize My Data - Professional SEO Services" 45 true)
        (TextCheck.mk true
           "Professional SEO services to help your business grow online. Expert optimization for better search rankings and increased traffic."
           125 true)
        (Headings.mk 1 3 5 2 0 0 true false)
        (Images.mk 8 6 2 (JS.of_Z 75))
        (Links.mk 15 8 7 3)
        (StructuredData.mk 1 0 0)
        (Robots.mk "index, follow" "Not found")
        (Sitemap.mk false "")
    else
      SeoChecks.mk
        (TextCheck.mk true "Website Title" 15 false)
        (TextCheck.mk true "Website description" 20 false)
        (Headings.mk 1 2 3 1 0 0 true false)
        (Images.mk 5 4 1 (JS.of_Z 80))
        (Links.mk 10 6 4 2)
        (StructuredData.mk 0 0 0)
        (Robots.mk "index, follow" "Not found")
        (Sitemap.mk false "") in
  ret (SeoData.mk seoChecks (calculateSEOScore seoChecks)).

Definition auditCrawlability (url : string) : M CrawlabilityData.t :=
  let '(issues, score) :=
    if isComplexSite url then
      ([Issue.mk "warning" "Links are not crawlable" (Some "medium")
          None None None], 85)
    else
      ([Issue.mk "warning" "Missing viewport meta tag" (Some "medium")
          None None None], 90) in
  ret (CrawlabilityData.mk issues score url true 5).

Definition weights (c : Category) : JS.number :=
  match c with
  | Performance => JS.dec 3 10
  | SEO => JS.dec 3 10
  | Accessibility => JS.dec 2 10
  | Crawlability => JS.dec 2 10
  end.

(** [results[category].score] when [results[category]] is truthy and the
    score has type number; [{}] has no score. *)
Definition numericScore (results : Results.t) (c : Category) : option Z :=
  match c with
  | Performance =>
      match Results.performance results with
      | Filled p => Some (PerformanceData.score p)
      | Empty => None
      end
  | SEO =>
      match Results.seo results with
      | Filled s => Some (SeoData.score s)
      | Empty => None
      end
  | Accessibility =>
      match Results.accessibility results with
      | Filled a => Some (AccessibilityData.score a)
      | Empty => None
      end
  | Crawlability =>
      match Results.crawlability results with
      | Filled k => Some (CrawlabilityData.score k)
      | Empty => None
      end
  end.

Definition calculateOverallScore (results : Results.t) : JS.number :=
  let '(totalScore, totalWeight) :=
    fold_left
      (fun '(totalScore, totalWeight) c =>
         match numericScore results c with
         | Some score =>
             (JS.add totalScore (JS.mul (JS.of_Z score) (weights c)),
              JS.add totalWeight (weights c))
         | None => (totalScore, totalWeight)
         end)
      keys (JS.of_Z 0, JS.of_Z 0) in
  if JS.gt totalWeight (JS.of_Z 0)
  then JS.Math_round (JS.div totalScore totalWeight)
  else JS.of_Z 0.

(** [x.score < limit], false when the slot is [{}] ([undefined < 70]). *)
Definition scoreBelow (score : option Z) (limit : Z) : bool :=
  match score with
  | Some x => x <? limit
  | None => false
  end.

Definition generateRecommendations (results : Results.t)
  : list Recommendation.t :=
  let recommendations : list Recommendation.t := [] in
  let recommendations :=
    if scoreBelow (numericScore results Performance) 70 then
      recommendations ++
      [Recommendation.mk "Performance" "high"
         "Improve Core Web Vitals - focus on LCP, FID, and CLS"
         "Consider optimizing images, reducing JavaScript execution time, and minimizing layout shifts"]
    else recommendations in
  let recommendations :=
    match Results.seo results with
    | Filled s =>
        if SeoData.score s <? 70 then
          let recommendations :=
            if negb (TextCheck.present (SeoChecks.title (SeoData.checks s)))
            then
              recommendations ++
              [Recommendation.mk "SEO" "high"
                 "Add a title tag to your page"
                 "Title tags are crucial for SEO and should be 30-60 characters long"]
            else recommendations in
          if negb (TextCheck.present
                     (SeoChecks.metaDescription (SeoData.checks s)))
          then
            recommendations ++
            [Recommendation.mk "SEO" "medium"
               "Add a meta description"
               "Meta descriptions should be 120-160 characters and describe your page content"]
          else recommendations
        else recommendations
    | Empty => recommendations
    end in
  let recommendations :=
    if scoreBelow (numericScore results Accessibility) 70 then
      recommendations ++
      [Recommendation.mk "Accessibility" "high"
         "Improve accessibility compliance"
         "Focus on alt text for images, proper heading structure, and form labels"]
    else recommendations in
  let recommendations :=
    if scoreBelow (numericScore results Crawlability) 70 then
      recommendations ++
      [Recommendation.mk "Crawlability" "medium"
         "Improve page crawlability"
         "Ensure content is accessible without JavaScript and add proper meta tags"]
    else recommendations in
  recommendations.

Definition auditWebsite (url : string) : M Results.t :=
  perform _ <- console_log (String.append "Starting simple audit for: " url);
  perform timestamp <- new_Date_toISOString;
  let results :=
    Results.mk url timestamp Empty Empty Empty Empty (JS.of_Z 0) [] in
  perform seoResults <- auditSEO url;
  perform crawlabilityResults <- auditCrawlability url;
  let results :=
    Results.mk (Results.url results) (Results.timestamp results)
      (Results.performance results) (Filled seoResults)
      (Results.accessibility results) (Filled crawlabilityResults)
      (Results.overallScore results) (Results.recommendations results) in
  let results :=
    Results.mk (Results.url results) (Results.timestamp results)
      (Filled (createMockPerformanceData url)) (Results.seo results)
      (Filled (createMockAccessibilityData tt)) (Results.crawlability results)
      (Results.overallScore results) (Results.recommendations results) in
  let results :=
    Results.mk (Results.url results) (Results.timestamp results)
      (Results.performance results) (Results.seo results)
      (Results.accessibility results) (Results.crawlability results)
      (calculateOverallScore results) (Results.recommendations results) in
  let results :=
    Results.mk (Results.url results) (Results.timestamp results)
      (Results.performance results) (Results.seo results)
      (Results.accessibility results) (Results.crawlability results)
      (Results.overallScore results) (generateRecommendations results) in
  perform _ <- console_log (String.append "Simple audit completed for: " url);
  ret results.

End SimpleAuditor.

(** ** [src/lib/auditor.js]: class [WebsiteAuditor] *)

Module Auditor.

(** The object the three performance observers fill in; an observer that
    never fires leaves its property undefined. *)
Module Vitals.
Record t := mk {
  lcp : option JS.number;
  fid : option JS.number;
  cls : option JS.number
}.
End Vitals.

Module Metrics.
Record t := mk {
  domContentLoaded : JS.number;
  loadComplete : JS.number;
  firstPaint : JS.number;
  firstContentfulPaint : JS.number
}.
End Metrics.

Module PerformanceData.
Record t := mk {
  coreWebVitals : Vitals.t;
  metrics : Metrics.t;
  score : Z
}.
End PerformanceData.

Module AccessibilityData.
Record t := mk {
  issues : list Issue.t;
  score : Z;
  totalElements : Z
}.
End AccessibilityData.

Module CrawlabilityData.
Record t := mk {
  issues : list Issue.t;
  score : Z;
  url : string;
  hasContent : bool;
  scriptCount : Z
}.
End CrawlabilityData.

(** What the body of a [try] block did: it threw an error with a message,
    or it ran to its [return]. *)
Inductive Attempt (A : Type) : Type :=
| Threw : string -> Attempt A
| Returned : A -> Attempt A.

Arguments Threw {A} _.
Arguments Returned {A} _.

(** A category slot of the [results] object: the empty object literal [{}]
    it is created with, the bundle of a successful audit, or the object
    [{ error, score }] a [catch] block returns. *)
Inductive Outcome (A : Type) : Type :=
| Pending : Outcome A
| Audited : A -> Outcome A
| Errored : string -> Z -> Outcome A.

Arguments Pending {A}.
Arguments Audited {A} _.
Arguments Errored {A} _ _.

Definition calculatePerformanceScore (vitals : Vitals.t) (metrics : Metrics.t)
  : Z :=
  let score := 100 in
  let score :=
    if JS.gt (JS.toNumber (Vitals.lcp vitals)) (JS.of_Z 4000) then score - 30
    else if JS.gt (JS.toNumber (Vitals.lcp vitals)) (JS.of_Z 2500)
    then score - 15
    else score in
  let score :=
    if JS.gt (JS.toNumber (Vitals.fid vitals)) (JS.of_Z 300) then score - 25
    else if JS.gt (JS.toNumber (Vitals.fid vitals)) (JS.of_Z 100)
    then score - 10
    else score in
  let score :=
    if JS.gt (JS.toNumber (Vitals.cls vitals)) (JS.dec 25 100) then score - 20
    else if JS.gt (JS.toNumber (Vitals.cls vitals)) (JS.dec 1 10)
    then score - 10
    else score in
  let score :=
    if JS.gt (Metrics.domContentLoaded metrics) (JS.of_Z 3000) then score - 10
    else score in
  let score :=
    if JS.gt (Metrics.loadComplete metrics) (JS.of_Z 5000) then score - 10
    else score in
  Z.max 0 score.

(** [auditPerformance]: the browser session of the [try] block is the
    argument; the method wraps what it measured, or the error it caught. *)
Definition auditPerformance (session : Attempt (Vitals.t * Metrics.t))
  : Outcome PerformanceData.t :=
  match session with
  | Returned (vitals, metrics) =>
      Audited (PerformanceData.mk vitals metrics
                 (calculatePerformanceScore vitals metrics))
  | Threw message => Errored message 0
  end.

(** The values [auditSEO] stores in [title.optimal] and in
    [metaDescription.optimal], as functions of the text's length. *)
Definition titleOptimal (length : Z) : bool :=
  (30 <=? length) && (length <=? 60).

Definition metaDescriptionOptimal (length : Z) : bool :=
  (120 <=? length) && (length <=? 160).

(** The value [auditSEO] stores in [images.altTextCoverage], as a function of
    the number of [img] elements and of those with an [alt] attribute. *)
Definition altTextCoverage (total withAlt : Z) : JS.number :=
  if total >? 0
  then JS.mul (JS.div (JS.of_Z withAlt) (JS.of_Z total)) (JS.of_Z 100)
  else JS.of_Z 100.

Definition calculateSEOScore (seoChecks : SeoChecks.t) : Z :=
  let score := 100 in
  let score :=
    if negb (TextCheck.present (SeoChecks.title seoChecks)) then score - 20
    else if negb (TextCheck.optimal (SeoChecks.title seoChecks)) then score - 10
    else score in
  let score :=
    if negb (TextCheck.present (SeoChecks.metaDescription seoChecks))
    then score - 15
    else if negb (TextCheck.optimal (SeoChecks.metaDescription seoChecks))
    then score - 5
    else score in
  let score :=
    if negb (Headings.hasH1 (SeoChecks.headings seoChecks)) then score - 15
    else score in
  let score :=
    if Headings.multipleH1 (SeoChecks.headings seoChecks) then score - 10
    else score in
  let score :=
    if JS.lt (Images.altTextCoverage (SeoChecks.images seoChecks)) (JS.of_Z 80)
    then score - 15 else score in
  let score :=
    if StructuredData.jsonLd (SeoChecks.structuredData seoChecks) >? 0
    then score + 5 else score in
  Z.max 0 (Z.min 100 score).

(** [auditSEO]: the fetch and the parse of the [try] block yield the checks,
    or throw. *)
Definition auditSEO (fetched : Attempt SeoChecks.t) : Outcome SeoData.t :=
  match fetched with
  | Returned seoChecks =>
      Audited (SeoData.mk seoChecks (calculateSEOScore seoChecks))
  | Threw message => Errored message 0
  end.

(** What the accessibility callback reads from the document. *)
Module AccessibilityDom.
Record t := mk {
  (* [img.src] of every [img:not([alt])] *)
  imagesWithoutAlt : list string;
  (* the level of every heading, in document order *)
  headingLevels : list Z;
  (* for every input without aria-label and aria-labelledby: whether some
     [label[for=id]] matches it *)
  inputsWithoutLabels : list bool;
  (* computed color and background colour of every text element *)
  textElements : list (string * string);
  (* [document.querySelectorAll('*').length] *)
  allElements : nat
}.
End AccessibilityDom.

Definition len {A : Type} (l : list A) : Z := Z.of_nat (List.length l).

(** The callback [auditAccessibility] evaluates in the page. *)
Definition evaluateAccessibility (document : AccessibilityDom.t)
  : AccessibilityData.t :=
  let issues : list Issue.t := [] in
  let score := 100 in
  let imagesWithoutAlt := AccessibilityDom.imagesWithoutAlt document in
  let '(issues, score) :=
    if len imagesWithoutAlt >? 0 then
      (issues ++
       [Issue.mk "error"
          (String.append (JS.toString (len imagesWithoutAlt))
             " images missing alt text")
          None None None
          (Some (map (fun src => if String.eqb src "" then "unknown" else src)
                   imagesWithoutAlt))],
       score - len imagesWithoutAlt * 5)
    else (issues, score) in
  let headingLevels := AccessibilityDom.headingLevels document in
  let '(previousLevel, structureIssues) :=
    fold_left
      (fun '(previousLevel, structureIssues) level =>
         (level,
          if level >? previousLevel + 1 then structureIssues + 1
          else structureIssues))
      headingLevels (0, 0) in
  let '(issues, score) :=
    if structureIssues >? 0 then
      (issues ++
       [Issue.mk "warning" "Heading structure may skip levels"
          None None (Some structureIssues) None],
       score - structureIssues * 3)
    else (issues, score) in
  let inputsWithLabels :=
    filter (fun hasLabel : bool => negb hasLabel)
      (AccessibilityDom.inputsWithoutLabels document) in
  let '(issues, score) :=
    if len inputsWithLabels >? 0 then
      (issues ++
       [Issue.mk "error"
          (String.append (JS.toString (len inputsWithLabels))
             " form inputs missing labels")
          None None (Some (len inputsWithLabels)) None],
       score - len inputsWithLabels * 8)
    else (issues, score) in
  let contrastIssues :=
    fold_left
      (fun contrastIssues '(color, backgroundColor) =>
         if String.eqb color backgroundColor then contrastIssues + 1
         else contrastIssues)
      (AccessibilityDom.textElements document) 0 in
  let '(issues, score) :=
    if contrastIssues >? 0 then
      (issues ++
       [Issue.mk "warning"
          (String.append (JS.toString contrastIssues)
             " potential color contrast issues")
          None None (Some contrastIssues) None],
       score - contrastIssues * 2)
    else (issues, score) in
  AccessibilityData.mk issues (Z.max 0 score)
    (Z.of_nat (AccessibilityDom.allElements document)).

Definition auditAccessibility (session : Attempt AccessibilityDom.t)
  : Outcome AccessibilityData.t :=
  match session with
  | Returned document => Audited (evaluateAccessibility document)
  | Threw message => Errored message 0
  end.

(** What the crawlability callback reads from the document. *)
Module CrawlabilityDom.
Record t := mk {
  (* [document.querySelectorAll('script').length] *)
  scripts : nat;
  (* [document.body.innerText.trim().length > 0] *)
  hasContent : bool;
  (* whether [meta[name=viewport]] matches an element *)
  viewport : bool;
  (* whether [link[rel=canonical]] matches an element *)
  canonical : bool;
  (* [window.location.href] *)
  href : string
}.
End CrawlabilityDom.

(** The callback [auditCrawlability] evaluates in the page. *)
Definition evaluateCrawlability (document : CrawlabilityDom.t)
  : CrawlabilityData.t :=
  let issues : list Issue.t := [] in
  let score := 100 in
  let scripts := Z.of_nat (CrawlabilityDom.scripts document) in
  let hasContent := CrawlabilityDom.hasContent document in
  let '(issues, score) :=
    if (scripts >? 0) && negb hasContent then
      (issues ++
       [Issue.mk "error"
          "Page appears to be JavaScript-only with no visible content"
          (Some "high") None None None],
       score - 30)
    else (issues, score) in
  let '(issues, score) :=
    if negb (CrawlabilityDom.viewport document) then
      (issues ++
       [Issue.mk "warning" "Missing viewport meta tag" (Some "medium")
          None None None],
       score - 10)
    else (issues, score) in
  let '(issues, score) :=
    if negb (CrawlabilityDom.canonical document) then
      (issues ++
       [Issue.mk "warning" "Missing canonical URL" (Some "medium")
          None None None],
       score - 5)
    else (issues, score) in
  let currentUrl := CrawlabilityDom.href document in
  let '(issues, score) :=
    if JS.includes "#" currentUrl then
      (issues ++
       [Issue.mk "info" "URL contains hash fragments" (Some "low")
          None None None],
       score - 2)
    else (issues, score) in
  CrawlabilityData.mk issues (Z.max 0 score) currentUrl hasContent scripts.

Definition auditCrawlability (session : Attempt CrawlabilityDom.t)
  : Outcome CrawlabilityData.t :=
  match session with
  | Returned document => Audited (evaluateCrawlability document)
  | Threw message => Errored message 0
  end.

Module Results.
Record t := mk {
  url : string;
  timestamp : string;
  performance : Outcome PerformanceData.t;
  seo : Outcome SeoData.t;
  accessibility : Outcome AccessibilityData.t;
  crawlability : Outcome CrawlabilityData.t;
  overallScore : JS.number;
  recommendations : list Recommendation.t
}.
End Results.

Definition weights (c : Category) : JS.number :=
  match c with
  | Performance => JS.dec 3 10
  | SEO => JS.dec 3 10
  | Accessibility => JS.dec 2 10
  | Crawlability => JS.dec 2 10
  end.

(** The [score] property of a slot when it has type number. *)
Definition scoreOf {A : Type} (score : A -> Z) (slot : Outcome A) : option Z :=
  match slot with
  | Pending => None
  | Audited a => Some (score a)
  | Errored _ zero => Some zero
  end.

Definition numericScore (results : Results.t) (c : Category) : option Z :=
  match c with
  | Performance => scoreOf PerformanceData.score (Results.performance results)
  | SEO => scoreOf SeoData.score (Results.seo results)
  | Accessibility =>
      scoreOf AccessibilityData.score (Results.accessibility results)
  | Crawlability =>
      scoreOf CrawlabilityData.score (Results.crawlability results)
  end.

Definition calculateOverallScore (results : Results.t) : JS.number :=
  let '(totalScore, totalWeight) :=
    fold_left
      (fun '(totalScore, totalWeight) c =>
         match numericScore results c with
         | Some score =>
             (JS.add totalScore (JS.mul (JS.of_Z score) (weights c)),
              JS.add totalWeight (weights c))
         | None => (totalScore, totalWeight)
         end)
      keys (JS.of_Z 0, JS.of_Z 0) in
  if JS.gt totalWeight (JS.of_Z 0)
  then JS.Math_round (JS.div totalScore totalWeight)
  else JS.of_Z 0.

(** *** The browser session and the audit as a whole

    The console output of the class is left out of these definitions: the
    four audits run concurrently, and the order of their lines is not
    determined by the program. *)

(** The two argument lists [init] passes to [puppeteer.launch]. *)
Inductive LaunchOptions := PrimaryOptions | FallbackOptions.

(** The outside of an instance: what the [n]-th call of [puppeteer.launch]
    answers (a browser, named by a number, or an error), how many calls were
    made so far, and the browsers that were closed. *)
Module Puppeteer.
Record t := mk {
  answer : nat -> LaunchOptions -> Attempt nat;
  calls : nat;
  closed : list nat
}.
End Puppeteer.

(** The two fields of an instance; [browser] is [null] or a browser. *)
Module Instance.
Record t := mk {
  browser : option nat;
  initialized : bool
}.
End Instance.

Definition constructor : Instance.t := Instance.mk None false.

Definition launch (options : LaunchOptions) (env : Puppeteer.t)
  : Attempt nat * Puppeteer.t :=
  (Puppeteer.answer env (Puppeteer.calls env) options,
   Puppeteer.mk (Puppeteer.answer env) (S (Puppeteer.calls env))
     (Puppeteer.closed env)).

Definition init (this : Instance.t) (env : Puppeteer.t)
  : Attempt unit * Instance.t * Puppeteer.t :=
  if negb (Instance.initialized this) then
    match launch PrimaryOptions env with
    | (Returned browser, env) =>
        (Returned tt, Instance.mk (Some browser) true, env)
    | (Threw error, env) =>
        match launch FallbackOptions env with
        | (Returned browser, env) =>
            (Returned tt, Instance.mk (Some browser) true, env)
        | (Threw fallbackError, env) =>
            (Threw "Unable to initialize browser", this, env)
        end
    end
  else (Returned tt, this, env).

Definition close (this : Instance.t) (env : Puppeteer.t)
  : Instance.t * Puppeteer.t :=
  match Instance.browser this with
  | Some browser =>
      (this,
       Puppeteer.mk (Puppeteer.answer env) (Puppeteer.calls env)
         (Puppeteer.closed env ++ [browser]))
  | None => (this, env)
  end.

(** The message of the [TypeError] Node raises when a property is read from
    [undefined]. *)
Definition cannotRead (property : string) : string :=
  String.append "Cannot read properties of undefined (reading '"
    (String.append property "')").

Definition scoreBelow (score : option Z) (limit : Z) : bool :=
  match score with
  | Some x => x <? limit
  | None => false
  end.

(** [generateRecommendations] of the full auditor.  The object a [catch]
    block returned has a score and no [title]: reading [title.present] from
    it throws. *)
Definition generateRecommendations (results : Results.t)
  : Attempt (list Recommendation.t) :=
  let recommendations : list Recommendation.t := [] in
  let recommendations :=
    if scoreBelow (numericScore results Performance) 70 then
      recommendations ++
      [Recommendation.mk "Performance" "high"
         "Improve Core Web Vitals - focus on LCP, FID, and CLS"
         "Consider optimizing images, reducing JavaScript execution time, and minimizing layout shifts"]
    else recommendations in
  let afterSeo : Attempt (list Recommendation.t) :=
    match Results.seo results with
    | Audited s =>
        if SeoData.score s <? 70 then
          let recommendations :=
            if negb (TextCheck.present (SeoChecks.title (SeoData.checks s)))
            then
              recommendations ++
              [Recommendation.mk "SEO" "high"
                 "Add a title tag to your page"
                 "Title tags are crucial for SEO and should be 30-60 characters long"]
            else recommendations in
          if negb (TextCheck.present
                     (SeoChecks.metaDescription (SeoData.checks s)))
          then
            Returned
              (recommendations ++
               [Recommendation.mk "SEO" "medium"
                  "Add a meta description"
                  "Meta descriptions should be 120-160 characters and describe your page content"])
          else Returned recommendations
        else Returned recommendations
    | Errored _ score =>
        if score <? 70 then Threw (cannotRead "present")
        else Returned recommendations
    | Pending => Returned recommendations
    end in
  match afterSeo with
  | Threw message => Threw message
  | Returned recommendations =>
      let recommendations :=
        if scoreBelow (numericScore results Accessibility) 70 then
          recommendations ++
          [Recommendation.mk "Accessibility" "high"
             "Improve accessibility compliance"
             "Focus on alt text for images, proper heading structure, and form labels"]
        else recommendations in
      let recommendations :=
        if scoreBelow (numericScore results Crawlability) 70 then
          recommendations ++
          [Recommendation.mk "Crawlability" "medium"
             "Improve page crawlability"
             "Ensure content is accessible without JavaScript and add proper meta tags"]
        else recommendations in
      Returned recommendations
  end.

(** [auditWebsite] of the full auditor: [now] is what the clock shows, the
    four sessions are what the [try] blocks of the four audits do. *)
Definition auditWebsite (this : Instance.t) (env : Puppeteer.t)
    (url now : string)
    (performanceSession : Attempt (Vitals.t * Metrics.t))
    (seoSession : Attempt SeoChecks.t)
    (accessibilitySession : Attempt AccessibilityDom.t)
    (crawlabilitySession : Attempt CrawlabilityDom.t)
  : Attempt Results.t * Instance.t * Puppeteer.t :=
  match init this env with
  | (Threw message, this, env) =>
      (Threw (String.append "Audit failed: " message), this, env)
  | (Returned _, this, env) =>
      let results :=
        Results.mk url now Pending Pending Pending Pending (JS.of_Z 0) [] in
      let performanceResults := auditPerformance performanceSession in
      let seoResults := auditSEO seoSession in
      let accessibilityResults := auditAccessibility accessibilitySession in
      let crawlabilityResults := auditCrawlability crawlabilitySession in
      let results :=
        Results.mk (Results.url results) (Results.timestamp results)
          performanceResults seoResults accessibilityResults
          crawlabilityResults
          (Results.overallScore results) (Results.recommendations results) in
      let results :=
        Results.mk (Results.url results) (Results.timestamp results)
          (Results.performance results) (Results.seo results)
          (Results.accessibility results) (Results.crawlability results)
          (calculateOverallScore results) (Results.recommendations results) in
      match generateRecommendations results with
      | Returned recommendations =>
          (Returned
             (Results.mk (Results.url results) (Results.timestamp results)
                (Results.performance results) (Results.seo results)
                (Results.accessibility results) (Results.crawlability results)
                (Results.overallScore results) recommendations),
           this, env)
      | Threw message =>
          (Threw (String.append "Audit failed: " message), this, env)
      end
  end.

(** The two methods a user of an instance may call at any time. *)
Inductive Call := CallInit | CallClose.

(** A sequence of calls; an error [init] throws is the caller's to catch. *)
Fixpoint calling (calls : list Call) (this : Instance.t) (env : Puppeteer.t)
  : Instance.t * Puppeteer.t :=
  match calls with
  | [] => (this, env)
  | CallInit :: rest =>
      let '(_, this, env) := init this env in calling rest this env
  | CallClose :: rest =>
      let '(this, env) := close this env in calling rest this env
  end.

(** The two fields of an instance agree. *)
Definition consistent (this : Instance.t) : Prop :=
  (Instance.initialized this = true
   /\ exists b, Instance.browser this = Some b)
  \/ (Instance.initialized this = false /\ Instance.browser this = None).

(** The slot of category [c] holds what a [catch] block returned. *)
Definition caught (results : Results.t) (c : Category) : Prop :=
  match c with
  | Performance =>
      exists message, Results.performance results = Errored message 0
  | SEO => exists message, Results.seo results = Errored message 0
  | Accessibility =>
      exists message, Results.accessibility results = Errored message 0
  | Crawlability =>
      exists message, Results.crawlability results = Errored message 0
  end.

End Auditor.

(** ** The route [POST /api/audit/analyze]

    The handler that calls the simple auditor.  Its body is one [try] block
    whose [catch] answers 500; inside it, a second [try] block around the
    call of the auditor replaces whatever the auditor threw by one fixed
    error.  [parses] is the verdict of [new URL(url)]: whether the
    constructor returns rather than throws. *)

Module Route.

(** [req.body]: [undefined] when no body was parsed, or an object whose
    [url] property is absent or a string. *)
Inductive RequestBody :=
| Undefined
| Object (url : option string).

Inductive Body :=
| Failure (error message : string)
| Success (data : SimpleAuditor.Results.t).

Record Response := mkResponse {
  status : Z;
  body : Body
}.

(** What the handler did besides [console.log]: the response it sent, and
    the calls of [console.error] it made, each with its label and the
    message of the error printed after it. *)
Record Handled := mkHandled {
  response : Response;
  errors : list (string * string)
}.

(** The message of the TypeError that [const { url } = req.body] throws on
    an undefined body. *)
Definition cannotDestructure : string :=
  "Cannot destructure property 'url' of 'req.body' as it is undefined.".

(** [message || fallback] *)
Definition orElse (message fallback : string) : string :=
  match message with
  | EmptyString => fallback
  | _ => message
  end.

(** The outer [catch] block, entered with the message of the error thrown
    and the calls of [console.error] made before. *)
Definition answer500 (message : string) (logged : list (string * string))
  : M Handled :=
  ret (mkHandled
         (mkResponse 500
            (Failure "Audit failed"
               (orElse message
                  "An unexpected error occurred during the audit")))
         (logged ++ [("Audit error:", message)])).

Definition analyze (parses : string -> bool)
    (auditWebsite : string -> M (Auditor.Attempt SimpleAuditor.Results.t))
    (req_body : RequestBody) : M Handled :=
  match req_body with
  | Undefined => answer500 cannotDestructure []
  | Object None | Object (Some EmptyString) =>
      ret (mkHandled
             (mkResponse 400
                (Failure "URL is required"
                   "Please provide a valid URL to analyze"))
             [])
  | Object (Some url) =>
      if negb (parses url) then
        ret (mkHandled
               (mkResponse 400
                  (Failure "Invalid URL format"
                     "Please provide a valid URL (e.g., https://example.com)"))
               [])
      else
        perform _ <- console_log (String.append "Starting audit for: " url);
        perform _ <- console_log "Using simple audit (Puppeteer disabled)";
        perform attempt <- auditWebsite url;
        match attempt with
        | Auditor.Returned results =>
            perform _ <- console_log "Simple audit completed successfully";
            ret (mkHandled (mkResponse 200 (Success results)) [])
        | Auditor.Threw simpleError =>
            answer500 "Unable to perform audit. Please try again later."
              [("Simple audit failed:", simpleError)]
        end
  end.

(** [simpleAuditor.auditWebsite(url)] as the handler awaits it.  On a string
    no statement of the [try] block of [auditWebsite] throws, so the promise
    is fulfilled with the results. *)
Definition simpleAuditor (url : string)
  : M (Auditor.Attempt SimpleAuditor.Results.t) :=
  perform results <- SimpleAuditor.auditWebsite url;
  ret (Auditor.Returned results).

End Route.

(** ** Reference definitions, in the words of the specification *)

(** *** Aggregation (specification, section 4.3) *)

(** The categories that have a numeric score, each with its score, in key
    order. *)
Definition scored (numericScore : Category -> option Z)
  : list (Category * Z) :=
  flat_map
    (fun c =>
       match numericScore c with
       | Some score => [(c, score)]
       | None => []
       end)
    keys.

(** A sum of numbers, accumulated from 0 from left to right. *)
Definition sum (terms : list JS.number) : JS.number :=
  fold_left JS.add terms (JS.of_Z 0).

(** round(numerator / denominator) if denominator > 0, else 0, all in
    binary64 arithmetic. *)
Definition weightedMean (weights : Category -> JS.number)
    (entries : list (Category * Z)) : JS.number :=
  let numerator :=
    sum (map (fun '(c, score) => JS.mul (JS.of_Z score) (weights c)) entries) in
  let denominator := sum (map (fun '(c, _) => weights c) entries) in
  if JS.gt denominator (JS.of_Z 0)
  then JS.Math_round (JS.div numerator denominator)
  else JS.of_Z 0.

(** The same formula over the rationals: weights 3/10, 3/10, 2/10, 2/10 and
    rounding to the nearest integer, halves upwards. *)
Definition exactWeight (c : Category) : Q :=
  match c with
  | Performance => 3 # 10
  | SEO => 3 # 10
  | Accessibility => 2 # 10
  | Crawlability => 2 # 10
  end.

Definition exactMean (entries : list (Category * Z)) : Z :=
  let numerator :=
    fold_right Qplus (0 # 1)
      (map (fun '(c, score) => Qmult (inject_Z score) (exactWeight c))
         entries) in
  let denominator :=
    fold_right Qplus (0 # 1) (map (fun '(c, _) => exactWeight c) entries) in
  if Qle_bool denominator (0 # 1) then 0
  else Qfloor (Qplus (Qdiv numerator denominator) (1 # 2)).

(** *** Performance penalties (specification, section 4.2) *)

(** A two-tier penalty: the severe tier is checked first, and only one tier
    applies. *)
Definition tier (x severe : JS.number) (severePenalty : Z)
    (mild : JS.number) (mildPenalty : Z) : Z :=
  if JS.gt x severe then severePenalty
  else if JS.gt x mild then mildPenalty
  else 0.

Definition flat (x limit : JS.number) (penalty : Z) : Z :=
  if JS.gt x limit then penalty else 0.

Definition performancePenalty (vitals : Auditor.Vitals.t)
    (metrics : Auditor.Metrics.t) : Z :=
  tier (JS.toNumber (Auditor.Vitals.lcp vitals))
    (JS.of_Z 4000) 30 (JS.of_Z 2500) 15
  + tier (JS.toNumber (Auditor.Vitals.fid vitals))
      (JS.of_Z 300) 25 (JS.of_Z 100) 10
  + tier (JS.toNumber (Auditor.Vitals.cls vitals))
      (JS.dec 25 100) 20 (JS.dec 1 10) 10
  + flat (Auditor.Metrics.domContentLoaded metrics) (JS.of_Z 3000) 10
  + flat (Auditor.Metrics.loadComplete metrics) (JS.of_Z 5000) 10.

(** *** SEO deductions of the degraded profile (specification, section 4.2) *)

Definition pick (b : bool) (points : Z) : Z := if b then points else 0.

Definition titleAbsent (s : SeoChecks.t) : bool :=
  negb (TextCheck.present (SeoChecks.title s)).

Definition metaDescriptionAbsent (s : SeoChecks.t) : bool :=
  negb (TextCheck.present (SeoChecks.metaDescription s)).

Definition lowAltCoverage (s : SeoChecks.t) : bool :=
  JS.lt (Images.altTextCoverage (SeoChecks.images s)) (JS.of_Z 80).

Definition moreExternalLinks (s : SeoChecks.t) : bool :=
  (0 <? Links.total (SeoChecks.links s))
  && (Links.internal (SeoChecks.links s) <? Links.external (SeoChecks.links s)).

Definition hasJsonLd (s : SeoChecks.t) : bool :=
  0 <? StructuredData.jsonLd (SeoChecks.structuredData s).

Definition robotsTxtMissing (s : SeoChecks.t) : bool :=
  String.eqb (Robots.robotsTxt (SeoChecks.robots s)) "Not found".

Definition sitemapMissing (s : SeoChecks.t) : bool :=
  negb (Sitemap.present (SeoChecks.sitemap s)).

Definition seoDeductions (s : SeoChecks.t) : Z :=
  (if titleAbsent s then 25
   else pick (negb (TextCheck.optimal (SeoChecks.title s))) 10)
  + (if metaDescriptionAbsent s then 15
     else pick (negb (TextCheck.optimal (SeoChecks.metaDescription s))) 5)
  + pick (negb (Headings.hasH1 (SeoChecks.headings s))) 20
  + pick (Headings.multipleH1 (SeoChecks.headings s)) 15
  + pick (lowAltCoverage s) 15
  + pick (moreExternalLinks s) 10
  + pick (robotsTxtMissing s) 5
  + pick (sitemapMissing s) 3.

Definition seoBonus (s : SeoChecks.t) : Z := pick (hasJsonLd s) 5.

Definition clamp (lo hi x : Z) : Z := Z.max lo (Z.min hi x).

(** *** Recommendation rules (specification, section 4.4) *)

Module Rules.
Import SimpleAuditor.

Definition coreWebVitalsAdvice : Recommendation.t :=
  Recommendation.mk "Performance" "high"
    "Improve Core Web Vitals - focus on LCP, FID, and CLS"
    "Consider optimizing images, reducing JavaScript execution time, and minimizing layout shifts".

Definition titleAdvice : Recommendation.t :=
  Recommendation.mk "SEO" "high"
    "Add a title tag to your page"
    "Title tags are crucial for SEO and should be 30-60 characters long".

Definition metaDescriptionAdvice : Recommendation.t :=
  Recommendation.mk "SEO" "medium"
    "Add a meta description"
    "Meta descriptions should be 120-160 characters and describe your page content".

Definition accessibilityAdvice : Recommendation.t :=
  Recommendation.mk "Accessibility" "high"
    "Improve accessibility compliance"
    "Focus on alt text for images, proper heading structure, and form labels".

Definition crawlabilityAdvice : Recommendation.t :=
  Recommendation.mk "Crawlability" "medium"
    "Improve page crawlability"
    "Ensure content is accessible without JavaScript and add proper meta tags".

(** Whether category [c] scores below 70 in [r]. *)
Definition below70 (r : Results.t) (c : Category) : bool :=
  match numericScore r c with
  | Some score => score <? 70
  | None => false
  end.

Definition seoChecksOf (r : Results.t) : option SeoChecks.t :=
  match Results.seo r with
  | Filled s => Some (SeoData.checks s)
  | Empty => None
  end.

Definition missingTitle (r : Results.t) : bool :=
  match seoChecksOf r with
  | Some s => titleAbsent s
  | None => false
  end.

Definition missingMetaDescription (r : Results.t) : bool :=
  match seoChecksOf r with
  | Some s => metaDescriptionAbsent s
  | None => false
  end.

(** The recommendations of one category. *)
Definition rule (r : Results.t) (c : Category) : list Recommendation.t :=
  if below70 r c then
    match c with
    | Performance => [coreWebVitalsAdvice]
    | SEO =>
        (if missingTitle r then [titleAdvice] else [])
        ++ (if missingMetaDescription r then [metaDescriptionAdvice] else [])
    | Accessibility => [accessibilityAdvice]
    | Crawlability => [crawlabilityAdvice]
    end
  else [].

(** The number of recommendations that carry the label of category [c]. *)
Definition countFor (c : Category) (l : list Recommendation.t) : Z :=
  Z.of_nat
    (List.length
       (filter (fun x => String.eqb (Recommendation.category x) (label c)) l)).

(** [r] with the score of category [c] replaced by [x]; every other field,
    and a slot that holds no bundle, is left as it is. *)
Definition setScore (c : Category) (x : Z) (r : Results.t) : Results.t :=
  match c with
  | Performance =>
      Results.mk (Results.url r) (Results.timestamp r)
        match Results.performance r with
        | Filled p =>
            Filled (PerformanceData.mk (PerformanceData.coreWebVitals p)
                      (PerformanceData.metrics p) x (PerformanceData.note p))
        | Empty => Empty
        end
        (Results.seo r) (Results.accessibility r) (Results.crawlability r)
        (Results.overallScore r) (Results.recommendations r)
  | SEO =>
      Results.mk (Results.url r) (Results.timestamp r)
        (Results.performance r)
        match Results.seo r with
        | Filled s => Filled (SeoData.mk (SeoData.checks s) x)
        | Empty => Empty
        end
        (Results.accessibility r) (Results.crawlability r)
        (Results.overallScore r) (Results.recommendations r)
  | Accessibility =>
      Results.mk (Results.url r) (Results.timestamp r)
        (Results.performance r) (Results.seo r)
        match Results.accessibility r with
        | Filled a =>
            Filled (AccessibilityData.mk (AccessibilityData.issues a) x
                      (AccessibilityData.totalElements a)
                      (AccessibilityData.passedAudits a)
                      (AccessibilityData.manualChecks a)
                      (AccessibilityData.note a))
        | Empty => Empty
        end
        (Results.crawlability r)
        (Results.overallScore r) (Results.recommendations r)
  | Crawlability =>
      Results.mk (Results.url r) (Results.timestamp r)
        (Results.performance r) (Results.seo r) (Results.accessibility r)
        match Results.crawlability r with
        | Filled k =>
            Filled (CrawlabilityData.mk (CrawlabilityData.issues k) x
                      (CrawlabilityData.url k) (CrawlabilityData.hasContent k)
                      (CrawlabilityData.scriptCount k))
        | Empty => Empty
        end
        (Results.overallScore r) (Results.recommendations r)
  end.

(** [r] with the slot of category [c] back to the empty object. *)
Definition clearSlot (c : Category) (r : Results.t) : Results.t :=
  match c with
  | Performance =>
      Results.mk (Results.url r) (Results.timestamp r)
        Empty (Results.seo r) (Results.accessibility r)
        (Results.crawlability r)
        (Results.overallScore r) (Results.recommendations r)
  | SEO =>
      Results.mk (Results.url r) (Results.timestamp r)
        (Results.performance r) Empty (Results.accessibility r)
        (Results.crawlability r)
        (Results.overallScore r) (Results.recommendations r)
  | Accessibility =>
      Results.mk (Results.url r) (Results.timestamp r)
        (Results.performance r) (Results.seo r) Empty
        (Results.crawlability r)
        (Results.overallScore r) (Results.recommendations r)
  | Crawlability =>
      Results.mk (Results.url r) (Results.timestamp r)
        (Results.performance r) (Results.seo r) (Results.accessibility r)
        Empty
        (Results.overallScore r) (Results.recommendations r)
  end.

End Rules.

(** *** Accessibility and crawlability findings *)

(** The number of headings whose level is more than one below the level of
    the heading before them; before the first heading the level is 0. *)
Fixpoint skipsFrom (previousLevel : Z) (levels : list Z) : Z :=
  match levels with
  | [] => 0
  | level :: rest =>
      (if level >? previousLevel + 1 then 1 else 0) + skipsFrom level rest
  end.

(** Every heading is at most one level below the heading before it. *)
Fixpoint wellNested (previousLevel : Z) (levels : list Z) : Prop :=
  match levels with
  | [] => True
  | level :: rest => level <= previousLevel + 1 /\ wellNested level rest
  end.

(** The number of elements of a list that pass a test. *)
Definition countIf {A : Type} (test : A -> bool) (l : list A) : Z :=
  Z.of_nat (List.length (filter test l)).

Definition unlabelled (document : Auditor.AccessibilityDom.t) : Z :=
  countIf negb (Auditor.AccessibilityDom.inputsWithoutLabels document).

Definition collisions (document : Auditor.AccessibilityDom.t) : Z :=
  countIf (fun '(color, backgroundColor) => String.eqb color backgroundColor)
    (Auditor.AccessibilityDom.textElements document).

Definition accessibilityDeductions (document : Auditor.AccessibilityDom.t)
  : Z :=
  5 * Auditor.len (Auditor.AccessibilityDom.imagesWithoutAlt document)
  + 3 * skipsFrom 0 (Auditor.AccessibilityDom.headingLevels document)
  + 8 * unlabelled document
  + 2 * collisions document.

Definition scriptOnly (document : Auditor.CrawlabilityDom.t) : bool :=
  (0 <? Z.of_nat (Auditor.CrawlabilityDom.scripts document))
  && negb (Auditor.CrawlabilityDom.hasContent document).

(** *** The totals the aggregation loop can hold

    For integer scores between 0 and 100 the running total of
    [calculateOverallScore] takes few binary64 values.  They are collected
    category by category, each next to the exact total in tenths
    (3 p + 3 s + 2 a + 2 k). *)

Definition number_eqb (x y : JS.number) : bool :=
  match x, y with
  | S754_zero s, S754_zero s' => Bool.eqb s s'
  | S754_infinity s, S754_infinity s' => Bool.eqb s s'
  | S754_nan, S754_nan => true
  | S754_finite s m e, S754_finite s' m' e' =>
      Bool.eqb s s' && Pos.eqb m m' && Z.eqb e e'
  | _, _ => false
  end.

Definition scores100 : list Z := map Z.of_nat (seq 0 101).

Definition Totals : Type := PositiveMap.t (list JS.number).

Definition slot (tenths : Z) : positive := Z.to_pos (tenths + 1).

Definition record (tenths : Z) (total : JS.number) (m : Totals) : Totals :=
  match PositiveMap.find (slot tenths) m with
  | Some l =>
      if existsb (number_eqb total) l then m
      else PositiveMap.add (slot tenths) (total :: l) m
  | None => PositiveMap.add (slot tenths) [total] m
  end.

Definition holds (tenths : Z) (total : JS.number) (m : Totals) : Prop :=
  exists l, PositiveMap.find (slot tenths) m = Some l /\ In total l.

Definition entries (m : Totals) : list (Z * JS.number) :=
  flat_map (fun '(k, l) => map (fun x => (Z.pos k - 1, x)) l)
    (PositiveMap.elements m).

(** One more category of weight [weight], which is [tenthsWeight] tenths. *)
Definition advance (tenthsWeight : Z) (weight : JS.number) (m : Totals)
  : Totals :=
  fold_left
    (fun acc '(tenths, total) =>
       fold_left
         (fun acc score =>
            record (tenths + tenthsWeight * score)
              (JS.add total (JS.mul (JS.of_Z score) weight)) acc)
         scores100 acc)
    (entries m) (PositiveMap.empty (list JS.number)).

Definition reachableTotals : Totals :=
  advance 2 (JS.dec 2 10)
    (advance 2 (JS.dec 2 10)
       (advance 3 (JS.dec 3 10)
          (advance 3 (JS.dec 3 10)
             (record 0 (JS.of_Z 0) (PositiveMap.empty (list JS.number)))))).

(** The sum of the four weights, as the loop accumulates it. *)
Definition fullWeight : JS.number :=
  JS.add (JS.add (JS.add (JS.add (JS.of_Z 0) (JS.dec 3 10)) (JS.dec 3 10))
            (JS.dec 2 10)) (JS.dec 2 10).

(** The rounded quotient is the exact mean rounded half up, or, when the
    exact mean ends in .5, possibly the integer below. *)
Definition roundsWell (entry : Z * JS.number) : bool :=
  let '(tenths, total) := entry in
  let overall := JS.Math_round (JS.div total fullWeight) in
  number_eqb overall (JS.of_Z ((tenths + 5) / 10))
  || ((tenths mod 10 =? 5) && number_eqb overall (JS.of_Z (tenths / 10))).

(** *** Alt-text coverage on pages of up to 100 images *)

Definition imageCounts : list (Z * Z) :=
  flat_map
    (fun total => map (fun withAlt => (Z.of_nat total, Z.of_nat withAlt))
                    (seq 0 (S total)))
    (seq 0 101).

(** The binary64 test [coverage < 80] agrees with the exact test
    [withAlt / total < 4 / 5], and no images means no deduction. *)
Definition coverageTestExact (counts : Z * Z) : bool :=
  let '(total, withAlt) := counts in
  Bool.eqb
    (JS.lt (Auditor.altTextCoverage total withAlt) (JS.of_Z 80))
    ((0 <? total) && (5 * withAlt <? 4 * total)).

(** *** URL buckets of the degraded extractor (specification, section 4.1) *)

Inductive Bucket := ComplexSite | SimpleSite | DefaultSite.

Definition bucket (url : string) : Bucket :=
  if JS.includes "optimizemydata" url || JS.includes "google" url
     || JS.includes "facebook" url
  then ComplexSite
  else if JS.includes "example.com" url || JS.includes "github.io" url
  then SimpleSite
  else DefaultSite.

Definition estimatedPerformanceNote : string :=
  "Performance data estimated using Google Lighthouse parameters (browser-based audit unavailable)".

Definition estimatedAccessibilityNote : string :=
  "Accessibility data estimated using Google Lighthouse parameters (browser-based audit unavailable)".

(** The canned performance bundle of each bucket, field by field. *)
Definition cannedPerformance (b : Bucket) : SimpleAuditor.PerformanceData.t :=
  match b with
  | ComplexSite =>
      SimpleAuditor.PerformanceData.mk
        (SimpleAuditor.CoreWebVitals.mk (JS.of_Z 700) (JS.of_Z 180)
           (JS.dec 44 1000) (JS.of_Z 600) (JS.of_Z 180) (JS.of_Z 4000))
        (SimpleAuditor.Metrics.mk (JS.of_Z 800) (JS.of_Z 1000) (JS.of_Z 550)
           (JS.of_Z 600) (JS.of_Z 700) (JS.of_Z 180) (JS.of_Z 4000))
        86 estimatedPerformanceNote
  | SimpleSite =>
      SimpleAuditor.PerformanceData.mk
        (SimpleAuditor.CoreWebVitals.mk (JS.of_Z 800) (JS.of_Z 50)
           (JS.dec 2 100) (JS.of_Z 400) (JS.of_Z 50) (JS.of_Z 1500))
        (SimpleAuditor.Metrics.mk (JS.of_Z 600) (JS.of_Z 1100) (JS.of_Z 350)
           (JS.of_Z 400) (JS.of_Z 800) (JS.of_Z 50) (JS.of_Z 1500))
        95 estimatedPerformanceNote
  | DefaultSite =>
      SimpleAuditor.PerformanceData.mk
        (SimpleAuditor.CoreWebVitals.mk (JS.of_Z 1800) (JS.of_Z 120)
           (JS.dec 5 100) (JS.of_Z 800) (JS.of_Z 120) (JS.of_Z 2500))
        (SimpleAuditor.Metrics.mk (JS.of_Z 1000) (JS.of_Z 2100) (JS.of_Z 750)
           (JS.of_Z 800) (JS.of_Z 1800) (JS.of_Z 120) (JS.of_Z 2500))
        78 estimatedPerformanceNote
  end.

(** The one canned accessibility bundle. *)
Definition cannedAccessibility : SimpleAuditor.AccessibilityData.t :=
  SimpleAuditor.AccessibilityData.mk
    [Issue.mk "warning"
       "Heading elements are not in a sequentially-descending order"
       (Some "medium") (Some "Navigation") (Some 1) None;
     Issue.mk "info"
       (String.append "<video> elements contain a <track> element with [kind="
          (String.append JS.dquote
             (String.append "captions" (String.append JS.dquote "]"))))
       (Some "low") (Some "Audio and video") (Some 1) None]
    91 150 25 10 estimatedAccessibilityNote.

(** Running a computation twice in a row. *)
Definition twice {A : Type} (m : M A) : M (A * A) :=
  perform a <- m;
  perform b <- m;
  ret (a, b).

(** The requests the handler refuses. *)
Definition refused (parses : string -> bool) (req_body : Route.RequestBody)
  : Prop :=
  req_body = Route.Object None
  \/ req_body = Route.Object (Some "")
  \/ exists u, req_body = Route.Object (Some u) /\ parses u = false.

(** ** Concrete inputs used in the examples *)

Module Samples.

Definition world0 : World := mkWorld "2024-01-01T00:00:00.000Z" [].

Definition world1 : World :=
  mkWorld "2025-06-30T12:34:56.789Z" ["Server started"].

(** *** Runs of the full auditor *)

(** A fast page on which no input event happened: [fid] stays undefined. *)
Definition fastVitals : Auditor.Vitals.t :=
  Auditor.Vitals.mk (Some (JS.of_Z 1200)) None (Some (JS.dec 2 100)).

Definition fastMetrics : Auditor.Metrics.t :=
  Auditor.Metrics.mk (JS.of_Z 40) (JS.of_Z 5) (JS.of_Z 300) (JS.of_Z 300).

(** A slow page: every metric is in its worst tier. *)
Definition slowVitals : Auditor.Vitals.t :=
  Auditor.Vitals.mk (Some (JS.of_Z 5200)) (Some (JS.of_Z 450))
    (Some (JS.dec 31 100)).

Definition slowMetrics : Auditor.Metrics.t :=
  Auditor.Metrics.mk (JS.of_Z 3500) (JS.of_Z 6000) (JS.of_Z 900)
    (JS.of_Z 1400).

Definition tidyDocument : Auditor.AccessibilityDom.t :=
  Auditor.AccessibilityDom.mk [] [1; 2; 2; 3] [true]
    [("rgb(0, 0, 0)", "rgb(255, 255, 255)")] 42.

Definition tidyPage : Auditor.CrawlabilityDom.t :=
  Auditor.CrawlabilityDom.mk 3 true true true "https://example.com/".

(** A run in which only the SEO fetch failed. *)
Definition seoFetchFailed : Auditor.Results.t :=
  Auditor.Results.mk "https://example.com/" "2024-01-01T00:00:00.000Z"
    (Auditor.auditPerformance (Auditor.Returned (fastVitals, fastMetrics)))
    (Auditor.auditSEO (Auditor.Threw "timeout of 10000ms exceeded"))
    (Auditor.auditAccessibility (Auditor.Returned tidyDocument))
    (Auditor.auditCrawlability (Auditor.Returned tidyPage))
    (JS.of_Z 0) [].

(** The same run with the SEO slot left as the empty object. *)
Definition seoLeftOut : Auditor.Results.t :=
  Auditor.Results.mk "https://example.com/" "2024-01-01T00:00:00.000Z"
    (Auditor.auditPerformance (Auditor.Returned (fastVitals, fastMetrics)))
    Auditor.Pending
    (Auditor.auditAccessibility (Auditor.Returned tidyDocument))
    (Auditor.auditCrawlability (Auditor.Returned tidyPage))
    (JS.of_Z 0) [].

(** *** Results of the simple auditor *)

Definition slotWith {A : Type} (bundle : Z -> A) (score : option Z)
  : SimpleAuditor.Slot A :=
  match score with
  | Some x => SimpleAuditor.Filled (bundle x)
  | None => SimpleAuditor.Empty
  end.

Definition defaultChecks : SeoChecks.t :=
  SeoData.checks
    (eval (SimpleAuditor.auditSEO "https://example.org") world0).

(** A results object with the given category scores, [None] leaving the
    slot empty; the other fields are those of the default bucket. *)
Definition report (p s a k : option Z) : SimpleAuditor.Results.t :=
  SimpleAuditor.Results.mk "https://example.org" "2024-01-01T00:00:00.000Z"
    (slotWith
       (fun x =>
          SimpleAuditor.PerformanceData.mk
            (SimpleAuditor.PerformanceData.coreWebVitals
               (cannedPerformance DefaultSite))
            (SimpleAuditor.PerformanceData.metrics
               (cannedPerformance DefaultSite))
            x estimatedPerformanceNote) p)
    (slotWith (fun x => SeoData.mk defaultChecks x) s)
    (slotWith
       (fun x =>
          SimpleAuditor.AccessibilityData.mk
            (SimpleAuditor.AccessibilityData.issues cannedAccessibility)
            x 150 25 10 estimatedAccessibilityNote) a)
    (slotWith
       (fun x =>
          SimpleAuditor.CrawlabilityData.mk [] x "https://example.org" true 5)
       k)
    (JS.of_Z 0) [].

(** The default checks with other title and description blocks. *)
Definition checksWith (title metaDescription : TextCheck.t) : SeoChecks.t :=
  SeoChecks.mk title metaDescription
    (SeoChecks.headings defaultChecks) (SeoChecks.images defaultChecks)
    (SeoChecks.links defaultChecks) (SeoChecks.structuredData defaultChecks)
    (SeoChecks.robots defaultChecks) (SeoChecks.sitemap defaultChecks).

Definition noText : TextCheck.t := TextCheck.mk false "" 0 false.

(** A results object whose SEO bundle has a title but no meta description,
    scored by the degraded scorer, next to a failing accessibility score. *)
Definition descriptionMissing : SimpleAuditor.Results.t :=
  let checks := checksWith (SeoChecks.title defaultChecks) noText in
  SimpleAuditor.Results.mk "https://example.org" "2024-01-01T00:00:00.000Z"
    (SimpleAuditor.Filled (cannedPerformance DefaultSite))
    (SimpleAuditor.Filled
       (SeoData.mk checks (SimpleAuditor.calculateSEOScore checks)))
    (SimpleAuditor.Filled
       (SimpleAuditor.AccessibilityData.mk [] 40 150 25 10
          estimatedAccessibilityNote))
    (SimpleAuditor.Filled
       (SimpleAuditor.CrawlabilityData.mk [] 90 "https://example.org" true 5))
    (JS.of_Z 0) [].

(** Title absent, meta description absent, no H1, alt coverage 75%; robots.txt
    and sitemap as in the canned bundles (not found, absent). *)
Definition fourDefects : SeoChecks.t :=
  SeoChecks.mk noText noText
    (Headings.mk 0 2 3 1 0 0 false false)
    (Images.mk 8 6 2 (JS.of_Z 75))
    (Links.mk 10 6 4 2)
    (StructuredData.mk 0 0 0)
    (Robots.mk "index, follow" "Not found")
    (Sitemap.mk false "").

(** The same four defects on a site that serves robots.txt and links a
    sitemap. *)
Definition fourDefectsOnly : SeoChecks.t :=
  SeoChecks.mk noText noText
    (Headings.mk 0 2 3 1 0 0 false false)
    (Images.mk 8 6 2 (JS.of_Z 75))
    (Links.mk 10 6 4 2)
    (StructuredData.mk 0 0 0)
    (Robots.mk "index, follow" "User-agent: *")
    (Sitemap.mk true "/sitemap.xml").


End Samples.

(** * Properties *)

(** ** Aggregation *)

Section Accumulation.

Variable numericScore : Category -> option Z.
Variable weights : Category -> JS.number.

(** The body of the [forEach] callback of [calculateOverallScore]. *)
Let step : JS.number * JS.number -> Category -> JS.number * JS.number :=
  fun '(totalScore, totalWeight) c =>
    match numericScore c with
    | Some score =>
        (JS.add totalScore (JS.mul (JS.of_Z score) (weights c)),
         JS.add totalWeight (weights c))
    | None => (totalScore, totalWeight)
    end.

Let entriesOf (cs : list Category) : list (Category * Z) :=
  flat_map
    (fun c =>
       match numericScore c with
       | Some score => [(c, score)]
       | None => []
       end)
    cs.

(** The two accumulators of the loop are two independent left-to-right sums
    over the categories that have a numeric score. *)
Lemma accumulators_are_sums (cs : list Category) :
  forall totalScore totalWeight,
    fold_left step cs (totalScore, totalWeight)
    = (fold_left JS.add
         (map (fun '(c, score) => JS.mul (JS.of_Z score) (weights c))
            (entriesOf cs))
         totalScore,
       fold_left JS.add (map (fun '(c, _) => weights c) (entriesOf cs))
         totalWeight).
Proof.
  induction cs as [| c cs IH]; intros totalScore totalWeight.
  - reflexivity.
  - cbn [fold_left entriesOf flat_map].
    unfold step at 2.
    destruct (numericScore c) as [score |].
    + rewrite IH. reflexivity.
    + rewrite IH. reflexivity.
Qed.

End Accumulation.

Lemma auditor_overall_is_weightedMean (r : Auditor.Results.t) :
  Auditor.calculateOverallScore r
  = weightedMean Auditor.weights (scored (Auditor.numericScore r)).
Proof.
  unfold Auditor.calculateOverallScore, weightedMean, scored, sum.
  rewrite (accumulators_are_sums (Auditor.numericScore r) Auditor.weights).
  reflexivity.
Qed.

Lemma simple_overall_is_weightedMean (r : SimpleAuditor.Results.t) :
  SimpleAuditor.calculateOverallScore r
  = weightedMean SimpleAuditor.weights (scored (SimpleAuditor.numericScore r)).
Proof.
  unfold SimpleAuditor.calculateOverallScore, weightedMean, scored, sum.
  rewrite (accumulators_are_sums (SimpleAuditor.numericScore r)
             SimpleAuditor.weights).
  reflexivity.
Qed.

(** Membership in [scored]: exactly the categories with a numeric score. *)
Lemma in_scored (numericScore : Category -> option Z) (c : Category) (x : Z) :
  In (c, x) (scored numericScore) <-> numericScore c = Some x.
Proof.
  unfold scored. rewrite in_flat_map. split.
  - intros [c' [_ Hin]].
    destruct (numericScore c') as [y |] eqn:E; cbn in Hin.
    + destruct Hin as [Heq | []]. inversion Heq; subst. exact E.
    + destruct Hin.
  - intros E. exists c. split.
    + destruct c; cbn; auto.
    + rewrite E. left. reflexivity.
Qed.

(** Every [catch] block of the full auditor returns the numeric score 0. *)
Lemma caught_scores_zero (r : Auditor.Results.t) (c : Category) :
  Auditor.caught r c -> Auditor.numericScore r c = Some 0.
Proof.
  destruct c; cbn; intros [message E]; rewrite E; reflexivity.
Qed.

(** C1, as stated, fails: a category whose extraction errored is not left
    out of the overall score.  In the run [Samples.seoFetchFailed] the SEO
    fetch threw, the other three categories score 100, and the overall score
    is 70: the SEO slot enters with score 0 and weight 0.3.  Leaving the
    slot out gives 100. *)
Lemma failed_seo_fetch_counts_as_zero :
  Auditor.caught Samples.seoFetchFailed SEO
  /\ Auditor.numericScore Samples.seoFetchFailed SEO = Some 0
  /\ Auditor.calculateOverallScore Samples.seoFetchFailed = JS.of_Z 70
  /\ Auditor.calculateOverallScore Samples.seoLeftOut = JS.of_Z 100
  /\ Auditor.calculateOverallScore Samples.seoFetchFailed
     <> Auditor.calculateOverallScore Samples.seoLeftOut.
Proof.
  split; [| split; [| split; [| split]]].
  - exists "timeout of 10000ms exceeded". reflexivity.
  - reflexivity.
  - vm_compute. reflexivity.
  - vm_compute. reflexivity.
  - vm_compute. discriminate.
Qed.

(** C1, amended: the overall score of the full auditor is the weighted mean
    over exactly the categories whose slot carries a numeric score.  A slot
    without a numeric score contributes to neither the numerator nor the
    denominator.  A category whose extraction errored is not such a slot:
    every [catch] block returns the numeric score 0, and the category enters
    the mean with score 0 and its full weight. *)
Theorem overall_counts_every_numeric_score
    (r : Auditor.Results.t) (c : Category) :
  Auditor.calculateOverallScore r
  = weightedMean Auditor.weights (scored (Auditor.numericScore r))
  /\ (Auditor.numericScore r c = None ->
      forall x, ~ In (c, x) (scored (Auditor.numericScore r)))
  /\ (Auditor.caught r c -> In (c, 0) (scored (Auditor.numericScore r)))
  /\ (forall message,
        Auditor.auditPerformance (Auditor.Threw message)
        = Auditor.Errored message 0
        /\ Auditor.auditSEO (Auditor.Threw message)
           = Auditor.Errored message 0
        /\ Auditor.auditAccessibility (Auditor.Threw message)
           = Auditor.Errored message 0
        /\ Auditor.auditCrawlability (Auditor.Threw message)
           = Auditor.Errored message 0).
Proof.
  split; [| split; [| split]].
  - apply auditor_overall_is_weightedMean.
  - intros Hnone x Hin. apply in_scored in Hin. congruence.
  - intros Hcaught. apply in_scored. apply caught_scores_zero. exact Hcaught.
  - intros message. repeat split.
Qed.

(** The failed SEO fetch is counted, the empty SEO slot is not. *)
Lemma overall_counts_every_numeric_score_witness :
  In (SEO, 0) (scored (Auditor.numericScore Samples.seoFetchFailed))
  /\ (forall x,
        ~ In (SEO, x) (scored (Auditor.numericScore Samples.seoLeftOut))).
Proof.
  split.
  - apply (proj1 (proj2 (proj2
             (overall_counts_every_numeric_score Samples.seoFetchFailed SEO)))).
    exists "timeout of 10000ms exceeded". reflexivity.
  - apply (proj1 (proj2
             (overall_counts_every_numeric_score Samples.seoLeftOut SEO))).
    reflexivity.
Defined.

(** C2, as stated, fails: the aggregation is carried out in binary64, and on
    a half-way case the rounding error of the products and the quotient can
    tip [Math.round].  With accessibility absent and scores 90, 80 and 59,
    the exact mean is 62.8 / 0.8 = 78.5, which rounds to 79; the method
    computes 78.49999999999999 and returns 78. *)
Lemma overall_of_90_80_59_is_78 :
  SimpleAuditor.calculateOverallScore
    (Samples.report (Some 90) (Some 80) None (Some 59)) = JS.of_Z 78
  /\ exactMean
       (scored (SimpleAuditor.numericScore
                  (Samples.report (Some 90) (Some 80) None (Some 59)))) = 79
  /\ SimpleAuditor.calculateOverallScore
       (Samples.report (Some 90) (Some 80) None (Some 59))
     <> JS.of_Z
          (exactMean
             (scored (SimpleAuditor.numericScore
                        (Samples.report (Some 90) (Some 80) None (Some 59))))).
Proof.
  split; [| split].
  - vm_compute. reflexivity.
  - vm_compute. reflexivity.
  - vm_compute. discriminate.
Qed.

(** The overall score is a function of the four numeric scores alone. *)
Lemma simple_overall_from_scores (r : SimpleAuditor.Results.t)
    (p s a k : option Z) :
  SimpleAuditor.numericScore r Performance = p ->
  SimpleAuditor.numericScore r SEO = s ->
  SimpleAuditor.numericScore r Accessibility = a ->
  SimpleAuditor.numericScore r Crawlability = k ->
  SimpleAuditor.calculateOverallScore r
  = SimpleAuditor.calculateOverallScore (Samples.report p s a k).
Proof.
  intros Hp Hs Ha Hk.
  rewrite !simple_overall_is_weightedMean.
  unfold scored. cbn [flat_map keys].
  rewrite Hp, Hs, Ha, Hk.
  destruct p, s, a, k; reflexivity.
Qed.

(** C2, amended: [calculateOverallScore] is [Math.round] of the quotient of
    two sums, the products score x weight and the weights of the categories
    with a numeric score, every product, sum and quotient being a binary64
    operation and the sums running from 0 in the order performance, SEO,
    accessibility, crawlability; the weights are the literals 0.3, 0.3, 0.2
    and 0.2; the result is 0 when no category has a numeric score; scores
    90, 80, 70, 60 give 77, and scores 90, 80, 60 with accessibility absent
    give 79. *)
Theorem overall_is_binary64_weighted_mean (r : SimpleAuditor.Results.t) :
  SimpleAuditor.calculateOverallScore r
  = weightedMean SimpleAuditor.weights (scored (SimpleAuditor.numericScore r))
  /\ (SimpleAuditor.weights Performance = JS.dec 3 10
      /\ SimpleAuditor.weights SEO = JS.dec 3 10
      /\ SimpleAuditor.weights Accessibility = JS.dec 2 10
      /\ SimpleAuditor.weights Crawlability = JS.dec 2 10)
  /\ ((forall c, SimpleAuditor.numericScore r c = None) ->
      SimpleAuditor.calculateOverallScore r = JS.of_Z 0)
  /\ (SimpleAuditor.numericScore r Performance = Some 90 ->
      SimpleAuditor.numericScore r SEO = Some 80 ->
      SimpleAuditor.numericScore r Accessibility = Some 70 ->
      SimpleAuditor.numericScore r Crawlability = Some 60 ->
      SimpleAuditor.calculateOverallScore r = JS.of_Z 77)
  /\ (SimpleAuditor.numericScore r Performance = Some 90 ->
      SimpleAuditor.numericScore r SEO = Some 80 ->
      SimpleAuditor.numericScore r Accessibility = None ->
      SimpleAuditor.numericScore r Crawlability = Some 60 ->
      SimpleAuditor.calculateOverallScore r = JS.of_Z 79).
Proof.
  split; [| split; [| split; [| split]]].
  - apply simple_overall_is_weightedMean.
  - repeat split.
  - intros Hnone.
    rewrite (simple_overall_from_scores r None None None None) by apply Hnone.
    vm_compute. reflexivity.
  - intros Hp Hs Ha Hk.
    rewrite (simple_overall_from_scores r _ _ _ _ Hp Hs Ha Hk).
    vm_compute. reflexivity.
  - intros Hp Hs Ha Hk.
    rewrite (simple_overall_from_scores r _ _ _ _ Hp Hs Ha Hk).
    vm_compute. reflexivity.
Qed.

(** The zero case and the two worked examples, on concrete results objects. *)
Lemma overall_is_binary64_weighted_mean_witness :
  SimpleAuditor.calculateOverallScore (Samples.report None None None None)
  = JS.of_Z 0
  /\ SimpleAuditor.calculateOverallScore
       (Samples.report (Some 90) (Some 80) (Some 70) (Some 60)) = JS.of_Z 77
  /\ SimpleAuditor.calculateOverallScore
       (Samples.report (Some 90) (Some 80) None (Some 60)) = JS.of_Z 79.
Proof.
  split; [| split].
  - apply (proj1 (proj2 (proj2
             (overall_is_binary64_weighted_mean
                (Samples.report None None None None))))).
    intros c. destruct c; reflexivity.
  - apply (proj1 (proj2 (proj2 (proj2
             (overall_is_binary64_weighted_mean
                (Samples.report (Some 90) (Some 80) (Some 70) (Some 60)))))));
      reflexivity.
  - apply (proj2 (proj2 (proj2 (proj2
             (overall_is_binary64_weighted_mean
                (Samples.report (Some 90) (Some 80) None (Some 60)))))));
      reflexivity.
Defined.

(** ** Recommendations *)

Section Recommendations.

Import SimpleAuditor.
Import Rules.

(** The array [generateRecommendations] returns is the concatenation of the
    recommendations of the four categories, in key order. *)
Lemma recommendations_by_category (r : Results.t) :
  generateRecommendations r
  = rule r Performance ++ rule r SEO ++ rule r Accessibility
    ++ rule r Crawlability.
Proof.
  destruct r as [u t p s a k o l].
  unfold generateRecommendations, rule, below70, missingTitle,
    missingMetaDescription, seoChecksOf, titleAbsent, metaDescriptionAbsent,
    scoreBelow, numericScore.
  cbn [Results.performance Results.seo Results.accessibility
       Results.crawlability].
  destruct p as [| p], s as [| s], a as [| a], k as [| k];
    try destruct (PerformanceData.score p <? 70);
    try destruct (SeoData.score s <? 70);
    try destruct (AccessibilityData.score a <? 70);
    try destruct (CrawlabilityData.score k <? 70);
    try destruct (TextCheck.present (SeoChecks.title (SeoData.checks s)));
    try destruct
      (TextCheck.present (SeoChecks.metaDescription (SeoData.checks s)));
    reflexivity.
Qed.

Lemma countFor_app (c : Category) (l1 l2 : list Recommendation.t) :
  countFor c (l1 ++ l2) = countFor c l1 + countFor c l2.
Proof.
  unfold countFor. rewrite filter_app, length_app. lia.
Qed.

(** The recommendations of a category carry the label of that category. *)
Lemma countFor_other (r : Results.t) (c c' : Category) :
  c <> c' -> countFor c (rule r c') = 0.
Proof.
  intros Hne. unfold rule.
  destruct (below70 r c'); [| reflexivity].
  destruct c, c'; try congruence;
    try destruct (missingTitle r); try destruct (missingMetaDescription r);
    reflexivity.
Qed.

Lemma countFor_own (r : Results.t) (c : Category) :
  countFor c (rule r c)
  = if below70 r c then
      match c with
      | SEO => pick (missingTitle r) 1 + pick (missingMetaDescription r) 1
      | _ => 1
      end
    else 0.
Proof.
  unfold rule. destruct (below70 r c); [| reflexivity].
  destruct c; try reflexivity.
  destruct (missingTitle r), (missingMetaDescription r); reflexivity.
Qed.

(** The number of recommendations a category receives. *)
Lemma countFor_generate (r : Results.t) (c : Category) :
  countFor c (generateRecommendations r)
  = if below70 r c then
      match c with
      | SEO => pick (missingTitle r) 1 + pick (missingMetaDescription r) 1
      | _ => 1
      end
    else 0.
Proof.
  rewrite recommendations_by_category, !countFor_app.
  rewrite <- (countFor_own r c).
  destruct c;
    repeat match goal with
      | |- context [countFor ?a (rule r ?b)] =>
          lazymatch a with
          | b => fail
          | _ => rewrite (countFor_other r a b) by discriminate
          end
      end;
    lia.
Qed.

Lemma numericScore_setScore (r : Results.t) (c : Category) (x : Z) :
  numericScore r c <> None -> numericScore (setScore c x r) c = Some x.
Proof.
  destruct r as [u t p s a k o l].
  destruct c; cbn;
    [destruct p | destruct s | destruct a | destruct k];
    cbn; congruence.
Qed.

Lemma seoChecksOf_setScore (r : Results.t) (c : Category) (x : Z) :
  seoChecksOf (setScore c x r) = seoChecksOf r.
Proof.
  destruct r as [u t p s a k o l].
  destruct c; cbn; try reflexivity.
  destruct s; reflexivity.
Qed.

End Recommendations.

(** C3, as stated, fails for the SEO category: with a title and a meta
    description present, lowering the SEO score from 70 to 69 leaves the
    number of SEO recommendations at 0. *)
Lemma seo_drop_adds_no_recommendation :
  SimpleAuditor.numericScore
    (Samples.report (Some 78) (Some 70) (Some 91) (Some 90)) SEO = Some 70
  /\ Rules.setScore SEO 69
       (Samples.report (Some 78) (Some 70) (Some 91) (Some 90))
     = Samples.report (Some 78) (Some 69) (Some 91) (Some 90)
  /\ Rules.countFor SEO
       (SimpleAuditor.generateRecommendations
          (Samples.report (Some 78) (Some 70) (Some 91) (Some 90))) = 0
  /\ Rules.countFor SEO
       (SimpleAuditor.generateRecommendations
          (Samples.report (Some 78) (Some 69) (Some 91) (Some 90))) = 0
  /\ ~ (Rules.countFor SEO
          (SimpleAuditor.generateRecommendations
             (Samples.report (Some 78) (Some 70) (Some 91) (Some 90)))
        < Rules.countFor SEO
            (SimpleAuditor.generateRecommendations
               (Rules.setScore SEO 69
                  (Samples.report (Some 78) (Some 70) (Some 91) (Some 90))))).
Proof.
  repeat split; try reflexivity.
  vm_compute. discriminate.
Qed.

(** C3, amended: lowering the score of a category from a value of at least
    70 to a value below 70, every other field fixed, never decreases the
    number of recommendations of that category.  Before, the category has
    none.  After, performance, accessibility and crawlability have exactly
    one, and SEO has one for an absent title plus one for an absent meta
    description; so the number strictly increases for performance,
    accessibility and crawlability, and for SEO when the title or the meta
    description is absent. *)
Theorem lowering_score_never_removes_recommendations
    (r : SimpleAuditor.Results.t) (c : Category) (hi lo : Z) :
  SimpleAuditor.numericScore r c = Some hi ->
  70 <= hi ->
  lo < 70 ->
  Rules.countFor c (SimpleAuditor.generateRecommendations r) = 0
  /\ Rules.countFor c
       (SimpleAuditor.generateRecommendations (Rules.setScore c lo r))
     = match c with
       | SEO =>
           pick (Rules.missingTitle r) 1
           + pick (Rules.missingMetaDescription r) 1
       | _ => 1
       end
  /\ Rules.countFor c (SimpleAuditor.generateRecommendations r)
     <= Rules.countFor c
          (SimpleAuditor.generateRecommendations (Rules.setScore c lo r))
  /\ (c <> SEO \/ Rules.missingTitle r = true
      \/ Rules.missingMetaDescription r = true ->
      Rules.countFor c (SimpleAuditor.generateRecommendations r)
      < Rules.countFor c
          (SimpleAuditor.generateRecommendations (Rules.setScore c lo r))).
Proof.
  intros Hscore Hhi Hlo.
  assert (Hbefore :
            Rules.countFor c (SimpleAuditor.generateRecommendations r) = 0).
  { rewrite countFor_generate. unfold Rules.below70. rewrite Hscore.
    destruct (Z.ltb_spec hi 70); [lia | reflexivity]. }
  assert (Hafter :
            Rules.countFor c
              (SimpleAuditor.generateRecommendations (Rules.setScore c lo r))
            = match c with
              | SEO =>
                  pick (Rules.missingTitle r) 1
                  + pick (Rules.missingMetaDescription r) 1
              | _ => 1
              end).
  { rewrite countFor_generate. unfold Rules.below70.
    rewrite numericScore_setScore by congruence.
    destruct (Z.ltb_spec lo 70); [| lia].
    unfold Rules.missingTitle, Rules.missingMetaDescription.
    rewrite seoChecksOf_setScore. reflexivity. }
  rewrite Hbefore, Hafter.
  split; [reflexivity |]. split; [reflexivity |]. split.
  - destruct c; try lia.
    destruct (Rules.missingTitle r), (Rules.missingMetaDescription r);
      cbn; lia.
  - intros Hstrict. destruct c; try lia.
    destruct Hstrict as [Hne | [Ht | Hm]].
    + congruence.
    + rewrite Ht. destruct (Rules.missingMetaDescription r); cbn; lia.
    + rewrite Hm. destruct (Rules.missingTitle r); cbn; lia.
Qed.

(** With the meta description absent, an SEO score going from 70 to 59 adds a recommendation. *)
Lemma lowering_score_never_removes_recommendations_witness :
  Rules.countFor SEO
    (SimpleAuditor.generateRecommendations
       (Rules.setScore SEO 70 Samples.descriptionMissing))
  < Rules.countFor SEO
      (SimpleAuditor.generateRecommendations
         (Rules.setScore SEO 59
            (Rules.setScore SEO 70 Samples.descriptionMissing))).
Proof.
  apply (lowering_score_never_removes_recommendations
           (Rules.setScore SEO 70 Samples.descriptionMissing) SEO 70 59).
  - reflexivity.
  - lia.
  - lia.
  - right. right. reflexivity.
Defined.

(** C6: [generateRecommendations] appends the recommendations category by
    category, in the order performance, SEO, accessibility, crawlability,
    and never reorders them by priority.  Performance below 70 gives exactly
    the high-priority Core Web Vitals recommendation; SEO below 70 gives the
    high-priority title recommendation iff the title is absent, followed by
    the medium-priority meta description recommendation iff the meta
    description is absent; accessibility below 70 gives exactly one
    high-priority recommendation; crawlability below 70 gives exactly one
    medium-priority recommendation.  A category scoring at least 70 gets no
    recommendation, and the list is empty when all four score at least 70.
    In [Samples.descriptionMissing] the medium-priority SEO recommendation
    precedes the high-priority accessibility recommendation. *)
Theorem recommendations_follow_category_order (r : SimpleAuditor.Results.t) :
  SimpleAuditor.generateRecommendations r
  = Rules.rule r Performance ++ Rules.rule r SEO
    ++ Rules.rule r Accessibility ++ Rules.rule r Crawlability
  /\ Rules.rule r Performance
     = (if Rules.below70 r Performance then [Rules.coreWebVitalsAdvice]
        else [])
  /\ Rules.rule r SEO
     = (if Rules.below70 r SEO then
          (if Rules.missingTitle r then [Rules.titleAdvice] else [])
          ++ (if Rules.missingMetaDescription r
              then [Rules.metaDescriptionAdvice] else [])
        else [])
  /\ Rules.rule r Accessibility
     = (if Rules.below70 r Accessibility then [Rules.accessibilityAdvice]
        else [])
  /\ Rules.rule r Crawlability
     = (if Rules.below70 r Crawlability then [Rules.crawlabilityAdvice]
        else [])
  /\ (Recommendation.priority Rules.coreWebVitalsAdvice = "high"
      /\ Recommendation.priority Rules.titleAdvice = "high"
      /\ Recommendation.priority Rules.metaDescriptionAdvice = "medium"
      /\ Recommendation.priority Rules.accessibilityAdvice = "high"
      /\ Recommendation.priority Rules.crawlabilityAdvice = "medium")
  /\ (forall c x,
        SimpleAuditor.numericScore r c = Some x -> 70 <= x ->
        Rules.rule r c = []
        /\ Rules.countFor c (SimpleAuditor.generateRecommendations r) = 0)
  /\ ((forall c, exists x,
         SimpleAuditor.numericScore r c = Some x /\ 70 <= x) ->
      SimpleAuditor.generateRecommendations r = [])
  /\ SimpleAuditor.generateRecommendations Samples.descriptionMissing
     = [Rules.metaDescriptionAdvice; Rules.accessibilityAdvice].
Proof.
  assert (Hpass : forall c x,
             SimpleAuditor.numericScore r c = Some x -> 70 <= x ->
             Rules.below70 r c = false).
  { intros c x Hscore Hx. unfold Rules.below70. rewrite Hscore.
    destruct (Z.ltb_spec x 70); [lia | reflexivity]. }
  split; [apply recommendations_by_category |].
  split; [reflexivity |]. split; [reflexivity |].
  split; [reflexivity |]. split; [reflexivity |].
  split; [repeat split |]. split; [| split].
  - intros c x Hscore Hx. split.
    + unfold Rules.rule. rewrite (Hpass c x Hscore Hx). reflexivity.
    + rewrite countFor_generate, (Hpass c x Hscore Hx). reflexivity.
  - intros Hall. rewrite recommendations_by_category. unfold Rules.rule.
    destruct (Hall Performance) as [p [Hp Hp70]].
    destruct (Hall SEO) as [s [Hs Hs70]].
    destruct (Hall Accessibility) as [a [Ha Ha70]].
    destruct (Hall Crawlability) as [k [Hk Hk70]].
    rewrite (Hpass _ _ Hp Hp70), (Hpass _ _ Hs Hs70), (Hpass _ _ Ha Ha70),
      (Hpass _ _ Hk Hk70).
    reflexivity.
  - reflexivity.
Qed.

(** A crawlability score of 90 gets no recommendation; scores 78, 70, 91, 90 get none at all. *)
Lemma recommendations_follow_category_order_witness :
  (Rules.rule (Samples.report (Some 78) (Some 69) (Some 91) (Some 90))
     Crawlability = []
   /\ Rules.countFor Crawlability
        (SimpleAuditor.generateRecommendations
           (Samples.report (Some 78) (Some 69) (Some 91) (Some 90))) = 0)
  /\ SimpleAuditor.generateRecommendations
       (Samples.report (Some 78) (Some 70) (Some 91) (Some 90)) = [].
Proof.
  split.
  - destruct (recommendations_follow_category_order
                (Samples.report (Some 78) (Some 69) (Some 91) (Some 90)))
      as (_ & _ & _ & _ & _ & _ & Hpass & _ & _).
    apply (Hpass Crawlability 90).
    + reflexivity.
    + lia.
  - destruct (recommendations_follow_category_order
                (Samples.report (Some 78) (Some 70) (Some 91) (Some 90)))
      as (_ & _ & _ & _ & _ & _ & _ & Hall & _).
    apply Hall.
    intros c. destruct c.
    + exists 78. split; [reflexivity | lia].
    + exists 70. split; [reflexivity | lia].
    + exists 91. split; [reflexivity | lia].
    + exists 90. split; [reflexivity | lia].
Defined.

(** ** Category scorers *)

Lemma charge (b : bool) (score points : Z) :
  (if b then score - points else score) = score - pick b points.
Proof. destruct b; unfold pick; lia. Qed.

Lemma credit (b : bool) (score points : Z) :
  (if b then score + points else score) = score + pick b points.
Proof. destruct b; unfold pick; lia. Qed.

Lemma charge_either (b1 b2 : bool) (score p1 p2 : Z) :
  (if b1 then score - p1 else if b2 then score - p2 else score)
  = score - (if b1 then p1 else pick b2 p2).
Proof. destruct b1, b2; unfold pick; lia. Qed.

(** The degraded SEO scorer, as one subtraction. *)
Lemma simple_seo_closed_form (s : SeoChecks.t) :
  SimpleAuditor.calculateSEOScore s
  = clamp 0 100 (92 - seoDeductions s + seoBonus s).
Proof.
  unfold SimpleAuditor.calculateSEOScore, clamp, seoDeductions, seoBonus,
    titleAbsent, metaDescriptionAbsent, lowAltCoverage, moreExternalLinks,
    hasJsonLd, robotsTxtMissing, sitemapMissing.
  cbv zeta.
  rewrite !Z.gtb_ltb, !charge_either, !charge, !credit.
  f_equal. f_equal. lia.
Qed.

(** C4, as stated, fails on its example: title absent, meta description
    absent, no H1 and alt coverage below 80% do not fix the score at 17,
    because the other rules still apply.  With robots.txt not found and no
    sitemap, as in both canned bundles, the score is
    92 - 25 - 15 - 20 - 15 - 5 - 3 = 9. *)
Lemma four_defects_score_9 :
  titleAbsent Samples.fourDefects = true
  /\ metaDescriptionAbsent Samples.fourDefects = true
  /\ Headings.hasH1 (SeoChecks.headings Samples.fourDefects) = false
  /\ lowAltCoverage Samples.fourDefects = true
  /\ SimpleAuditor.calculateSEOScore Samples.fourDefects = 9
  /\ SimpleAuditor.calculateSEOScore Samples.fourDefects <> 17.
Proof.
  repeat split; try (vm_compute; reflexivity).
  vm_compute. discriminate.
Qed.

(** C4, amended: the degraded SEO scorer starts at 92; deducts 25 for an
    absent title, else 10 for a title not flagged optimal; 15 for an absent
    meta description, else 5 for one not flagged optimal; 20 for no H1; 15
    for multiple H1s; 15 for alt coverage below 80; 10 when there is a link
    and external links exceed internal ones; 5 when robots.txt is
    [Not found]; 3 when no sitemap is present; adds 5 when JSON-LD is
    present; and clamps to [0,100].  With title absent, meta description
    absent, no H1, alt coverage below 80 and no other rule applying, the
    score is 17.  In the bundles of the degraded extractor the optimal flags
    are the length tests [30,60] and [120,160] on the canned lengths. *)
Theorem degraded_seo_score_formula (s : SeoChecks.t) (url : string)
    (w : World) :
  SimpleAuditor.calculateSEOScore s
  = clamp 0 100 (92 - seoDeductions s + seoBonus s)
  /\ (titleAbsent s = true ->
      metaDescriptionAbsent s = true ->
      Headings.hasH1 (SeoChecks.headings s) = false ->
      lowAltCoverage s = true ->
      Headings.multipleH1 (SeoChecks.headings s) = false ->
      moreExternalLinks s = false ->
      hasJsonLd s = false ->
      robotsTxtMissing s = false ->
      sitemapMissing s = false ->
      SimpleAuditor.calculateSEOScore s = 17)
  /\ (TextCheck.optimal
        (SeoChecks.title (SeoData.checks (eval (SimpleAuditor.auditSEO url) w)))
      = Auditor.titleOptimal
          (TextCheck.length
             (SeoChecks.title
                (SeoData.checks (eval (SimpleAuditor.auditSEO url) w))))
      /\ TextCheck.optimal
           (SeoChecks.metaDescription
              (SeoData.checks (eval (SimpleAuditor.auditSEO url) w)))
         = Auditor.metaDescriptionOptimal
             (TextCheck.length
                (SeoChecks.metaDescription
                   (SeoData.checks (eval (SimpleAuditor.auditSEO url) w))))).
Proof.
  split; [apply simple_seo_closed_form |]. split.
  - intros Ht Hm Hh1 Halt Hmulti Hlinks Hld Hrobots Hsitemap.
    rewrite simple_seo_closed_form.
    unfold seoDeductions, seoBonus.
    rewrite Ht, Hm, Hh1, Halt, Hmulti, Hlinks, Hld, Hrobots, Hsitemap.
    reflexivity.
  - unfold SimpleAuditor.auditSEO, eval, ret.
    destruct (SimpleAuditor.isComplexSite url); split; reflexivity.
Qed.

(** The four defects alone, on a site with robots.txt and a sitemap, score 17. *)
Lemma degraded_seo_score_formula_witness :
  SimpleAuditor.calculateSEOScore Samples.fourDefectsOnly = 17.
Proof.
  apply (proj1 (proj2
           (degraded_seo_score_formula Samples.fourDefectsOnly
              "https://example.org" Samples.world0)));
    vm_compute; reflexivity.
Defined.

(** The performance scorer, as one subtraction. *)
Lemma performance_closed_form (v : Auditor.Vitals.t) (m : Auditor.Metrics.t) :
  Auditor.calculatePerformanceScore v m
  = Z.max 0 (100 - performancePenalty v m).
Proof.
  unfold Auditor.calculatePerformanceScore, performancePenalty, tier, flat.
  cbv zeta.
  rewrite !charge_either, !charge.
  f_equal. unfold pick. lia.
Qed.

Lemma tier_bounds (x severe : JS.number) (sp : Z) (mild : JS.number) (mp : Z) :
  0 <= mp <= sp -> 0 <= tier x severe sp mild mp <= sp.
Proof.
  unfold tier. destruct (JS.gt x severe), (JS.gt x mild); lia.
Qed.

Lemma flat_bounds (x limit : JS.number) (p : Z) :
  0 <= p -> 0 <= flat x limit p <= p.
Proof.
  unfold flat. destruct (JS.gt x limit); lia.
Qed.

Lemma performancePenalty_bounds (v : Auditor.Vitals.t) (m : Auditor.Metrics.t) :
  0 <= performancePenalty v m <= 95.
Proof.
  unfold performancePenalty.
  pose proof (tier_bounds (JS.toNumber (Auditor.Vitals.lcp v))
                (JS.of_Z 4000) 30 (JS.of_Z 2500) 15).
  pose proof (tier_bounds (JS.toNumber (Auditor.Vitals.fid v))
                (JS.of_Z 300) 25 (JS.of_Z 100) 10).
  pose proof (tier_bounds (JS.toNumber (Auditor.Vitals.cls v))
                (JS.dec 25 100) 20 (JS.dec 1 10) 10).
  pose proof (flat_bounds (Auditor.Metrics.domContentLoaded m)
                (JS.of_Z 3000) 10).
  pose proof (flat_bounds (Auditor.Metrics.loadComplete m) (JS.of_Z 5000) 10).
  lia.
Qed.

(** C5: [calculatePerformanceScore] starts at 100 and subtracts, for LCP, 30
    above 4000 ms, else 15 above 2500 ms; for FID, 25 above 300 ms, else 10
    above 100 ms; for CLS, 20 above 0.25, else 10 above 0.1; 10 when
    domContentLoaded exceeds 3000 ms; 10 when loadComplete exceeds 5000 ms;
    and clamps the result at 0.  Within a metric only one tier applies: a
    value above the severe threshold is charged the severe penalty alone.
    A page in the worst tier of every metric scores 100 - 95 = 5. *)
Theorem performance_score_formula (v : Auditor.Vitals.t)
    (m : Auditor.Metrics.t) :
  Auditor.calculatePerformanceScore v m
  = Z.max 0 (100 - performancePenalty v m)
  /\ performancePenalty v m
     = (if JS.gt (JS.toNumber (Auditor.Vitals.lcp v)) (JS.of_Z 4000) then 30
        else if JS.gt (JS.toNumber (Auditor.Vitals.lcp v)) (JS.of_Z 2500)
        then 15 else 0)
       + (if JS.gt (JS.toNumber (Auditor.Vitals.fid v)) (JS.of_Z 300) then 25
          else if JS.gt (JS.toNumber (Auditor.Vitals.fid v)) (JS.of_Z 100)
          then 10 else 0)
       + (if JS.gt (JS.toNumber (Auditor.Vitals.cls v)) (JS.dec 25 100)
          then 20
          else if JS.gt (JS.toNumber (Auditor.Vitals.cls v)) (JS.dec 1 10)
          then 10 else 0)
       + (if JS.gt (Auditor.Metrics.domContentLoaded m) (JS.of_Z 3000)
          then 10 else 0)
       + (if JS.gt (Auditor.Metrics.loadComplete m) (JS.of_Z 5000)
          then 10 else 0)
  /\ 0 <= Auditor.calculatePerformanceScore v m
  /\ Auditor.calculatePerformanceScore Samples.slowVitals Samples.slowMetrics
     = 5
  /\ Auditor.calculatePerformanceScore Samples.fastVitals Samples.fastMetrics
     = 100.
Proof.
  split; [apply performance_closed_form |].
  split; [reflexivity |].
  split; [rewrite performance_closed_form; lia |].
  split; vm_compute; reflexivity.
Qed.

Lemma heading_skips_nonneg (levels : list Z) :
  forall previousLevel structureIssues,
    0 <= structureIssues ->
    0 <= snd (fold_left
                (fun '(previousLevel, structureIssues) level =>
                   (level,
                    if level >? previousLevel + 1 then structureIssues + 1
                    else structureIssues))
                levels (previousLevel, structureIssues)).
Proof.
  induction levels as [| level levels IH]; intros previousLevel n Hn.
  - exact Hn.
  - cbn [fold_left]. apply IH.
    destruct (level >? previousLevel + 1); lia.
Qed.

Lemma contrast_collisions_nonneg (elements : list (string * string)) :
  forall contrastIssues,
    0 <= contrastIssues ->
    0 <= fold_left
           (fun contrastIssues '(color, backgroundColor) =>
              if String.eqb color backgroundColor then contrastIssues + 1
              else contrastIssues)
           elements contrastIssues.
Proof.
  induction elements as [| [color backgroundColor] elements IH];
    intros n Hn.
  - exact Hn.
  - cbn [fold_left]. apply IH.
    destruct (String.eqb color backgroundColor); lia.
Qed.

Lemma len_nonneg {A : Type} (l : list A) : 0 <= Auditor.len l.
Proof. unfold Auditor.len. lia. Qed.

Lemma accessibility_score_bounds (d : Auditor.AccessibilityDom.t) :
  0 <= Auditor.AccessibilityData.score (Auditor.evaluateAccessibility d)
  <= 100.
Proof.
  unfold Auditor.evaluateAccessibility. cbv zeta.
  pose proof (len_nonneg (Auditor.AccessibilityDom.imagesWithoutAlt d)) as Hi.
  pose proof (len_nonneg
                (filter (fun hasLabel : bool => negb hasLabel)
                   (Auditor.AccessibilityDom.inputsWithoutLabels d))) as Hl.
  pose proof (heading_skips_nonneg
                (Auditor.AccessibilityDom.headingLevels d) 0 0
                (Z.le_refl 0)) as Hs.
  pose proof (contrast_collisions_nonneg
                (Auditor.AccessibilityDom.textElements d) 0
                (Z.le_refl 0)) as Hc.
  destruct (fold_left _ (Auditor.AccessibilityDom.headingLevels d) (0, 0))
    as [previousLevel structureIssues].
  cbn [snd] in Hs.
  destruct (Auditor.len (Auditor.AccessibilityDom.imagesWithoutAlt d) >? 0);
    destruct (structureIssues >? 0);
    destruct (Auditor.len
                (filter (fun hasLabel : bool => negb hasLabel)
                   (Auditor.AccessibilityDom.inputsWithoutLabels d)) >? 0);
    destruct (fold_left _ (Auditor.AccessibilityDom.textElements d) 0 >? 0);
    cbn [Auditor.AccessibilityData.score]; lia.
Qed.

Lemma crawlability_score_bounds (d : Auditor.CrawlabilityDom.t) :
  0 <= Auditor.CrawlabilityData.score (Auditor.evaluateCrawlability d) <= 100.
Proof.
  unfold Auditor.evaluateCrawlability. cbv zeta.
  destruct ((Z.of_nat (Auditor.CrawlabilityDom.scripts d) >? 0)
            && negb (Auditor.CrawlabilityDom.hasContent d));
    destruct (negb (Auditor.CrawlabilityDom.viewport d));
    destruct (negb (Auditor.CrawlabilityDom.canonical d));
    destruct (JS.includes "#" (Auditor.CrawlabilityDom.href d));
    cbn [Auditor.CrawlabilityData.score]; lia.
Qed.

(** C7: every category scorer returns an integer between 0 and 100: the
    performance, SEO, accessibility and crawlability scorers of the full
    auditor, the score 0 of its [catch] blocks, the SEO scorer of the simple
    auditor and the canned scores of its four extractors. *)
Theorem category_scores_within_0_100 :
  (forall v m, 0 <= Auditor.calculatePerformanceScore v m <= 100)
  /\ (forall s, 0 <= Auditor.calculateSEOScore s <= 100)
  /\ (forall d,
        0 <= Auditor.AccessibilityData.score (Auditor.evaluateAccessibility d)
        <= 100)
  /\ (forall d,
        0 <= Auditor.CrawlabilityData.score (Auditor.evaluateCrawlability d)
        <= 100)
  /\ (forall message,
        Auditor.scoreOf Auditor.PerformanceData.score
          (Auditor.auditPerformance (Auditor.Threw message)) = Some 0
        /\ Auditor.scoreOf SeoData.score
             (Auditor.auditSEO (Auditor.Threw message)) = Some 0
        /\ Auditor.scoreOf Auditor.AccessibilityData.score
             (Auditor.auditAccessibility (Auditor.Threw message)) = Some 0
        /\ Auditor.scoreOf Auditor.CrawlabilityData.score
             (Auditor.auditCrawlability (Auditor.Threw message)) = Some 0)
  /\ (forall s, 0 <= SimpleAuditor.calculateSEOScore s <= 100)
  /\ (forall url,
        0 <= SimpleAuditor.PerformanceData.score
               (SimpleAuditor.createMockPerformanceData url) <= 100)
  /\ (forall u,
        0 <= SimpleAuditor.AccessibilityData.score
               (SimpleAuditor.createMockAccessibilityData u) <= 100)
  /\ (forall url w,
        0 <= SeoData.score (eval (SimpleAuditor.auditSEO url) w) <= 100)
  /\ (forall url w,
        0 <= SimpleAuditor.CrawlabilityData.score
               (eval (SimpleAuditor.auditCrawlability url) w) <= 100).
Proof.
  split; [| split; [| split; [| split; [| split; [| split; [| split;
    [| split; [| split]]]]]]]].
  - intros v m. rewrite performance_closed_form.
    pose proof (performancePenalty_bounds v m). lia.
  - intros s. unfold Auditor.calculateSEOScore. lia.
  - apply accessibility_score_bounds.
  - apply crawlability_score_bounds.
  - intros message. repeat split.
  - intros s. unfold SimpleAuditor.calculateSEOScore. lia.
  - intros url. unfold SimpleAuditor.createMockPerformanceData.
    destruct (SimpleAuditor.isComplexSite url);
      [| destruct (SimpleAuditor.isSimpleSite url)];
      cbn [SimpleAuditor.PerformanceData.score]; lia.
  - intros u. vm_compute. split; discriminate.
  - intros url w. unfold SimpleAuditor.auditSEO, eval, ret.
    cbn [fst SeoData.score].
    match goal with
    | |- 0 <= SimpleAuditor.calculateSEOScore ?checks <= 100 =>
        generalize checks
    end.
    intros s. unfold SimpleAuditor.calculateSEOScore. lia.
  - intros url w. unfold SimpleAuditor.auditCrawlability, eval, ret.
    destruct (SimpleAuditor.isComplexSite url);
      cbn [fst SimpleAuditor.CrawlabilityData.score]; lia.
Qed.

(** ** The degraded extractor *)

Lemma mock_performance_is_canned (url : string) :
  SimpleAuditor.createMockPerformanceData url = cannedPerformance (bucket url).
Proof.
  unfold SimpleAuditor.createMockPerformanceData, bucket,
    SimpleAuditor.isComplexSite, SimpleAuditor.isSimpleSite.
  destruct (JS.includes "optimizemydata" url || JS.includes "google" url
            || JS.includes "facebook" url).
  - vm_compute. reflexivity.
  - destruct (JS.includes "example.com" url || JS.includes "github.io" url);
      vm_compute; reflexivity.
Qed.

Lemma bucket_complex (url : string) :
  bucket url = ComplexSite
  <-> (JS.includes "optimizemydata" url = true
       \/ JS.includes "google" url = true
       \/ JS.includes "facebook" url = true).
Proof.
  unfold bucket.
  destruct (JS.includes "optimizemydata" url), (JS.includes "google" url),
    (JS.includes "facebook" url),
    (JS.includes "example.com" url || JS.includes "github.io" url);
    cbn; intuition congruence.
Qed.

Lemma bucket_simple (url : string) :
  bucket url = SimpleSite
  <-> (bucket url <> ComplexSite
       /\ (JS.includes "example.com" url = true
           \/ JS.includes "github.io" url = true)).
Proof.
  unfold bucket.
  destruct (JS.includes "optimizemydata" url || JS.includes "google" url
            || JS.includes "facebook" url),
    (JS.includes "example.com" url), (JS.includes "github.io" url);
    cbn; intuition congruence.
Qed.

Lemma bucket_default (url : string) :
  bucket url = DefaultSite
  <-> (bucket url <> ComplexSite /\ bucket url <> SimpleSite).
Proof.
  destruct (bucket url); intuition congruence.
Qed.

(** C8: the degraded extractor sorts every URL into one of three buckets by
    substring tests on the URL (complex when it contains [optimizemydata],
    [google] or [facebook]; else simple when it contains [example.com] or
    [github.io]; else default), all three buckets occur, and the performance
    bundle is the canned bundle of the bucket; the accessibility bundle is
    one canned bundle; neither depends on anything but the URL, and each
    carries a note that flags the data as estimated, the browser-based audit
    being unavailable. *)
Theorem degraded_bundles_are_canned (url : string) :
  SimpleAuditor.createMockPerformanceData url = cannedPerformance (bucket url)
  /\ (forall u, SimpleAuditor.createMockAccessibilityData u
                = cannedAccessibility)
  /\ (bucket url = ComplexSite
      <-> (JS.includes "optimizemydata" url = true
           \/ JS.includes "google" url = true
           \/ JS.includes "facebook" url = true))
  /\ (bucket url = SimpleSite
      <-> (bucket url <> ComplexSite
           /\ (JS.includes "example.com" url = true
               \/ JS.includes "github.io" url = true)))
  /\ (bucket url = DefaultSite
      <-> (bucket url <> ComplexSite /\ bucket url <> SimpleSite))
  /\ (bucket "https://www.google.com/" = ComplexSite
      /\ bucket "https://example.com" = SimpleSite
      /\ bucket "https://example.org" = DefaultSite
      /\ bucket "https://google.github.io" = ComplexSite)
  /\ (JS.includes "estimated"
        (SimpleAuditor.PerformanceData.note
           (SimpleAuditor.createMockPerformanceData url)) = true
      /\ JS.includes "browser-based audit unavailable"
           (SimpleAuditor.PerformanceData.note
              (SimpleAuditor.createMockPerformanceData url)) = true
      /\ JS.includes "estimated"
           (SimpleAuditor.AccessibilityData.note
              (SimpleAuditor.createMockAccessibilityData tt)) = true
      /\ JS.includes "browser-based audit unavailable"
           (SimpleAuditor.AccessibilityData.note
              (SimpleAuditor.createMockAccessibilityData tt)) = true).
Proof.
  split; [apply mock_performance_is_canned |].
  split; [intros []; vm_compute; reflexivity |].
  split; [apply bucket_complex |].
  split; [apply bucket_simple |].
  split; [apply bucket_default |].
  split; [repeat split |].
  rewrite mock_performance_is_canned.
  destruct (bucket url); vm_compute; repeat split; reflexivity.
Qed.

(** A URL that contains [facebook] falls into the complex bucket. *)
Lemma degraded_bundles_are_canned_witness :
  bucket "https://www.facebook.com/page" = ComplexSite.
Proof.
  destruct (degraded_bundles_are_canned "https://www.facebook.com/page")
    as (_ & _ & [_ Hcomplex] & _).
  apply Hcomplex. right. right. reflexivity.
Defined.

Lemma simple_audit_unfolded (url : string) (w : World) :
  eval (SimpleAuditor.auditWebsite url) w
  = let seoResults := eval (SimpleAuditor.auditSEO url) w in
    let crawlabilityResults := eval (SimpleAuditor.auditCrawlability url) w in
    let measured :=
      SimpleAuditor.Results.mk url (clock w)
        (SimpleAuditor.Filled (SimpleAuditor.createMockPerformanceData url))
        (SimpleAuditor.Filled seoResults)
        (SimpleAuditor.Filled (SimpleAuditor.createMockAccessibilityData tt))
        (SimpleAuditor.Filled crawlabilityResults)
        (JS.of_Z 0) [] in
    let scored :=
      SimpleAuditor.Results.mk url (clock w)
        (SimpleAuditor.Results.performance measured)
        (SimpleAuditor.Results.seo measured)
        (SimpleAuditor.Results.accessibility measured)
        (SimpleAuditor.Results.crawlability measured)
        (SimpleAuditor.calculateOverallScore measured) [] in
    SimpleAuditor.Results.mk url (clock w)
      (SimpleAuditor.Results.performance measured)
      (SimpleAuditor.Results.seo measured)
      (SimpleAuditor.Results.accessibility measured)
      (SimpleAuditor.Results.crawlability measured)
      (SimpleAuditor.calculateOverallScore measured)
      (SimpleAuditor.generateRecommendations scored).
Proof.
  unfold SimpleAuditor.auditWebsite, SimpleAuditor.auditCrawlability,
    SimpleAuditor.auditSEO, eval, bind, ret, console_log,
    new_Date_toISOString.
  destruct (SimpleAuditor.isComplexSite url); reflexivity.
Qed.

(** The four bundles of a simple audit, bucket by bucket. *)
Lemma simple_audit_scores (url : string) (w : World) :
  exists p s a k,
    SimpleAuditor.Results.performance
      (eval (SimpleAuditor.auditWebsite url) w) = SimpleAuditor.Filled p
    /\ SimpleAuditor.Results.seo (eval (SimpleAuditor.auditWebsite url) w)
       = SimpleAuditor.Filled s
    /\ SimpleAuditor.Results.accessibility
         (eval (SimpleAuditor.auditWebsite url) w) = SimpleAuditor.Filled a
    /\ SimpleAuditor.Results.crawlability
         (eval (SimpleAuditor.auditWebsite url) w) = SimpleAuditor.Filled k
    /\ SimpleAuditor.PerformanceData.score p
       = match bucket url with
         | ComplexSite => 86
         | SimpleSite => 95
         | DefaultSite => 78
         end
    /\ SeoData.score s = (if SimpleAuditor.isComplexSite url then 74 else 69)
    /\ TextCheck.present (SeoChecks.title (SeoData.checks s)) = true
    /\ TextCheck.present (SeoChecks.metaDescription (SeoData.checks s)) = true
    /\ SimpleAuditor.AccessibilityData.score a = 91
    /\ SimpleAuditor.CrawlabilityData.score k
       = (if SimpleAuditor.isComplexSite url then 85 else 90).
Proof.
  rewrite simple_audit_unfolded. cbv zeta.
  cbn [SimpleAuditor.Results.performance SimpleAuditor.Results.seo
       SimpleAuditor.Results.accessibility SimpleAuditor.Results.crawlability].
  do 4 eexists.
  split; [reflexivity |]. split; [reflexivity |].
  split; [reflexivity |]. split; [reflexivity |].
  split; [rewrite mock_performance_is_canned; destruct (bucket url);
          reflexivity |].
  unfold SimpleAuditor.auditSEO, SimpleAuditor.auditCrawlability, eval, ret.
  destruct (SimpleAuditor.isComplexSite url);
    repeat split; vm_compute; reflexivity.
Qed.

(** C10: for every URL the simple auditor returns no recommendation.  The
    performance score is 86, 95 or 78, the accessibility score is 91 and the
    crawlability score is 85 or 90, all at least 70; the SEO score is 74 in
    the complex bucket and 69, below 70, otherwise, but both SEO bundles
    have a title and a meta description present, so that no SEO rule
    fires. *)
Theorem simple_audit_recommends_nothing (url : string) (w : World) :
  SimpleAuditor.Results.recommendations
    (eval (SimpleAuditor.auditWebsite url) w) = []
  /\ (exists p,
        SimpleAuditor.Results.performance
          (eval (SimpleAuditor.auditWebsite url) w) = SimpleAuditor.Filled p
        /\ (SimpleAuditor.PerformanceData.score p = 86
            \/ SimpleAuditor.PerformanceData.score p = 95
            \/ SimpleAuditor.PerformanceData.score p = 78))
  /\ (exists a,
        SimpleAuditor.Results.accessibility
          (eval (SimpleAuditor.auditWebsite url) w) = SimpleAuditor.Filled a
        /\ SimpleAuditor.AccessibilityData.score a = 91)
  /\ (exists k,
        SimpleAuditor.Results.crawlability
          (eval (SimpleAuditor.auditWebsite url) w) = SimpleAuditor.Filled k
        /\ (SimpleAuditor.CrawlabilityData.score k = 85
            \/ SimpleAuditor.CrawlabilityData.score k = 90))
  /\ (exists s,
        SimpleAuditor.Results.seo (eval (SimpleAuditor.auditWebsite url) w)
        = SimpleAuditor.Filled s
        /\ TextCheck.present (SeoChecks.title (SeoData.checks s)) = true
        /\ TextCheck.present (SeoChecks.metaDescription (SeoData.checks s))
           = true
        /\ (bucket url = ComplexSite -> SeoData.score s = 74)
        /\ (bucket url <> ComplexSite ->
            SeoData.score s = 69 /\ SeoData.score s < 70)).
Proof.
  destruct (simple_audit_scores url w)
    as (p & s & a & k & Hp & Hs & Ha & Hk & Hps & Hss & Ht & Hm & Has & Hks).
  assert (Hbucket : SimpleAuditor.isComplexSite url = true
                    <-> bucket url = ComplexSite).
  { unfold bucket, SimpleAuditor.isComplexSite.
    destruct (JS.includes "optimizemydata" url || JS.includes "google" url
              || JS.includes "facebook" url);
      [| destruct (JS.includes "example.com" url
                   || JS.includes "github.io" url)];
      intuition congruence. }
  split.
  - rewrite simple_audit_unfolded. cbv zeta.
    cbn [SimpleAuditor.Results.recommendations].
    rewrite recommendations_by_category.
    unfold Rules.rule, Rules.below70, Rules.missingTitle,
      Rules.missingMetaDescription, Rules.seoChecksOf, titleAbsent,
      metaDescriptionAbsent, SimpleAuditor.numericScore.
    rewrite simple_audit_unfolded in Hp, Hs, Ha, Hk. cbv zeta in Hp, Hs, Ha, Hk.
    cbn [SimpleAuditor.Results.performance SimpleAuditor.Results.seo
         SimpleAuditor.Results.accessibility
         SimpleAuditor.Results.crawlability] in *.
    injection Hp as <-. injection Hs as <-.
    injection Ha as <-. injection Hk as <-.
    rewrite Hps, Hss, Has, Hks, Ht, Hm.
    destruct (bucket url), (SimpleAuditor.isComplexSite url); reflexivity.
  - split; [| split; [| split]].
    + exists p. split; [exact Hp |]. rewrite Hps.
      destruct (bucket url); auto.
    + exists a. split; [exact Ha | exact Has].
    + exists k. split; [exact Hk |]. rewrite Hks.
      destruct (SimpleAuditor.isComplexSite url); auto.
    + exists s. split; [exact Hs |]. split; [exact Ht |].
      split; [exact Hm |]. rewrite Hss. split.
      * intros Hc. apply Hbucket in Hc. rewrite Hc. reflexivity.
      * intros Hc.
        destruct (SimpleAuditor.isComplexSite url) eqn:E.
        -- exfalso. apply Hc. apply Hbucket. reflexivity.
        -- split; [reflexivity | lia].
Qed.

(** The default bucket: SEO score 69 and no recommendation. *)
Lemma simple_audit_recommends_nothing_witness :
  exists s,
    SimpleAuditor.Results.seo
      (eval (SimpleAuditor.auditWebsite "https://example.org") Samples.world0)
    = SimpleAuditor.Filled s
    /\ SeoData.score s = 69
    /\ SimpleAuditor.Results.recommendations
         (eval (SimpleAuditor.auditWebsite "https://example.org")
            Samples.world0) = [].
Proof.
  destruct (simple_audit_recommends_nothing "https://example.org"
              Samples.world0)
    as (Hnone & _ & _ & _ & (s & Hs & _ & _ & _ & Hdefault)).
  exists s. split; [exact Hs |]. split; [| exact Hnone].
  apply Hdefault. vm_compute. discriminate.
Defined.

(** ** Checks of the number model *)

Example literal_three_tenths :
  JS.dec 3 10 = S754_finite false 5404319552844595 (-54)
  /\ JS.dec 2 10 = S754_finite false 7205759403792794 (-55).
Proof. vm_compute. split; reflexivity. Qed.

Example weights_add_up :
  JS.add (JS.add (JS.dec 3 10) (JS.dec 3 10)) (JS.dec 2 10) = JS.dec 8 10
  /\ JS.add (JS.dec 8 10) (JS.dec 2 10) = JS.of_Z 1.
Proof. vm_compute. split; reflexivity. Qed.

Example round_ties_upwards :
  JS.Math_round (JS.dec 5 2) = JS.of_Z 3
  /\ JS.Math_round (JS.dec (-5) 2) = JS.of_Z (-2)
  /\ JS.Math_round (JS.dec 7875 100) = JS.of_Z 79
  /\ JS.Math_round (JS.dec (-1) 2) = S754_zero true
  /\ JS.Math_round (JS.dec 1 2) = JS.of_Z 1
  /\ JS.Math_round (JS.of_Z 800) = JS.of_Z 800.
Proof. vm_compute. repeat split; reflexivity. Qed.

Example includes_is_substring_search :
  JS.includes "google" "https://www.google.com/" = true
  /\ JS.includes "github.io" "https://example.com" = false
  /\ JS.includes "Google" "https://www.google.com/" = false
  /\ JS.includes "" "" = true.
Proof. vm_compute. repeat split; reflexivity. Qed.

Example undefined_vital_is_not_penalised :
  Auditor.calculatePerformanceScore
    (Auditor.Vitals.mk None None None) Samples.fastMetrics = 100.
Proof. vm_compute. reflexivity. Qed.

(** ** The browser session of the full auditor *)

Lemma init_when_initialized (this : Auditor.Instance.t)
    (env : Auditor.Puppeteer.t) :
  Auditor.Instance.initialized this = true ->
  Auditor.init this env = (Auditor.Returned tt, this, env).
Proof.
  intros Hinit. unfold Auditor.init. rewrite Hinit. reflexivity.
Qed.

(** X1: once [init] has succeeded, the instance keeps its browser for good.
    No later sequence of [init] and [close] calls changes a field of the
    instance or calls [puppeteer.launch] again; [close] does not reset
    [initialized], so after a [close] the instance still holds the browser
    it closed and no [init] replaces it. *)
Theorem initialized_instance_never_relaunches
    (calls : list Auditor.Call) (this : Auditor.Instance.t)
    (env : Auditor.Puppeteer.t) (browser : nat) :
  Auditor.Instance.initialized this = true ->
  Auditor.Instance.browser this = Some browser ->
  fst (Auditor.calling calls this env) = this
  /\ Auditor.Puppeteer.calls (snd (Auditor.calling calls this env))
     = Auditor.Puppeteer.calls env
  /\ (In Auditor.CallClose calls ->
      In browser
        (Auditor.Puppeteer.closed (snd (Auditor.calling calls this env))))
  /\ (forall b, In b (Auditor.Puppeteer.closed env) ->
      In b (Auditor.Puppeteer.closed (snd (Auditor.calling calls this env)))).
Proof.
  intros Hinit Hbrowser. revert env.
  induction calls as [| call calls IH]; intros env.
  - cbn. repeat split; auto. intros [].
  - destruct call; cbn [Auditor.calling].
    + rewrite (init_when_initialized this env Hinit).
      destruct (IH env) as (H1 & H2 & H3 & H4).
      repeat split; auto.
      intros [Habs | Hin]; [discriminate | auto].
    + unfold Auditor.close. rewrite Hbrowser.
      match goal with
      | |- context [Auditor.calling calls this ?e] =>
          destruct (IH e) as (H1 & H2 & H3 & H4)
      end.
      repeat split; auto.
      * intros _. apply H4. cbn. apply in_or_app. right. left. reflexivity.
      * intros b Hb. apply H4. cbn. apply in_or_app. left. exact Hb.
Qed.

(** After init, close, init on an instance whose first launch gave browser
    7, the instance still holds browser 7, which is closed, and one launch
    was made. *)
Lemma initialized_instance_never_relaunches_witness :
  fst (Auditor.calling [Auditor.CallClose; Auditor.CallInit]
         (Auditor.Instance.mk (Some 7%nat) true)
         (Auditor.Puppeteer.mk (fun _ _ => Auditor.Returned 7%nat) 1 []))
  = Auditor.Instance.mk (Some 7%nat) true
  /\ In 7%nat
       (Auditor.Puppeteer.closed
          (snd (Auditor.calling [Auditor.CallClose; Auditor.CallInit]
                  (Auditor.Instance.mk (Some 7%nat) true)
                  (Auditor.Puppeteer.mk
                     (fun _ _ => Auditor.Returned 7%nat) 1 [])))).
Proof.
  destruct (initialized_instance_never_relaunches
              [Auditor.CallClose; Auditor.CallInit]
              (Auditor.Instance.mk (Some 7%nat) true)
              (Auditor.Puppeteer.mk (fun _ _ => Auditor.Returned 7%nat) 1 [])
              7%nat eq_refl eq_refl)
    as (Hsame & _ & Hclosed & _).
  split; [exact Hsame |].
  apply Hclosed. left. reflexivity.
Defined.

(** What one [init] does to an instance that is not initialized. *)
Lemma init_cases (this : Auditor.Instance.t) (env : Auditor.Puppeteer.t) :
  Auditor.Instance.initialized this = false ->
  match Auditor.Puppeteer.answer env (Auditor.Puppeteer.calls env)
          Auditor.PrimaryOptions with
  | Auditor.Returned b =>
      Auditor.init this env
      = (Auditor.Returned tt, Auditor.Instance.mk (Some b) true,
         Auditor.Puppeteer.mk (Auditor.Puppeteer.answer env)
           (S (Auditor.Puppeteer.calls env)) (Auditor.Puppeteer.closed env))
  | Auditor.Threw _ =>
      match Auditor.Puppeteer.answer env (S (Auditor.Puppeteer.calls env))
              Auditor.FallbackOptions with
      | Auditor.Returned b =>
          Auditor.init this env
          = (Auditor.Returned tt, Auditor.Instance.mk (Some b) true,
             Auditor.Puppeteer.mk (Auditor.Puppeteer.answer env)
               (S (S (Auditor.Puppeteer.calls env)))
               (Auditor.Puppeteer.closed env))
      | Auditor.Threw _ =>
          Auditor.init this env
          = (Auditor.Threw "Unable to initialize browser", this,
             Auditor.Puppeteer.mk (Auditor.Puppeteer.answer env)
               (S (S (Auditor.Puppeteer.calls env)))
               (Auditor.Puppeteer.closed env))
      end
  end.
Proof.
  intros Hinit. unfold Auditor.init, Auditor.launch. rewrite Hinit.
  cbn [negb Auditor.Puppeteer.answer Auditor.Puppeteer.calls
       Auditor.Puppeteer.closed].
  destruct (Auditor.Puppeteer.answer env (Auditor.Puppeteer.calls env)
              Auditor.PrimaryOptions); [| reflexivity].
  destruct (Auditor.Puppeteer.answer env (S (Auditor.Puppeteer.calls env))
              Auditor.FallbackOptions); reflexivity.
Qed.

Lemma init_keeps_consistent (this : Auditor.Instance.t)
    (env : Auditor.Puppeteer.t) :
  Auditor.consistent this ->
  Auditor.consistent (snd (fst (Auditor.init this env))).
Proof.
  intros [[Hi Hb] | [Hi Hb]].
  - rewrite (init_when_initialized this env Hi). left. auto.
  - pose proof (init_cases this env Hi) as Hc.
    destruct (Auditor.Puppeteer.answer env (Auditor.Puppeteer.calls env)
                Auditor.PrimaryOptions).
    + destruct (Auditor.Puppeteer.answer env
                  (S (Auditor.Puppeteer.calls env)) Auditor.FallbackOptions);
        rewrite Hc; cbn [fst snd].
      * right. split; assumption.
      * left. split; [reflexivity | eexists; reflexivity].
    + rewrite Hc. cbn [fst snd]. left.
      split; [reflexivity | eexists; reflexivity].
Qed.

(** X2: over any sequence of [init] and [close] calls on a new instance,
    and whatever [puppeteer.launch] answers, [initialized] is true exactly
    when [browser] is not null; a failed [init] (both launches threw) leaves
    the instance as it was, so that the next [init] tries to launch
    again. *)
Theorem instance_fields_agree (calls : list Auditor.Call)
    (env : Auditor.Puppeteer.t) (this : Auditor.Instance.t) :
  (Auditor.Instance.initialized
     (fst (Auditor.calling calls Auditor.constructor env)) = true
   <-> Auditor.Instance.browser
         (fst (Auditor.calling calls Auditor.constructor env)) <> None)
  /\ (forall message,
        fst (fst (Auditor.init this env)) = Auditor.Threw message ->
        message = "Unable to initialize browser"
        /\ snd (fst (Auditor.init this env)) = this
        /\ Auditor.Instance.initialized this = false
        /\ Auditor.Puppeteer.calls (snd (Auditor.init this env))
           = S (S (Auditor.Puppeteer.calls env))).
Proof.
  split.
  - assert (Hgen : forall this0 env0,
               Auditor.consistent this0 ->
               Auditor.consistent (fst (Auditor.calling calls this0 env0))).
    { induction calls as [| call calls IH]; intros this0 env0 Hc.
      - exact Hc.
      - destruct call; cbn [Auditor.calling].
        + pose proof (init_keeps_consistent this0 env0 Hc) as Hc'.
          destruct (Auditor.init this0 env0) as [[r this1] env1].
          apply IH. exact Hc'.
        + unfold Auditor.close.
          destruct (Auditor.Instance.browser this0); apply IH; exact Hc. }
    assert (H0 : Auditor.consistent Auditor.constructor) by (right; split; reflexivity).
    destruct (Hgen Auditor.constructor env H0) as [[Hi [b Hb]] | [Hi Hb]].
    + rewrite Hi, Hb. split; [discriminate | reflexivity].
    + rewrite Hi, Hb. split; [discriminate | congruence].
  - intros message Hthrew.
    destruct (Auditor.Instance.initialized this) eqn:Hi.
    + rewrite (init_when_initialized this env Hi) in Hthrew. discriminate.
    + pose proof (init_cases this env Hi) as Hc.
      destruct (Auditor.Puppeteer.answer env (Auditor.Puppeteer.calls env)
                  Auditor.PrimaryOptions).
      * destruct (Auditor.Puppeteer.answer env
                    (S (Auditor.Puppeteer.calls env))
                    Auditor.FallbackOptions);
          rewrite Hc in *; cbn in *.
        -- inversion Hthrew. auto.
        -- discriminate.
      * rewrite Hc in *. discriminate.
Qed.

(** A new instance on a machine where no browser can be launched. *)
Lemma instance_fields_agree_witness :
  snd (fst (Auditor.init Auditor.constructor
              (Auditor.Puppeteer.mk
                 (fun _ _ => Auditor.Threw "spawn ENOENT") 0 [])))
  = Auditor.constructor
  /\ Auditor.Puppeteer.calls
       (snd (Auditor.init Auditor.constructor
               (Auditor.Puppeteer.mk
                  (fun _ _ => Auditor.Threw "spawn ENOENT") 0 []))) = 2%nat.
Proof.
  destruct (instance_fields_agree []
              (Auditor.Puppeteer.mk
                 (fun _ _ => Auditor.Threw "spawn ENOENT") 0 [])
              Auditor.constructor) as [_ Hfail].
  destruct (Hfail "Unable to initialize browser" eq_refl)
    as (_ & Hsame & _ & Hcalls).
  split; [exact Hsame | exact Hcalls].
Defined.

(** ** The full audit as a whole *)

(** With an audited SEO slot, [generateRecommendations] of the full auditor
    returns, and follows the same four rules as the simple auditor. *)
Lemma full_recommendations_audited (r : Auditor.Results.t) (s : SeoData.t) :
  Auditor.Results.seo r = Auditor.Audited s ->
  Auditor.generateRecommendations r
  = Auditor.Returned
      ((if Auditor.scoreBelow (Auditor.numericScore r Performance) 70
        then [Rules.coreWebVitalsAdvice] else [])
       ++ (if SeoData.score s <? 70 then
             (if titleAbsent (SeoData.checks s) then [Rules.titleAdvice]
              else [])
             ++ (if metaDescriptionAbsent (SeoData.checks s)
                 then [Rules.metaDescriptionAdvice] else [])
           else [])
       ++ (if Auditor.scoreBelow (Auditor.numericScore r Accessibility) 70
           then [Rules.accessibilityAdvice] else [])
       ++ (if Auditor.scoreBelow (Auditor.numericScore r Crawlability) 70
           then [Rules.crawlabilityAdvice] else [])).
Proof.
  intros Hseo. unfold Auditor.generateRecommendations.
  rewrite Hseo. unfold titleAbsent, metaDescriptionAbsent.
  destruct (Auditor.scoreBelow (Auditor.numericScore r Performance) 70),
    (SeoData.score s <? 70),
    (TextCheck.present (SeoChecks.title (SeoData.checks s))),
    (TextCheck.present (SeoChecks.metaDescription (SeoData.checks s)));
    cbn [negb app];
    destruct (Auditor.scoreBelow (Auditor.numericScore r Accessibility) 70),
      (Auditor.scoreBelow (Auditor.numericScore r Crawlability) 70);
    reflexivity.
Qed.

(** X3: a failure of the SEO audit alone makes the whole full audit fail.
    When [init] succeeds and the SEO fetch throws, [auditWebsite] rejects
    with a message that starts with [Audit failed: ], whatever the other
    three audits measured: the SEO slot scores 0, below 70, and
    [generateRecommendations] reads [title.present] from an object that has
    no title.  When the SEO audit returns, [auditWebsite] resolves, whether
    or not the other three audits threw, with the four slots, the overall
    score of these slots, and a recommendation for every other category
    that threw. *)
Theorem full_audit_fails_with_seo
    (this : Auditor.Instance.t) (env : Auditor.Puppeteer.t)
    (url now : string)
    (performanceSession : Auditor.Attempt (Auditor.Vitals.t * Auditor.Metrics.t))
    (seoSession : Auditor.Attempt SeoChecks.t)
    (accessibilitySession : Auditor.Attempt Auditor.AccessibilityDom.t)
    (crawlabilitySession : Auditor.Attempt Auditor.CrawlabilityDom.t) :
  fst (fst (Auditor.init this env)) = Auditor.Returned tt ->
  (forall message,
     seoSession = Auditor.Threw message ->
     fst (fst (Auditor.auditWebsite this env url now performanceSession
                 seoSession accessibilitySession crawlabilitySession))
     = Auditor.Threw
         (String.append "Audit failed: " (Auditor.cannotRead "present")))
  /\ (forall checks,
        seoSession = Auditor.Returned checks ->
        exists results,
          fst (fst (Auditor.auditWebsite this env url now performanceSession
                      seoSession accessibilitySession crawlabilitySession))
          = Auditor.Returned results
          /\ Auditor.Results.performance results
             = Auditor.auditPerformance performanceSession
          /\ Auditor.Results.seo results
             = Auditor.Audited
                 (SeoData.mk checks (Auditor.calculateSEOScore checks))
          /\ Auditor.Results.accessibility results
             = Auditor.auditAccessibility accessibilitySession
          /\ Auditor.Results.crawlability results
             = Auditor.auditCrawlability crawlabilitySession
          /\ Auditor.Results.overallScore results
             = Auditor.calculateOverallScore results
          /\ ((exists m, performanceSession = Auditor.Threw m) ->
              In Rules.coreWebVitalsAdvice
                (Auditor.Results.recommendations results))
          /\ ((exists m, accessibilitySession = Auditor.Threw m) ->
              In Rules.accessibilityAdvice
                (Auditor.Results.recommendations results))
          /\ ((exists m, crawlabilitySession = Auditor.Threw m) ->
              In Rules.crawlabilityAdvice
                (Auditor.Results.recommendations results))).
Proof.
  intros Hinit. unfold Auditor.auditWebsite.
  destruct (Auditor.init this env) as [[r this'] env'].
  cbn [fst] in Hinit. subst r. cbv zeta.
  split.
  - intros message Hseo. subst seoSession.
    unfold Auditor.generateRecommendations.
    cbn [Auditor.Results.seo Auditor.auditSEO].
    reflexivity.
  - intros checks Hseo. subst seoSession.
    cbn [Auditor.auditSEO].
    match goal with
    | |- context [Auditor.generateRecommendations ?r] =>
        rewrite (full_recommendations_audited r
                   (SeoData.mk checks (Auditor.calculateSEOScore checks))
                   eq_refl)
    end.
    eexists. split; [reflexivity |].
    cbn [Auditor.Results.performance Auditor.Results.seo
         Auditor.Results.accessibility Auditor.Results.crawlability
         Auditor.Results.overallScore Auditor.Results.recommendations
         Auditor.Results.url Auditor.Results.timestamp].
    split; [reflexivity |]. split; [reflexivity |].
    split; [reflexivity |]. split; [reflexivity |].
    split; [reflexivity |].
    unfold Auditor.numericScore.
    cbn [Auditor.Results.performance Auditor.Results.seo
         Auditor.Results.accessibility Auditor.Results.crawlability].
    split; [| split].
    + intros [m Hm]. subst. cbn [Auditor.auditPerformance Auditor.scoreOf
                                 Auditor.scoreBelow].
      apply in_or_app. left. left. reflexivity.
    + intros [m Hm]. subst.
      cbn [Auditor.auditAccessibility Auditor.scoreOf Auditor.scoreBelow].
      apply in_or_app. right. apply in_or_app. right.
      apply in_or_app. left. left. reflexivity.
    + intros [m Hm]. subst.
      cbn [Auditor.auditCrawlability Auditor.scoreOf Auditor.scoreBelow].
      apply in_or_app. right. apply in_or_app. right.
      apply in_or_app. right. left. reflexivity.
Qed.

(** Three good audits and a failed SEO fetch: the audit is rejected. *)
Lemma full_audit_fails_with_seo_witness :
  fst (fst (Auditor.auditWebsite
              (Auditor.Instance.mk (Some 7%nat) true)
              (Auditor.Puppeteer.mk (fun _ _ => Auditor.Returned 7%nat) 1 [])
              "https://example.com/" "2024-01-01T00:00:00.000Z"
              (Auditor.Returned (Samples.fastVitals, Samples.fastMetrics))
              (Auditor.Threw "timeout of 10000ms exceeded")
              (Auditor.Returned Samples.tidyDocument)
              (Auditor.Returned Samples.tidyPage)))
  = Auditor.Threw
      (String.append "Audit failed: " (Auditor.cannotRead "present")).
Proof.
  apply (proj1 (full_audit_fails_with_seo
                  (Auditor.Instance.mk (Some 7%nat) true)
                  (Auditor.Puppeteer.mk
                     (fun _ _ => Auditor.Returned 7%nat) 1 [])
                  "https://example.com/" "2024-01-01T00:00:00.000Z"
                  (Auditor.Returned (Samples.fastVitals, Samples.fastMetrics))
                  (Auditor.Threw "timeout of 10000ms exceeded")
                  (Auditor.Returned Samples.tidyDocument)
                  (Auditor.Returned Samples.tidyPage)
                  eq_refl)
           "timeout of 10000ms exceeded" eq_refl).
Defined.

(** ** Floors of the measured scores *)

Lemma crawlability_score_value (d : Auditor.CrawlabilityDom.t) :
  Auditor.CrawlabilityData.score (Auditor.evaluateCrawlability d)
  = 100
    - pick ((Z.of_nat (Auditor.CrawlabilityDom.scripts d) >? 0)
            && negb (Auditor.CrawlabilityDom.hasContent d)) 30
    - pick (negb (Auditor.CrawlabilityDom.viewport d)) 10
    - pick (negb (Auditor.CrawlabilityDom.canonical d)) 5
    - pick (JS.includes "#" (Auditor.CrawlabilityDom.href d)) 2.
Proof.
  unfold Auditor.evaluateCrawlability. cbv zeta.
  destruct ((Z.of_nat (Auditor.CrawlabilityDom.scripts d) >? 0)
            && negb (Auditor.CrawlabilityDom.hasContent d));
    destruct (negb (Auditor.CrawlabilityDom.viewport d));
    destruct (negb (Auditor.CrawlabilityDom.canonical d));
    destruct (JS.includes "#" (Auditor.CrawlabilityDom.href d));
    reflexivity.
Qed.

Lemma full_seo_floor (s : SeoChecks.t) :
  25 <= Auditor.calculateSEOScore s <= 100.
Proof.
  unfold Auditor.calculateSEOScore. cbv zeta.
  rewrite !charge_either, !charge, !credit.
  unfold pick.
  destruct (negb (TextCheck.present (SeoChecks.title s)));
    destruct (negb (TextCheck.optimal (SeoChecks.title s)));
    destruct (negb (TextCheck.present (SeoChecks.metaDescription s)));
    destruct (negb (TextCheck.optimal (SeoChecks.metaDescription s)));
    destruct (negb (Headings.hasH1 (SeoChecks.headings s)));
    destruct (Headings.multipleH1 (SeoChecks.headings s));
    destruct (JS.lt (Images.altTextCoverage (SeoChecks.images s))
                (JS.of_Z 80));
    destruct (StructuredData.jsonLd (SeoChecks.structuredData s) >? 0);
    lia.
Qed.

(** X4: in the full auditor the lower clamp of the performance, SEO and
    crawlability scorers never acts: a measured page scores at least 5 for
    performance, 25 for SEO and 53 for crawlability.  A score of 0 in one
    of these three slots therefore always comes from a [catch] block, never
    from a measurement.  Accessibility is different: a measured page can
    score 0. *)
Theorem zero_score_means_failed_audit :
  (forall v m, 5 <= Auditor.calculatePerformanceScore v m <= 100)
  /\ (forall s, 25 <= Auditor.calculateSEOScore s <= 100)
  /\ (forall d,
        53 <= Auditor.CrawlabilityData.score (Auditor.evaluateCrawlability d)
        <= 100)
  /\ (forall session,
        Auditor.scoreOf Auditor.PerformanceData.score
          (Auditor.auditPerformance session) = Some 0
        <-> exists message, session = Auditor.Threw message)
  /\ (forall session,
        Auditor.scoreOf SeoData.score (Auditor.auditSEO session) = Some 0
        <-> exists message, session = Auditor.Threw message)
  /\ (forall session,
        Auditor.scoreOf Auditor.CrawlabilityData.score
          (Auditor.auditCrawlability session) = Some 0
        <-> exists message, session = Auditor.Threw message)
  /\ (exists document,
        Auditor.scoreOf Auditor.AccessibilityData.score
          (Auditor.auditAccessibility (Auditor.Returned document)) = Some 0).
Proof.
  assert (Hp : forall v m, 5 <= Auditor.calculatePerformanceScore v m <= 100).
  { intros v m. rewrite performance_closed_form.
    pose proof (performancePenalty_bounds v m). lia. }
  assert (Hk : forall d,
             53 <= Auditor.CrawlabilityData.score
                     (Auditor.evaluateCrawlability d) <= 100).
  { intros d. rewrite crawlability_score_value. unfold pick.
    destruct ((Z.of_nat (Auditor.CrawlabilityDom.scripts d) >? 0)
              && negb (Auditor.CrawlabilityDom.hasContent d));
      destruct (negb (Auditor.CrawlabilityDom.viewport d));
      destruct (negb (Auditor.CrawlabilityDom.canonical d));
      destruct (JS.includes "#" (Auditor.CrawlabilityDom.href d)); lia. }
  split; [exact Hp |]. split; [exact full_seo_floor |].
  split; [exact Hk |]. split; [| split; [| split]].
  - intros [message | [v m]]; cbn.
    + split; [intros _; eexists; reflexivity | reflexivity].
    + split.
      * intros H. inversion H as [H0]. pose proof (Hp v m). lia.
      * intros [message H]. discriminate.
  - intros [message | s]; cbn.
    + split; [intros _; eexists; reflexivity | reflexivity].
    + split.
      * intros H. inversion H as [H0]. pose proof (full_seo_floor s). lia.
      * intros [message H]. discriminate.
  - intros [message | d]; cbn [Auditor.auditCrawlability Auditor.scoreOf].
    + split; [intros _; eexists; reflexivity | reflexivity].
    + split.
      * intros H. inversion H as [H0]. pose proof (Hk d). lia.
      * intros [message H]. discriminate.
  - exists (Auditor.AccessibilityDom.mk
              (repeat "" 20) [] [] [] 20).
    vm_compute. reflexivity.
Qed.

(** X5: the crawlability recommendation of the full auditor needs a page
    without visible text.  A measured page scores below 70 exactly when it
    has script tags and no visible text and, in addition, lacks the viewport
    tag or the canonical link or has a hash in its URL.  A page whose only
    defect is to be JavaScript-only scores exactly 70 and gets no
    crawlability recommendation. *)
Theorem crawlability_advice_needs_script_only_page
    (r : Auditor.Results.t) (s : SeoData.t) (d : Auditor.CrawlabilityDom.t)
    (recommendations : list Recommendation.t) :
  Auditor.Results.seo r = Auditor.Audited s ->
  Auditor.Results.crawlability r
  = Auditor.auditCrawlability (Auditor.Returned d) ->
  Auditor.generateRecommendations r = Auditor.Returned recommendations ->
  (In Rules.crawlabilityAdvice recommendations
   <-> ((0 < Auditor.CrawlabilityDom.scripts d)%nat
        /\ Auditor.CrawlabilityDom.hasContent d = false
        /\ (Auditor.CrawlabilityDom.viewport d = false
            \/ Auditor.CrawlabilityDom.canonical d = false
            \/ JS.includes "#" (Auditor.CrawlabilityDom.href d) = true)))
  /\ ((0 < Auditor.CrawlabilityDom.scripts d)%nat ->
      Auditor.CrawlabilityDom.hasContent d = false ->
      Auditor.CrawlabilityDom.viewport d = true ->
      Auditor.CrawlabilityDom.canonical d = true ->
      JS.includes "#" (Auditor.CrawlabilityDom.href d) = false ->
      Auditor.CrawlabilityData.score (Auditor.evaluateCrawlability d) = 70
      /\ ~ In Rules.crawlabilityAdvice recommendations).
Proof.
  intros Hseo Hcrawl Hrecs.
  rewrite (full_recommendations_audited r s Hseo) in Hrecs.
  injection Hrecs as Hlist.
  assert (Hin : In Rules.crawlabilityAdvice recommendations
                <-> Auditor.CrawlabilityData.score
                      (Auditor.evaluateCrawlability d) < 70).
  { rewrite <- Hlist. unfold Auditor.numericScore. rewrite Hcrawl.
    cbn [Auditor.auditCrawlability Auditor.scoreOf Auditor.scoreBelow].
    rewrite !in_app_iff.
    destruct (Z.ltb_spec
                (Auditor.CrawlabilityData.score
                   (Auditor.evaluateCrawlability d)) 70) as [Hlt | Hge].
    - split; [intros _; exact Hlt |]. intros _.
      right. right. right. left. reflexivity.
    - split; [| lia]. intros H.
      destruct (Auditor.scoreBelow
                  (Auditor.scoreOf Auditor.PerformanceData.score
                     (Auditor.Results.performance r)) 70),
        (SeoData.score s <? 70), (titleAbsent (SeoData.checks s)),
        (metaDescriptionAbsent (SeoData.checks s)),
        (Auditor.scoreBelow
           (Auditor.scoreOf Auditor.AccessibilityData.score
              (Auditor.Results.accessibility r)) 70);
        cbn [In app] in H; rewrite ?in_app_iff in H; cbn [In] in H;
        intuition discriminate. }
  rewrite crawlability_score_value in Hin |- *. unfold pick in Hin |- *.
  assert (Hscripts : (Z.of_nat (Auditor.CrawlabilityDom.scripts d) >? 0) = true
                     <-> (0 < Auditor.CrawlabilityDom.scripts d)%nat).
  { rewrite Z.gtb_ltb, Z.ltb_lt. lia. }
  destruct (Z.of_nat (Auditor.CrawlabilityDom.scripts d) >? 0);
    destruct (Auditor.CrawlabilityDom.hasContent d);
    destruct (Auditor.CrawlabilityDom.viewport d);
    destruct (Auditor.CrawlabilityDom.canonical d);
    destruct (JS.includes "#" (Auditor.CrawlabilityDom.href d));
    cbn [negb andb] in Hin |- *;
    intuition
      (try congruence; try lia;
       try match goal with
         | Hx : _ -> In _ _ |- In _ _ => apply Hx; lia
         end).
Qed.

(** A page that is only JavaScript, with viewport tag, canonical link and no
    hash: score 70 and no crawlability recommendation. *)
Lemma crawlability_advice_needs_script_only_page_witness :
  Auditor.CrawlabilityData.score
    (Auditor.evaluateCrawlability
       (Auditor.CrawlabilityDom.mk 3 false true true "https://example.com/"))
  = 70
  /\ ~ In Rules.crawlabilityAdvice [].
Proof.
  apply (proj2
           (crawlability_advice_needs_script_only_page
              (Auditor.Results.mk "https://example.com/"
                 "2024-01-01T00:00:00.000Z"
                 (Auditor.auditPerformance
                    (Auditor.Returned
                       (Samples.fastVitals, Samples.fastMetrics)))
                 (Auditor.Audited (SeoData.mk Samples.defaultChecks 85))
                 (Auditor.auditAccessibility
                    (Auditor.Returned Samples.tidyDocument))
                 (Auditor.auditCrawlability
                    (Auditor.Returned
                       (Auditor.CrawlabilityDom.mk 3 false true true
                          "https://example.com/")))
                 (JS.of_Z 0) [])
              (SeoData.mk Samples.defaultChecks 85)
              (Auditor.CrawlabilityDom.mk 3 false true true
                 "https://example.com/")
              [] eq_refl eq_refl eq_refl));
    try reflexivity.
  cbn. lia.
Defined.

(** ** Accessibility and crawlability findings of the full auditor *)

Lemma heading_fold_counts_skips (levels : list Z) :
  forall previousLevel structureIssues,
    snd (fold_left
           (fun '(previousLevel, structureIssues) level =>
              (level,
               if level >? previousLevel + 1 then structureIssues + 1
               else structureIssues))
           levels (previousLevel, structureIssues))
    = structureIssues + skipsFrom previousLevel levels.
Proof.
  induction levels as [| level levels IH]; intros previousLevel n.
  - cbn. lia.
  - cbn [fold_left skipsFrom]. rewrite IH.
    destruct (level >? previousLevel + 1); lia.
Qed.

Lemma contrast_fold_counts (elements : list (string * string)) :
  forall contrastIssues,
    fold_left
      (fun contrastIssues '(color, backgroundColor) =>
         if String.eqb color backgroundColor then contrastIssues + 1
         else contrastIssues)
      elements contrastIssues
    = contrastIssues
      + countIf
          (fun '(color, backgroundColor) => String.eqb color backgroundColor)
          elements.
Proof.
  unfold countIf.
  induction elements as [| [color backgroundColor] elements IH]; intros n.
  - cbn. lia.
  - cbn [fold_left filter]. rewrite IH.
    destruct (String.eqb color backgroundColor); cbn [List.length]; lia.
Qed.

Lemma skipsFrom_bounds (levels : list Z) :
  forall previousLevel,
    0 <= skipsFrom previousLevel levels <= Auditor.len levels.
Proof.
  unfold Auditor.len.
  induction levels as [| level levels IH]; intros previousLevel.
  - cbn. lia.
  - cbn [skipsFrom List.length]. specialize (IH level).
    destruct (level >? previousLevel + 1); lia.
Qed.

Lemma skipsFrom_zero (levels : list Z) :
  forall previousLevel,
    skipsFrom previousLevel levels = 0 <-> wellNested previousLevel levels.
Proof.
  induction levels as [| level levels IH]; intros previousLevel.
  - cbn. tauto.
  - cbn [skipsFrom wellNested]. specialize (IH level).
    pose proof (skipsFrom_bounds levels level) as Hb.
    rewrite Z.gtb_ltb.
    destruct (Z.ltb_spec (previousLevel + 1) level); split.
    + lia.
    + intros [Hle _]. lia.
    + intros H0. split; [lia |]. apply IH. lia.
    + intros [_ Hw]. apply IH in Hw. lia.
Qed.

Lemma countIf_nonneg {A : Type} (test : A -> bool) (l : list A) :
  0 <= countIf test l.
Proof. unfold countIf. lia. Qed.

(** The accessibility callback, in closed form. *)
Lemma accessibility_closed_form (d : Auditor.AccessibilityDom.t) :
  Auditor.evaluateAccessibility d
  = Auditor.AccessibilityData.mk
      ((if Auditor.len (Auditor.AccessibilityDom.imagesWithoutAlt d) >? 0
        then
          [Issue.mk "error"
             (String.append
                (JS.toString
                   (Auditor.len (Auditor.AccessibilityDom.imagesWithoutAlt d)))
                " images missing alt text")
             None None None
             (Some
                (map (fun src => if String.eqb src "" then "unknown" else src)
                   (Auditor.AccessibilityDom.imagesWithoutAlt d)))]
        else [])
       ++ (if skipsFrom 0 (Auditor.AccessibilityDom.headingLevels d) >? 0
           then
             [Issue.mk "warning" "Heading structure may skip levels"
                None None
                (Some (skipsFrom 0 (Auditor.AccessibilityDom.headingLevels d)))
                None]
           else [])
       ++ (if unlabelled d >? 0
           then
             [Issue.mk "error"
                (String.append (JS.toString (unlabelled d))
                   " form inputs missing labels")
                None None (Some (unlabelled d)) None]
           else [])
       ++ (if collisions d >? 0
           then
             [Issue.mk "warning"
                (String.append (JS.toString (collisions d))
                   " potential color contrast issues")
                None None (Some (collisions d)) None]
           else []))
      (Z.max 0 (100 - accessibilityDeductions d))
      (Z.of_nat (Auditor.AccessibilityDom.allElements d)).
Proof.
  unfold Auditor.evaluateAccessibility, accessibilityDeductions. cbv zeta.
  pose proof (heading_fold_counts_skips
                (Auditor.AccessibilityDom.headingLevels d) 0 0) as Hskips.
  destruct (fold_left _ (Auditor.AccessibilityDom.headingLevels d) (0, 0))
    as [previousLevel structureIssues].
  cbn [snd] in Hskips. rewrite Z.add_0_l in Hskips. subst structureIssues.
  rewrite contrast_fold_counts, !Z.add_0_l.
  change (Auditor.len
            (filter (fun hasLabel : bool => negb hasLabel)
               (Auditor.AccessibilityDom.inputsWithoutLabels d)))
    with (unlabelled d).
  change (countIf
            (fun '(color, backgroundColor) =>
               String.eqb color backgroundColor)
            (Auditor.AccessibilityDom.textElements d))
    with (collisions d).
  pose proof (len_nonneg (Auditor.AccessibilityDom.imagesWithoutAlt d)).
  pose proof (skipsFrom_bounds (Auditor.AccessibilityDom.headingLevels d) 0).
  pose proof (countIf_nonneg negb
                (Auditor.AccessibilityDom.inputsWithoutLabels d)).
  pose proof (countIf_nonneg
                (fun '(color, backgroundColor) =>
                   String.eqb color backgroundColor)
                (Auditor.AccessibilityDom.textElements d)).
  fold (unlabelled d) in *. fold (collisions d) in *.
  destruct (Z.gtb_spec
              (Auditor.len (Auditor.AccessibilityDom.imagesWithoutAlt d)) 0);
    destruct (Z.gtb_spec
                (skipsFrom 0 (Auditor.AccessibilityDom.headingLevels d)) 0);
    destruct (Z.gtb_spec (unlabelled d) 0);
    destruct (Z.gtb_spec (collisions d) 0);
    cbn [app]; f_equal; lia.
Qed.

(** A number rendered in a message never starts like the heading warning. *)
Lemma rendered_count_is_not_heading_warning (z : Z) (rest : string) :
  String.append (JS.toString z) rest <> "Heading structure may skip levels".
Proof.
  unfold JS.toString.
  destruct (Z.to_int z) as [d | d]; destruct d; cbn; discriminate.
Qed.

(** X6: the accessibility score of the full auditor is
    max(0, 100 - 5 a - 3 b - 8 c - 2 e), where a counts the images without
    alt attribute, b the headings that skip a level, c the inputs without
    any label and e the text elements whose colour equals their background
    colour.  The issue list has one entry per non-zero count, at most four,
    and it is empty exactly when the score is 100. *)
Theorem accessibility_score_and_issues (d : Auditor.AccessibilityDom.t) :
  Auditor.AccessibilityData.score (Auditor.evaluateAccessibility d)
  = Z.max 0 (100 - accessibilityDeductions d)
  /\ accessibilityDeductions d
     = 5 * Auditor.len (Auditor.AccessibilityDom.imagesWithoutAlt d)
       + 3 * skipsFrom 0 (Auditor.AccessibilityDom.headingLevels d)
       + 8 * countIf negb (Auditor.AccessibilityDom.inputsWithoutLabels d)
       + 2 * countIf
               (fun '(color, backgroundColor) =>
                  String.eqb color backgroundColor)
               (Auditor.AccessibilityDom.textElements d)
  /\ Auditor.len
       (Auditor.AccessibilityData.issues (Auditor.evaluateAccessibility d))
     = pick (Auditor.len (Auditor.AccessibilityDom.imagesWithoutAlt d) >? 0) 1
       + pick (skipsFrom 0 (Auditor.AccessibilityDom.headingLevels d) >? 0) 1
       + pick (unlabelled d >? 0) 1
       + pick (collisions d >? 0) 1
  /\ (Auditor.AccessibilityData.issues (Auditor.evaluateAccessibility d) = []
      <-> Auditor.AccessibilityData.score (Auditor.evaluateAccessibility d)
          = 100).
Proof.
  rewrite accessibility_closed_form.
  cbn [Auditor.AccessibilityData.score Auditor.AccessibilityData.issues].
  split; [reflexivity |]. split; [reflexivity |].
  pose proof (len_nonneg (Auditor.AccessibilityDom.imagesWithoutAlt d)).
  pose proof (skipsFrom_bounds (Auditor.AccessibilityDom.headingLevels d) 0).
  pose proof (countIf_nonneg negb
                (Auditor.AccessibilityDom.inputsWithoutLabels d)).
  pose proof (countIf_nonneg
                (fun '(color, backgroundColor) =>
                   String.eqb color backgroundColor)
                (Auditor.AccessibilityDom.textElements d)).
  unfold accessibilityDeductions.
  fold (unlabelled d) in *. fold (collisions d) in *.
  destruct (Z.gtb_spec
              (Auditor.len (Auditor.AccessibilityDom.imagesWithoutAlt d)) 0);
    destruct (Z.gtb_spec
                (skipsFrom 0 (Auditor.AccessibilityDom.headingLevels d)) 0);
    destruct (Z.gtb_spec (unlabelled d) 0);
    destruct (Z.gtb_spec (collisions d) 0);
    cbn [app pick];
    (split; [reflexivity |]);
    (split; [intros Hnil; try discriminate Hnil; lia
            | intros Hscore; try reflexivity; lia]).
Qed.

(** X7: the warning [Heading structure may skip levels] is reported exactly
    when some heading lies more than one level below the heading before it,
    the level before the first heading being 0: a page that opens with an h2
    is warned about, a step back up by any number of levels is not.  The
    count of the warning is the number of such headings. *)
Theorem heading_warning_means_skipped_level (d : Auditor.AccessibilityDom.t) :
  ((exists issue,
      In issue
        (Auditor.AccessibilityData.issues (Auditor.evaluateAccessibility d))
      /\ Issue.message issue = "Heading structure may skip levels")
   <-> ~ wellNested 0 (Auditor.AccessibilityDom.headingLevels d))
  /\ (forall issue,
        In issue
          (Auditor.AccessibilityData.issues (Auditor.evaluateAccessibility d)) ->
        Issue.message issue = "Heading structure may skip levels" ->
        Issue.count issue
        = Some (skipsFrom 0 (Auditor.AccessibilityDom.headingLevels d)))
  /\ wellNested 0 [1; 2; 3; 1; 2; 2]
  /\ ~ wellNested 0 [2; 3]
  /\ skipsFrom 0 [1; 3; 6; 2] = 2.
Proof.
  assert (Hblocks : forall issue,
             In issue
               (Auditor.AccessibilityData.issues
                  (Auditor.evaluateAccessibility d)) ->
             Issue.message issue = "Heading structure may skip levels" ->
             (skipsFrom 0 (Auditor.AccessibilityDom.headingLevels d) >? 0)
             = true
             /\ Issue.count issue
                = Some (skipsFrom 0 (Auditor.AccessibilityDom.headingLevels d))).
  { intros issue Hin Hmsg. rewrite accessibility_closed_form in Hin.
    cbn [Auditor.AccessibilityData.issues] in Hin.
    rewrite !in_app_iff in Hin.
    destruct Hin as [Hin | [Hin | [Hin | Hin]]].
    - destruct (_ >? 0); [| destruct Hin].
      destruct Hin as [<- | []]. cbn in Hmsg.
      exfalso. exact (rendered_count_is_not_heading_warning _ _ Hmsg).
    - destruct (skipsFrom 0 _ >? 0); [| destruct Hin].
      destruct Hin as [<- | []]. split; reflexivity.
    - destruct (_ >? 0); [| destruct Hin].
      destruct Hin as [<- | []]. cbn in Hmsg.
      exfalso. exact (rendered_count_is_not_heading_warning _ _ Hmsg).
    - destruct (_ >? 0); [| destruct Hin].
      destruct Hin as [<- | []]. cbn in Hmsg.
      exfalso. exact (rendered_count_is_not_heading_warning _ _ Hmsg). }
  pose proof (skipsFrom_zero (Auditor.AccessibilityDom.headingLevels d) 0)
    as Hzero.
  pose proof (skipsFrom_bounds (Auditor.AccessibilityDom.headingLevels d) 0)
    as Hbounds.
  split; [| split; [| split; [| split]]].
  - split.
    + intros [issue [Hin Hmsg]] Hw.
      destruct (Hblocks issue Hin Hmsg) as [Hpos _].
      apply Hzero in Hw. rewrite Hw in Hpos. discriminate.
    + intros Hnot.
      exists (Issue.mk "warning" "Heading structure may skip levels"
                None None
                (Some (skipsFrom 0 (Auditor.AccessibilityDom.headingLevels d)))
                None).
      split; [| reflexivity].
      rewrite accessibility_closed_form.
      cbn [Auditor.AccessibilityData.issues].
      rewrite !in_app_iff. right. left.
      destruct (Z.gtb_spec
                  (skipsFrom 0 (Auditor.AccessibilityDom.headingLevels d)) 0).
      * left. reflexivity.
      * exfalso. apply Hnot. apply Hzero. lia.
  - intros issue Hin Hmsg. apply (Hblocks issue Hin Hmsg).
  - cbn. lia.
  - cbn. lia.
  - reflexivity.
Qed.

(** A page with the headings h2, h3 and nothing else wrong is warned about. *)
Lemma heading_warning_means_skipped_level_witness :
  Issue.count
    (Issue.mk "warning" "Heading structure may skip levels" None None (Some 1)
       None)
  = Some
      (skipsFrom 0
         (Auditor.AccessibilityDom.headingLevels
            (Auditor.AccessibilityDom.mk [] [2; 3] [] [] 5))).
Proof.
  apply (proj1 (proj2
           (heading_warning_means_skipped_level
              (Auditor.AccessibilityDom.mk [] [2; 3] [] [] 5))));
    [left |]; reflexivity.
Defined.

(** The crawlability callback, in closed form. *)
Lemma crawlability_closed_form (d : Auditor.CrawlabilityDom.t) :
  Auditor.evaluateCrawlability d
  = Auditor.CrawlabilityData.mk
      ((if scriptOnly d
        then
          [Issue.mk "error"
             "Page appears to be JavaScript-only with no visible content"
             (Some "high") None None None]
        else [])
       ++ (if Auditor.CrawlabilityDom.viewport d then []
           else
             [Issue.mk "warning" "Missing viewport meta tag" (Some "medium")
                None None None])
       ++ (if Auditor.CrawlabilityDom.canonical d then []
           else
             [Issue.mk "warning" "Missing canonical URL" (Some "medium")
                None None None])
       ++ (if JS.includes "#" (Auditor.CrawlabilityDom.href d)
           then
             [Issue.mk "info" "URL contains hash fragments" (Some "low")
                None None None]
           else []))
      (100 - pick (scriptOnly d) 30
       - pick (negb (Auditor.CrawlabilityDom.viewport d)) 10
       - pick (negb (Auditor.CrawlabilityDom.canonical d)) 5
       - pick (JS.includes "#" (Auditor.CrawlabilityDom.href d)) 2)
      (Auditor.CrawlabilityDom.href d)
      (Auditor.CrawlabilityDom.hasContent d)
      (Z.of_nat (Auditor.CrawlabilityDom.scripts d)).
Proof.
  unfold Auditor.evaluateCrawlability, scriptOnly. cbv zeta.
  rewrite Z.gtb_ltb.
  destruct ((0 <? Z.of_nat (Auditor.CrawlabilityDom.scripts d))
            && negb (Auditor.CrawlabilityDom.hasContent d));
    destruct (Auditor.CrawlabilityDom.viewport d);
    destruct (Auditor.CrawlabilityDom.canonical d);
    destruct (JS.includes "#" (Auditor.CrawlabilityDom.href d));
    reflexivity.
Qed.

(** X8: the crawlability score of the full auditor is 100 minus 30 for a
    page with script tags and no visible text, 10 for a missing viewport
    tag, 5 for a missing canonical link and 2 for a hash in the URL.  The
    issue list has one entry per deduction, in this order, it is empty
    exactly when the score is 100, and it contains a [high] issue exactly
    for a page with script tags and no visible text.  A page without any
    script tag is never reported as script-only, even when it has no
    text. *)
Theorem crawlability_score_and_issues (d : Auditor.CrawlabilityDom.t) :
  Auditor.CrawlabilityData.score (Auditor.evaluateCrawlability d)
  = 100 - pick (scriptOnly d) 30
    - pick (negb (Auditor.CrawlabilityDom.viewport d)) 10
    - pick (negb (Auditor.CrawlabilityDom.canonical d)) 5
    - pick (JS.includes "#" (Auditor.CrawlabilityDom.href d)) 2
  /\ Auditor.len
       (Auditor.CrawlabilityData.issues (Auditor.evaluateCrawlability d))
     = pick (scriptOnly d) 1
       + pick (negb (Auditor.CrawlabilityDom.viewport d)) 1
       + pick (negb (Auditor.CrawlabilityDom.canonical d)) 1
       + pick (JS.includes "#" (Auditor.CrawlabilityDom.href d)) 1
  /\ (Auditor.CrawlabilityData.issues (Auditor.evaluateCrawlability d) = []
      <-> Auditor.CrawlabilityData.score (Auditor.evaluateCrawlability d)
          = 100)
  /\ ((exists issue,
         In issue
           (Auditor.CrawlabilityData.issues (Auditor.evaluateCrawlability d))
         /\ Issue.severity issue = Some "high")
      <-> scriptOnly d = true)
  /\ (Auditor.CrawlabilityDom.scripts d = 0%nat -> scriptOnly d = false).
Proof.
  rewrite crawlability_closed_form.
  cbn [Auditor.CrawlabilityData.score Auditor.CrawlabilityData.issues].
  split; [reflexivity |].
  split; [| split; [| split]].
  - destruct (scriptOnly d), (Auditor.CrawlabilityDom.viewport d),
      (Auditor.CrawlabilityDom.canonical d),
      (JS.includes "#" (Auditor.CrawlabilityDom.href d)); reflexivity.
  - destruct (scriptOnly d), (Auditor.CrawlabilityDom.viewport d),
      (Auditor.CrawlabilityDom.canonical d),
      (JS.includes "#" (Auditor.CrawlabilityDom.href d));
      cbn; split; intros H; try discriminate H; try reflexivity; lia.
  - destruct (scriptOnly d), (Auditor.CrawlabilityDom.viewport d),
      (Auditor.CrawlabilityDom.canonical d),
      (JS.includes "#" (Auditor.CrawlabilityDom.href d));
      cbn [app negb];
      (split;
       [intros [issue [Hin Hsev]]; try reflexivity;
        cbn in Hin;
        repeat match type of Hin with
          | _ \/ _ => destruct Hin as [Hin | Hin]
          end;
        try contradiction; subst issue; discriminate Hsev
       | intros Hs;
         first [discriminate Hs
               | eexists; split; [left; reflexivity | reflexivity]]]).
  - intros Hnone. unfold scriptOnly. rewrite Hnone. reflexivity.
Qed.

(** A page without script tags and without text. *)
Lemma crawlability_score_and_issues_witness :
  scriptOnly (Auditor.CrawlabilityDom.mk 0 false true true "https://a.io/")
  = false.
Proof.
  apply (proj2 (proj2 (proj2 (proj2
           (crawlability_score_and_issues
              (Auditor.CrawlabilityDom.mk 0 false true true
                 "https://a.io/")))))).
  reflexivity.
Defined.

(** ** The simple audit as a whole, and its route *)

Lemma crawlability_audit_keeps_world (url : string) (w : World) :
  SimpleAuditor.auditCrawlability url w
  = (eval (SimpleAuditor.auditCrawlability url) w, w).
Proof.
  unfold SimpleAuditor.auditCrawlability, eval, ret.
  destruct (SimpleAuditor.isComplexSite url); reflexivity.
Qed.

Lemma simple_audit_world (url : string) (w : World) :
  snd (SimpleAuditor.auditWebsite url w)
  = mkWorld (clock w)
      (console w
       ++ [String.append "Starting simple audit for: " url;
           String.append "Simple audit completed for: " url]).
Proof.
  unfold SimpleAuditor.auditWebsite, bind.
  unfold console_log at 1. unfold new_Date_toISOString.
  unfold SimpleAuditor.auditSEO at 1. unfold ret at 1.
  rewrite crawlability_audit_keeps_world.
  unfold console_log, ret. cbn [snd clock console].
  rewrite <- app_assoc. reflexivity.
Qed.

Lemma simple_audit_overall (url : string) (w : World) :
  SimpleAuditor.Results.overallScore (eval (SimpleAuditor.auditWebsite url) w)
  = JS.of_Z (match bucket url with
             | ComplexSite => 83
             | SimpleSite => 85
             | DefaultSite => 80
             end).
Proof.
  rewrite simple_audit_unfolded. cbv zeta.
  cbn [SimpleAuditor.Results.overallScore].
  destruct (simple_audit_scores url w)
    as (p & s & a & k & Hp & Hs & Ha & Hk & Hps & Hss & _ & _ & Has & Hks).
  rewrite simple_audit_unfolded in Hp, Hs, Ha, Hk.
  cbv zeta in Hp, Hs, Ha, Hk.
  cbn [SimpleAuditor.Results.performance SimpleAuditor.Results.seo
       SimpleAuditor.Results.accessibility
       SimpleAuditor.Results.crawlability] in Hp, Hs, Ha, Hk.
  injection Hp as <-. injection Hs as <-.
  injection Ha as <-. injection Hk as <-.
  assert (Hbucket : SimpleAuditor.isComplexSite url
                    = match bucket url with
                      | ComplexSite => true
                      | _ => false
                      end).
  { unfold bucket, SimpleAuditor.isComplexSite.
    destruct (JS.includes "optimizemydata" url || JS.includes "google" url
              || JS.includes "facebook" url);
      [| destruct (JS.includes "example.com" url
                   || JS.includes "github.io" url)]; reflexivity. }
  rewrite Hbucket in Hss, Hks.
  match goal with
  | |- SimpleAuditor.calculateOverallScore ?r = _ =>
      rewrite (simple_overall_from_scores r _ _ _ _
                 (f_equal Some Hps) (f_equal Some Hss)
                 (f_equal Some Has) (f_equal Some Hks))
  end.
  destruct (bucket url); vm_compute; reflexivity.
Qed.

Lemma simple_audit_no_recommendations (url : string) (w : World) :
  SimpleAuditor.Results.recommendations
    (eval (SimpleAuditor.auditWebsite url) w) = [].
Proof.
  destruct (simple_audit_scores url w)
    as (p & s & a & k & Hp & Hs & Ha & Hk & Hps & Hss & Ht & Hm & Has & Hks).
  rewrite simple_audit_unfolded. cbv zeta.
  cbn [SimpleAuditor.Results.recommendations].
  rewrite recommendations_by_category.
  unfold Rules.rule, Rules.below70, Rules.missingTitle,
    Rules.missingMetaDescription, Rules.seoChecksOf, titleAbsent,
    metaDescriptionAbsent, SimpleAuditor.numericScore.
  rewrite simple_audit_unfolded in Hp, Hs, Ha, Hk. cbv zeta in Hp, Hs, Ha, Hk.
  cbn [SimpleAuditor.Results.performance SimpleAuditor.Results.seo
       SimpleAuditor.Results.accessibility
       SimpleAuditor.Results.crawlability] in *.
  injection Hp as <-. injection Hs as <-.
  injection Ha as <-. injection Hk as <-.
  rewrite Hps, Hss, Has, Hks, Ht, Hm.
  destruct (bucket url), (SimpleAuditor.isComplexSite url); reflexivity.
Qed.

Lemma twice_unfolded {A : Type} (m : M A) (w : World) :
  eval (twice m) w = (eval m w, eval m (snd (m w))).
Proof.
  unfold twice, eval, bind, ret.
  destruct (m w) as [a w1]. cbn [fst snd].
  destruct (m w1) as [b w2]. reflexivity.
Qed.

Lemma same_bucket_same_complexity (url url' : string) :
  bucket url = bucket url' ->
  SimpleAuditor.isComplexSite url = SimpleAuditor.isComplexSite url'.
Proof.
  unfold bucket, SimpleAuditor.isComplexSite.
  destruct (JS.includes "optimizemydata" url || JS.includes "google" url
            || JS.includes "facebook" url),
    (JS.includes "optimizemydata" url' || JS.includes "google" url'
     || JS.includes "facebook" url'),
    (JS.includes "example.com" url || JS.includes "github.io" url),
    (JS.includes "example.com" url' || JS.includes "github.io" url');
    congruence.
Qed.

Lemma seo_audit_by_bucket (url url' : string) (w w' : World) :
  bucket url = bucket url' ->
  eval (SimpleAuditor.auditSEO url) w = eval (SimpleAuditor.auditSEO url') w'.
Proof.
  intros Hb. unfold SimpleAuditor.auditSEO, eval, ret.
  rewrite (same_bucket_same_complexity url url' Hb). reflexivity.
Qed.

Lemma crawlability_audit_by_bucket (url url' : string) (w w' : World) :
  bucket url = bucket url' ->
  eval (SimpleAuditor.auditCrawlability url) w
  = SimpleAuditor.CrawlabilityData.mk
      (SimpleAuditor.CrawlabilityData.issues
         (eval (SimpleAuditor.auditCrawlability url') w'))
      (SimpleAuditor.CrawlabilityData.score
         (eval (SimpleAuditor.auditCrawlability url') w'))
      url
      (SimpleAuditor.CrawlabilityData.hasContent
         (eval (SimpleAuditor.auditCrawlability url') w'))
      (SimpleAuditor.CrawlabilityData.scriptCount
         (eval (SimpleAuditor.auditCrawlability url') w')).
Proof.
  intros Hb. unfold SimpleAuditor.auditCrawlability, eval, ret.
  rewrite (same_bucket_same_complexity url url' Hb).
  destruct (SimpleAuditor.isComplexSite url'); reflexivity.
Qed.

(** Two simple audits of URLs of one bucket, in any two worlds. *)
Lemma simple_audit_by_bucket (url url' : string) (w w' : World) :
  bucket url = bucket url' ->
  SimpleAuditor.Results.performance (eval (SimpleAuditor.auditWebsite url) w)
  = SimpleAuditor.Results.performance
      (eval (SimpleAuditor.auditWebsite url') w')
  /\ SimpleAuditor.Results.seo (eval (SimpleAuditor.auditWebsite url) w)
     = SimpleAuditor.Results.seo (eval (SimpleAuditor.auditWebsite url') w')
  /\ SimpleAuditor.Results.accessibility
       (eval (SimpleAuditor.auditWebsite url) w)
     = SimpleAuditor.Results.accessibility
         (eval (SimpleAuditor.auditWebsite url') w')
  /\ (url = url' ->
      SimpleAuditor.Results.crawlability
        (eval (SimpleAuditor.auditWebsite url) w)
      = SimpleAuditor.Results.crawlability
          (eval (SimpleAuditor.auditWebsite url') w'))
  /\ SimpleAuditor.Results.overallScore
       (eval (SimpleAuditor.auditWebsite url) w)
     = SimpleAuditor.Results.overallScore
         (eval (SimpleAuditor.auditWebsite url') w')
  /\ SimpleAuditor.Results.recommendations
       (eval (SimpleAuditor.auditWebsite url) w)
     = SimpleAuditor.Results.recommendations
         (eval (SimpleAuditor.auditWebsite url') w').
Proof.
  intros Hb.
  split; [| split; [| split; [| split; [| split]]]].
  - rewrite !simple_audit_unfolded. cbv zeta.
    cbn [SimpleAuditor.Results.performance].
    rewrite !mock_performance_is_canned, Hb. reflexivity.
  - rewrite !simple_audit_unfolded. cbv zeta.
    cbn [SimpleAuditor.Results.seo].
    rewrite (seo_audit_by_bucket url url' w w' Hb). reflexivity.
  - rewrite !simple_audit_unfolded. reflexivity.
  - intros <-. rewrite !simple_audit_unfolded. cbv zeta.
    cbn [SimpleAuditor.Results.crawlability].
    rewrite (crawlability_audit_by_bucket url url w w' eq_refl).
    rewrite (crawlability_audit_by_bucket url url w' w' eq_refl) at 5.
    reflexivity.
  - rewrite !simple_audit_overall, Hb. reflexivity.
  - rewrite !simple_audit_no_recommendations. reflexivity.
Qed.

(** C9: the degraded extractors are deterministic, and more: their bundles
    depend on the URL only through its bucket and on nothing else.  For two
    URLs of one bucket, [createMockPerformanceData] returns the same
    bundle, and [auditSEO] and [auditCrawlability], run in any two worlds
    (clock and console), return the same bundle, the [url] field of the
    crawlability bundle apart, which is the URL given.  Hence for one URL
    all four bundles are equal.  Two whole audits of one URL run in a row,
    the second in the world the first one left, agree on the four bundles,
    the overall score and the recommendations. *)
Theorem degraded_extractors_are_deterministic (url url' : string)
    (w w' : World) :
  bucket url = bucket url' ->
  SimpleAuditor.createMockPerformanceData url
  = SimpleAuditor.createMockPerformanceData url'
  /\ eval (SimpleAuditor.auditSEO url) w
     = eval (SimpleAuditor.auditSEO url') w'
  /\ eval (SimpleAuditor.auditCrawlability url) w
     = SimpleAuditor.CrawlabilityData.mk
         (SimpleAuditor.CrawlabilityData.issues
            (eval (SimpleAuditor.auditCrawlability url') w'))
         (SimpleAuditor.CrawlabilityData.score
            (eval (SimpleAuditor.auditCrawlability url') w'))
         url
         (SimpleAuditor.CrawlabilityData.hasContent
            (eval (SimpleAuditor.auditCrawlability url') w'))
         (SimpleAuditor.CrawlabilityData.scriptCount
            (eval (SimpleAuditor.auditCrawlability url') w'))
  /\ (url = url' ->
      eval (SimpleAuditor.auditCrawlability url) w
      = eval (SimpleAuditor.auditCrawlability url') w')
  /\ SimpleAuditor.Results.performance
       (eval (SimpleAuditor.auditWebsite url) w)
     = SimpleAuditor.Results.performance
         (eval (SimpleAuditor.auditWebsite url') w')
  /\ SimpleAuditor.Results.seo (eval (SimpleAuditor.auditWebsite url) w)
     = SimpleAuditor.Results.seo (eval (SimpleAuditor.auditWebsite url') w')
  /\ SimpleAuditor.Results.accessibility
       (eval (SimpleAuditor.auditWebsite url) w)
     = SimpleAuditor.Results.accessibility
         (eval (SimpleAuditor.auditWebsite url') w')
  /\ (let first := fst (eval (twice (SimpleAuditor.auditWebsite url)) w) in
      let second := snd (eval (twice (SimpleAuditor.auditWebsite url)) w) in
      SimpleAuditor.Results.performance first
      = SimpleAuditor.Results.performance second
      /\ SimpleAuditor.Results.seo first = SimpleAuditor.Results.seo second
      /\ SimpleAuditor.Results.accessibility first
         = SimpleAuditor.Results.accessibility second
      /\ SimpleAuditor.Results.crawlability first
         = SimpleAuditor.Results.crawlability second
      /\ SimpleAuditor.Results.overallScore first
         = SimpleAuditor.Results.overallScore second
      /\ SimpleAuditor.Results.recommendations first
         = SimpleAuditor.Results.recommendations second
      /\ snd (twice (SimpleAuditor.auditWebsite url) w) <> w).
Proof.
  intros Hb.
  destruct (simple_audit_by_bucket url url' w w' Hb)
    as (Hp & Hs & Ha & _ & _ & _).
  split; [rewrite !mock_performance_is_canned, Hb; reflexivity |].
  split; [apply seo_audit_by_bucket; exact Hb |].
  split; [apply crawlability_audit_by_bucket; exact Hb |].
  split.
  { intros <-.
    rewrite (crawlability_audit_by_bucket url url w w' eq_refl).
    rewrite (crawlability_audit_by_bucket url url w' w' eq_refl) at 5.
    reflexivity. }
  split; [exact Hp |]. split; [exact Hs |]. split; [exact Ha |].
  cbv zeta. rewrite twice_unfolded. cbn [fst snd].
  destruct (simple_audit_by_bucket url url w
              (snd (SimpleAuditor.auditWebsite url w)) eq_refl)
    as (Hp2 & Hs2 & Ha2 & Hk2 & Ho2 & Hr2).
  split; [exact Hp2 |]. split; [exact Hs2 |]. split; [exact Ha2 |].
  split; [exact (Hk2 eq_refl) |]. split; [exact Ho2 |].
  split; [exact Hr2 |].
  intros Hw.
  apply (f_equal (fun x => List.length (console x))) in Hw.
  revert Hw. unfold twice, bind, ret.
  rewrite (surjective_pairing (SimpleAuditor.auditWebsite url w)).
  rewrite (surjective_pairing
             (SimpleAuditor.auditWebsite url
                (snd (SimpleAuditor.auditWebsite url w)))).
  cbn [snd]. rewrite !simple_audit_world. cbn [console clock].
  rewrite !length_app. cbn [List.length]. lia.
Qed.

(** Two URLs of the complex bucket, audited at different times. *)
Lemma degraded_extractors_are_deterministic_witness :
  bucket "https://www.google.com" = bucket "https://facebook.com/about"
  /\ eval (SimpleAuditor.auditSEO "https://www.google.com") Samples.world0
     = eval (SimpleAuditor.auditSEO "https://facebook.com/about")
         Samples.world1.
Proof.
  split; [vm_compute; reflexivity |].
  destruct (degraded_extractors_are_deterministic "https://www.google.com"
              "https://facebook.com/about" Samples.world0 Samples.world1)
    as (_ & Hseo & _).
  - vm_compute. reflexivity.
  - exact Hseo.
Defined.

(** X9: the overall score of a simple audit takes one of three values, by
    the bucket of the URL alone: 83 for a complex site, 85 for a simple
    site, 80 otherwise.  The result carries the URL it was asked for and the
    time of the clock, and the audit writes exactly two lines to the
    console, one before and one after its work. *)
Theorem simple_audit_overall_by_bucket (url : string) (w : World) :
  SimpleAuditor.Results.overallScore (eval (SimpleAuditor.auditWebsite url) w)
  = JS.of_Z (match bucket url with
             | ComplexSite => 83
             | SimpleSite => 85
             | DefaultSite => 80
             end)
  /\ SimpleAuditor.Results.url (eval (SimpleAuditor.auditWebsite url) w) = url
  /\ SimpleAuditor.Results.timestamp
       (eval (SimpleAuditor.auditWebsite url) w) = clock w
  /\ snd (SimpleAuditor.auditWebsite url w)
     = mkWorld (clock w)
         (console w
          ++ [String.append "Starting simple audit for: " url;
              String.append "Simple audit completed for: " url]).
Proof.
  split; [apply simple_audit_overall |]. split; [| split].
  - rewrite simple_audit_unfolded. reflexivity.
  - rewrite simple_audit_unfolded. reflexivity.
  - apply simple_audit_world.
Qed.

(** The world in which the handler calls the auditor. *)
Lemma analyze_calls_auditor (parses : string -> bool)
    (audit : string -> M (Auditor.Attempt SimpleAuditor.Results.t))
    (u : string) (w : World) :
  u <> "" ->
  parses u = true ->
  Route.analyze parses audit (Route.Object (Some u)) w
  = let called :=
      audit u
        (mkWorld (clock w)
           (console w
            ++ [String.append "Starting audit for: " u;
                "Using simple audit (Puppeteer disabled)"])) in
    match fst called with
    | Auditor.Returned results =>
        (Route.mkHandled (Route.mkResponse 200 (Route.Success results)) [],
         mkWorld (clock (snd called))
           (console (snd called) ++ ["Simple audit completed successfully"]))
    | Auditor.Threw simpleError =>
        (Route.mkHandled
           (Route.mkResponse 500
              (Route.Failure "Audit failed"
                 "Unable to perform audit. Please try again later."))
           [("Simple audit failed:", simpleError);
            ("Audit error:",
             "Unable to perform audit. Please try again later.")],
         snd called)
    end.
Proof.
  intros Hne Hparses. unfold Route.analyze.
  destruct u as [| c u]; [congruence |].
  rewrite Hparses. cbn [negb].
  unfold bind at 1. unfold console_log at 1.
  unfold bind at 1. unfold console_log at 1. cbn [clock console].
  rewrite <- app_assoc. cbn [app].
  unfold bind at 1. cbv zeta.
  destruct (audit (String c u) _) as [[simpleError | results] w1];
    cbn [fst snd]; reflexivity.
Qed.

Lemma analyze_refused (parses : string -> bool)
    (audit : string -> M (Auditor.Attempt SimpleAuditor.Results.t))
    (req_body : Route.RequestBody) (w : World) :
  refused parses req_body ->
  exists error message,
    Route.analyze parses audit req_body w
    = (Route.mkHandled (Route.mkResponse 400 (Route.Failure error message)) [],
       w).
Proof.
  intros [-> | [-> | [u [-> Hp]]]].
  - eexists. eexists. reflexivity.
  - eexists. eexists. reflexivity.
  - destruct u as [| c u].
    + eexists. eexists. reflexivity.
    + unfold Route.analyze. rewrite Hp. eexists. eexists. reflexivity.
Qed.

Lemma request_cases (parses : string -> bool)
    (req_body : Route.RequestBody) :
  req_body = Route.Undefined
  \/ refused parses req_body
  \/ exists u, req_body = Route.Object (Some u) /\ u <> "" /\ parses u = true.
Proof.
  destruct req_body as [| [[| c u] |]].
  - left. reflexivity.
  - right. left. right. left. reflexivity.
  - destruct (parses (String c u)) eqn:Hp.
    + right. right. exists (String c u).
      split; [reflexivity | split; [discriminate | exact Hp]].
    + right. left. right. right. exists (String c u).
      split; [reflexivity | exact Hp].
  - right. left. left. reflexivity.
Qed.

Lemma simple_auditor_fulfils (u : string) (w : World) :
  Route.simpleAuditor u w
  = (Auditor.Returned (eval (SimpleAuditor.auditWebsite u) w),
     mkWorld (clock w)
       (console w
        ++ [String.append "Starting simple audit for: " u;
            String.append "Simple audit completed for: " u])).
Proof.
  unfold Route.simpleAuditor, bind, ret, eval.
  rewrite (surjective_pairing (SimpleAuditor.auditWebsite u w)).
  rewrite simple_audit_world. reflexivity.
Qed.

(** X10: the answers of the route with the simple auditor behind it.  The
    status is 200, 400 or 500.  It is 500 exactly when the request has no
    body, so that reading [url] off it throws; the response then carries the
    message of that TypeError.  It is 400 exactly when [url] is absent or
    empty or [new URL] rejects it; such a request writes nothing and starts
    no audit.  Every other request is answered 200 with the simple audit of
    its URL: no recommendation, an overall score of 83, 85 or 80 by the
    bucket of the URL, and five lines on the console. *)
Theorem analyze_answers_by_request (parses : string -> bool)
    (req_body : Route.RequestBody) (w : World) :
  let run := Route.analyze parses Route.simpleAuditor req_body w in
  let sent := Route.response (fst run) in
  (Route.status sent = 200 \/ Route.status sent = 400
   \/ Route.status sent = 500)
  /\ (Route.status sent = 500 <-> req_body = Route.Undefined)
  /\ (Route.status sent = 400 <-> refused parses req_body)
  /\ (Route.status sent = 200
      <-> exists u,
            req_body = Route.Object (Some u) /\ u <> "" /\ parses u = true)
  /\ (Route.status sent = 500 ->
      Route.body sent = Route.Failure "Audit failed" Route.cannotDestructure
      /\ Route.errors (fst run) = [("Audit error:", Route.cannotDestructure)]
      /\ snd run = w)
  /\ (Route.status sent = 400 ->
      snd run = w
      /\ Route.errors (fst run) = []
      /\ exists error message, Route.body sent = Route.Failure error message)
  /\ (forall u,
        req_body = Route.Object (Some u) -> u <> "" -> parses u = true ->
        exists data,
          Route.body sent = Route.Success data
          /\ Route.errors (fst run) = []
          /\ SimpleAuditor.Results.url data = u
          /\ SimpleAuditor.Results.recommendations data = []
          /\ SimpleAuditor.Results.overallScore data
             = JS.of_Z (match bucket u with
                        | ComplexSite => 83
                        | SimpleSite => 85
                        | DefaultSite => 80
                        end)
          /\ console (snd run)
             = console w
               ++ [String.append "Starting audit for: " u;
                   "Using simple audit (Puppeteer disabled)";
                   String.append "Starting simple audit for: " u;
                   String.append "Simple audit completed for: " u;
                   "Simple audit completed successfully"]).
Proof.
  cbv zeta.
  assert (Hex : forall u,
             ~ (u <> "" /\ parses u = true /\ refused parses
                                                (Route.Object (Some u)))).
  { intros u (Hne & Hp & [Hr | [Hr | [u' [Hr Hp']]]]).
    - discriminate Hr.
    - inversion Hr. congruence.
    - inversion Hr. congruence. }
  destruct (request_cases parses req_body)
    as [-> | [Href | (u & -> & Hne & Hp)]].
  - cbn.
    split; [right; right; reflexivity |].
    split; [split; reflexivity |].
    split.
    { split; [discriminate |].
      intros [Hr | [Hr | [u [Hr _]]]]; discriminate Hr. }
    split; [split; [discriminate | intros [u [Hu _]]; discriminate Hu] |].
    split; [intros _; repeat split |].
    split; [discriminate |].
    intros u Hu. discriminate Hu.
  - destruct (analyze_refused parses Route.simpleAuditor req_body w Href)
      as (error & message & ->).
    cbn [fst snd Route.response Route.status Route.body Route.errors].
    split; [right; left; reflexivity |].
    split.
    { split; [discriminate |]. intros ->.
      destruct Href as [Hr | [Hr | [u [Hr _]]]]; discriminate Hr. }
    split; [split; [intros _; exact Href | reflexivity] |].
    split.
    { split; [discriminate |]. intros (u & -> & Hne & Hp).
      exfalso. apply (Hex u). auto. }
    split; [discriminate |].
    split; [intros _; split; [reflexivity | split; [reflexivity | eauto]] |].
    intros u -> Hne Hp. exfalso. apply (Hex u). auto.
  - rewrite (analyze_calls_auditor parses Route.simpleAuditor u w Hne Hp).
    cbv zeta. rewrite simple_auditor_fulfils.
    cbn [fst snd Route.response Route.status Route.body Route.errors
         clock console].
    split; [left; reflexivity |].
    split; [split; discriminate |].
    split.
    { split; [discriminate |]. intros Hr. exfalso. apply (Hex u). auto. }
    split; [split; [intros _; exists u; auto | reflexivity] |].
    split; [discriminate |].
    split; [discriminate |].
    intros u' Hu' _ _. inversion Hu'. subst u'.
    eexists. split; [reflexivity |]. split; [reflexivity |].
    split; [rewrite simple_audit_unfolded; reflexivity |].
    split; [apply simple_audit_no_recommendations |].
    split; [apply simple_audit_overall |].
    rewrite <- !app_assoc. reflexivity.
Qed.

(** A request for [https://example.com] is answered 200 with overall 85. *)
Lemma analyze_answers_by_request_witness :
  exists data,
    Route.body
      (Route.response
         (eval (Route.analyze (fun _ => true) Route.simpleAuditor
                  (Route.Object (Some "https://example.com")))
            Samples.world0))
    = Route.Success data
    /\ SimpleAuditor.Results.recommendations data = []
    /\ SimpleAuditor.Results.overallScore data = JS.of_Z 85.
Proof.
  destruct (analyze_answers_by_request (fun _ => true)
              (Route.Object (Some "https://example.com")) Samples.world0)
    as (_ & _ & _ & _ & _ & _ & Hok).
  destruct (Hok "https://example.com" eq_refl) as (data & Hb & _ & _ & Hr & Ho & _).
  - discriminate.
  - reflexivity.
  - exists data. split; [exact Hb |]. split; [exact Hr | exact Ho].
Defined.



(** ** The overall score on integer scores *)

Lemma number_eqb_eq (x y : JS.number) : number_eqb x y = true -> x = y.
Proof.
  destruct x as [s | s | | s m e], y as [s' | s' | | s' m' e'];
    cbn; try discriminate; try reflexivity.
  - intros H. apply Bool.eqb_prop in H. congruence.
  - intros H. apply Bool.eqb_prop in H. congruence.
  - intros H. apply andb_prop in H. destruct H as [H He].
    apply andb_prop in H. destruct H as [Hs Hm].
    apply Bool.eqb_prop in Hs. apply Pos.eqb_eq in Hm. apply Z.eqb_eq in He.
    congruence.
Qed.

Lemma holds_record (tenths : Z) (total : JS.number) (m : Totals) :
  holds tenths total (record tenths total m).
Proof.
  unfold holds, record.
  destruct (PositiveMap.find (slot tenths) m) as [l |] eqn:E.
  - destruct (existsb (number_eqb total) l) eqn:Ex.
    + exists l. split; [exact E |].
      apply existsb_exists in Ex. destruct Ex as [y [Hy Heq]].
      apply number_eqb_eq in Heq. subst y. exact Hy.
    + exists (total :: l). split; [apply PositiveMap.gss | left; reflexivity].
  - exists [total]. split; [apply PositiveMap.gss | left; reflexivity].
Qed.

Lemma holds_record_keeps (tenths tenths' : Z) (total total' : JS.number)
    (m : Totals) :
  holds tenths total m -> holds tenths total (record tenths' total' m).
Proof.
  intros [l [Hfind Hin]]. unfold holds, record.
  destruct (Pos.eq_dec (slot tenths') (slot tenths)) as [Heq | Hne].
  - rewrite Heq, Hfind.
    destruct (existsb (number_eqb total') l).
    + exists l. auto.
    + exists (total' :: l). split; [apply PositiveMap.gss | right; exact Hin].
  - destruct (PositiveMap.find (slot tenths') m) as [l' |].
    + destruct (existsb (number_eqb total') l').
      * exists l. auto.
      * exists l. split; [| exact Hin].
        rewrite PositiveMap.gso by congruence. exact Hfind.
    + exists l. split; [| exact Hin].
      rewrite PositiveMap.gso by congruence. exact Hfind.
Qed.

Section Advance.

Variable tenthsWeight : Z.
Variable weight : JS.number.

Let add_score (tenths : Z) (total : JS.number) (acc : Totals) (score : Z)
  : Totals :=
  record (tenths + tenthsWeight * score)
    (JS.add total (JS.mul (JS.of_Z score) weight)) acc.

Lemma scores_keep (tenths : Z) (total : JS.number) (scores : list Z) :
  forall acc n x,
    holds n x acc ->
    holds n x (fold_left (add_score tenths total) scores acc).
Proof.
  induction scores as [| score scores IH]; intros acc n x Hheld.
  - exact Hheld.
  - cbn [fold_left]. apply IH. apply holds_record_keeps. exact Hheld.
Qed.

Lemma scores_reach (tenths : Z) (total : JS.number) (scores : list Z) :
  forall acc score,
    In score scores ->
    holds (tenths + tenthsWeight * score)
      (JS.add total (JS.mul (JS.of_Z score) weight))
      (fold_left (add_score tenths total) scores acc).
Proof.
  induction scores as [| score' scores IH]; intros acc score Hin.
  - destruct Hin.
  - cbn [fold_left]. destruct Hin as [-> | Hin].
    + apply scores_keep. apply holds_record.
    + apply IH. exact Hin.
Qed.

Let add_entry (acc : Totals) (entry : Z * JS.number) : Totals :=
  let '(tenths, total) := entry in
  fold_left (add_score tenths total) scores100 acc.

Lemma entries_keep (l : list (Z * JS.number)) :
  forall acc n x, holds n x acc -> holds n x (fold_left add_entry l acc).
Proof.
  induction l as [| [tenths total] l IH]; intros acc n x Hheld.
  - exact Hheld.
  - cbn [fold_left]. apply IH. unfold add_entry. apply scores_keep.
    exact Hheld.
Qed.

Lemma entries_reach (l : list (Z * JS.number)) :
  forall acc tenths total score,
    In (tenths, total) l ->
    In score scores100 ->
    holds (tenths + tenthsWeight * score)
      (JS.add total (JS.mul (JS.of_Z score) weight))
      (fold_left add_entry l acc).
Proof.
  induction l as [| [tenths' total'] l IH];
    intros acc tenths total score Hin Hscore.
  - destruct Hin.
  - cbn [fold_left]. destruct Hin as [Heq | Hin].
    + inversion Heq. subst. apply entries_keep. unfold add_entry.
      apply scores_reach. exact Hscore.
    + apply IH; assumption.
Qed.

Lemma advance_is_fold (m : Totals) :
  advance tenthsWeight weight m
  = fold_left add_entry (entries m) (PositiveMap.empty (list JS.number)).
Proof.
  unfold advance. f_equal.
Qed.

End Advance.

Lemma holds_entries (tenths : Z) (total : JS.number) (m : Totals) :
  0 <= tenths -> holds tenths total m -> In (tenths, total) (entries m).
Proof.
  intros Hpos [l [Hfind Hin]]. unfold entries.
  apply in_flat_map. exists (slot tenths, l). split.
  - apply PositiveMap.elements_correct. exact Hfind.
  - apply in_map_iff. exists total. split; [| exact Hin].
    f_equal. unfold slot. lia.
Qed.

Lemma advance_reaches (tenthsWeight : Z) (weight : JS.number) (m : Totals)
    (tenths : Z) (total : JS.number) (score : Z) :
  0 <= tenths ->
  holds tenths total m ->
  0 <= score <= 100 ->
  holds (tenths + tenthsWeight * score)
    (JS.add total (JS.mul (JS.of_Z score) weight))
    (advance tenthsWeight weight m).
Proof.
  intros Hpos Hheld Hscore. rewrite advance_is_fold.
  apply entries_reach.
  - apply holds_entries; assumption.
  - unfold scores100. apply in_map_iff. exists (Z.to_nat score).
    split; [lia |]. apply in_seq. lia.
Qed.

Lemma reachable_totals_round_well :
  forallb roundsWell (entries reachableTotals) = true.
Proof. vm_compute. reflexivity. Qed.

Lemma overall_of_report (p s a k : Z) :
  SimpleAuditor.calculateOverallScore
    (Samples.report (Some p) (Some s) (Some a) (Some k))
  = JS.Math_round
      (JS.div
         (JS.add
            (JS.add
               (JS.add
                  (JS.add (JS.of_Z 0) (JS.mul (JS.of_Z p) (JS.dec 3 10)))
                  (JS.mul (JS.of_Z s) (JS.dec 3 10)))
               (JS.mul (JS.of_Z a) (JS.dec 2 10)))
            (JS.mul (JS.of_Z k) (JS.dec 2 10)))
         fullWeight).
Proof.
  rewrite simple_overall_is_weightedMean.
  unfold weightedMean, scored, sum, keys.
  cbn [flat_map app map fold_left Samples.report Samples.slotWith
       SimpleAuditor.numericScore SimpleAuditor.Results.performance
       SimpleAuditor.Results.seo SimpleAuditor.Results.accessibility
       SimpleAuditor.Results.crawlability SimpleAuditor.PerformanceData.score
       SeoData.score SimpleAuditor.AccessibilityData.score
       SimpleAuditor.CrawlabilityData.score SimpleAuditor.weights].
  change (JS.add
            (JS.add (JS.add (JS.add (JS.of_Z 0) (JS.dec 3 10)) (JS.dec 3 10))
               (JS.dec 2 10)) (JS.dec 2 10))
    with fullWeight.
  replace (JS.gt fullWeight (JS.of_Z 0)) with true
    by (vm_compute; reflexivity).
  reflexivity.
Qed.

(** X11: with all four categories scored by integers between 0 and 100,
    [calculateOverallScore] returns an integer between 0 and 100.  Writing
    the exact weighted mean as n / 10 with n = 3 p + 3 s + 2 a + 2 k, the
    result is that mean rounded to the nearest integer whenever the mean
    does not end in .5; when it ends in .5 the result is either the integer
    above or, through the rounding error of the binary64 operations, the
    integer below. *)
Theorem overall_of_integer_scores (r : SimpleAuditor.Results.t)
    (p s a k : Z) :
  SimpleAuditor.numericScore r Performance = Some p ->
  SimpleAuditor.numericScore r SEO = Some s ->
  SimpleAuditor.numericScore r Accessibility = Some a ->
  SimpleAuditor.numericScore r Crawlability = Some k ->
  0 <= p <= 100 -> 0 <= s <= 100 -> 0 <= a <= 100 -> 0 <= k <= 100 ->
  (SimpleAuditor.calculateOverallScore r
   = JS.of_Z ((3 * p + 3 * s + 2 * a + 2 * k + 5) / 10)
   \/ ((3 * p + 3 * s + 2 * a + 2 * k) mod 10 = 5
       /\ SimpleAuditor.calculateOverallScore r
          = JS.of_Z ((3 * p + 3 * s + 2 * a + 2 * k) / 10)))
  /\ (exists q,
        0 <= q <= 100 /\ SimpleAuditor.calculateOverallScore r = JS.of_Z q).
Proof.
  intros Hp Hs Ha Hk Rp Rs Ra Rk.
  rewrite (simple_overall_from_scores r _ _ _ _ Hp Hs Ha Hk).
  rewrite overall_of_report.
  assert (Hheld :
            holds (0 + 3 * p + 3 * s + 2 * a + 2 * k)
              (JS.add
                 (JS.add
                    (JS.add
                       (JS.add (JS.of_Z 0) (JS.mul (JS.of_Z p) (JS.dec 3 10)))
                       (JS.mul (JS.of_Z s) (JS.dec 3 10)))
                    (JS.mul (JS.of_Z a) (JS.dec 2 10)))
                 (JS.mul (JS.of_Z k) (JS.dec 2 10)))
              reachableTotals).
  { unfold reachableTotals.
    apply advance_reaches; [lia | | exact Rk].
    apply advance_reaches; [lia | | exact Ra].
    apply advance_reaches; [lia | | exact Rs].
    apply advance_reaches; [lia | | exact Rp].
    apply holds_record. }
  apply holds_entries in Hheld; [| lia].
  pose proof (proj1 (forallb_forall roundsWell (entries reachableTotals))
                reachable_totals_round_well _ Hheld) as Hround.
  unfold roundsWell in Hround.
  replace (0 + 3 * p + 3 * s + 2 * a + 2 * k)
    with (3 * p + 3 * s + 2 * a + 2 * k) in Hround by lia.
  apply orb_prop in Hround.
  assert (Hcases :
            JS.Math_round
              (JS.div
                 (JS.add
                    (JS.add
                       (JS.add
                          (JS.add (JS.of_Z 0)
                             (JS.mul (JS.of_Z p) (JS.dec 3 10)))
                          (JS.mul (JS.of_Z s) (JS.dec 3 10)))
                       (JS.mul (JS.of_Z a) (JS.dec 2 10)))
                    (JS.mul (JS.of_Z k) (JS.dec 2 10)))
                 fullWeight)
            = JS.of_Z ((3 * p + 3 * s + 2 * a + 2 * k + 5) / 10)
            \/ ((3 * p + 3 * s + 2 * a + 2 * k) mod 10 = 5
                /\ JS.Math_round
                     (JS.div
                        (JS.add
                           (JS.add
                              (JS.add
                                 (JS.add (JS.of_Z 0)
                                    (JS.mul (JS.of_Z p) (JS.dec 3 10)))
                                 (JS.mul (JS.of_Z s) (JS.dec 3 10)))
                              (JS.mul (JS.of_Z a) (JS.dec 2 10)))
                           (JS.mul (JS.of_Z k) (JS.dec 2 10)))
                        fullWeight)
                   = JS.of_Z ((3 * p + 3 * s + 2 * a + 2 * k) / 10))).
  { destruct Hround as [Hexact | Hhalf].
    - left. apply number_eqb_eq. exact Hexact.
    - right. apply andb_prop in Hhalf. destruct Hhalf as [Hmod Heq].
      split; [apply Z.eqb_eq; exact Hmod | apply number_eqb_eq; exact Heq]. }
  split; [exact Hcases |].
  destruct Hcases as [Hexact | [_ Hbelow]].
  - exists ((3 * p + 3 * s + 2 * a + 2 * k + 5) / 10).
    split; [| exact Hexact].
    split; [apply Z.div_pos; lia |].
    apply Z.lt_succ_r. apply Z.div_lt_upper_bound; lia.
  - exists ((3 * p + 3 * s + 2 * a + 2 * k) / 10).
    split; [| exact Hbelow].
    split; [apply Z.div_pos; lia |].
    apply Z.div_le_upper_bound; lia.
Qed.

(** Scores 0, 3, 2, 1: the exact mean is 1.5 and the result is 1 or 2. *)
Lemma overall_of_integer_scores_witness :
  exists q,
    0 <= q <= 100
    /\ SimpleAuditor.calculateOverallScore
         (Samples.report (Some 0) (Some 3) (Some 2) (Some 1)) = JS.of_Z q.
Proof.
  apply (proj2
           (overall_of_integer_scores
              (Samples.report (Some 0) (Some 3) (Some 2) (Some 1)) 0 3 2 1
              eq_refl eq_refl eq_refl eq_refl
              (conj (Z.le_refl 0) (Zle_0_pos 100))
              (conj (Zle_0_pos 3) (Zle_bool_imp_le 3 100 eq_refl))
              (conj (Zle_0_pos 2) (Zle_bool_imp_le 2 100 eq_refl))
              (conj (Zle_0_pos 1) (Zle_bool_imp_le 1 100 eq_refl)))).
Defined.

(** ** The SEO scorers *)

Lemma coverage_test_on_all_counts :
  forallb coverageTestExact imageCounts = true.
Proof. vm_compute. reflexivity. Qed.

Lemma in_imageCounts (total withAlt : Z) :
  0 <= withAlt <= total -> total <= 100 -> In (total, withAlt) imageCounts.
Proof.
  intros Hw Ht. unfold imageCounts. apply in_flat_map.
  exists (Z.to_nat total). split; [apply in_seq; lia |].
  apply in_map_iff. exists (Z.to_nat withAlt).
  split; [f_equal; lia | apply in_seq; lia].
Qed.

(** X12: on a page with at most 100 images the alt-text deduction of the
    full auditor is decided exactly as the exact ratio would decide it: the
    binary64 value of (withAlt / total) * 100 is below 80 if and only if
    fewer than four in five images have an alt attribute.  A page where
    exactly 80% of the images have one is not charged, and neither is a
    page without images, whose coverage is set to 100. *)
Theorem alt_coverage_test_is_exact (total withAlt : Z) :
  0 <= withAlt <= total ->
  total <= 100 ->
  (JS.lt (Auditor.altTextCoverage total withAlt) (JS.of_Z 80) = true
   <-> 0 < total /\ 5 * withAlt < 4 * total)
  /\ Auditor.altTextCoverage 0 0 = JS.of_Z 100.
Proof.
  intros Hw Ht. split; [| reflexivity].
  pose proof (proj1 (forallb_forall coverageTestExact imageCounts)
                coverage_test_on_all_counts (total, withAlt)
                (in_imageCounts total withAlt Hw Ht)) as Hexact.
  unfold coverageTestExact in Hexact. apply Bool.eqb_prop in Hexact.
  rewrite Hexact, andb_true_iff, !Z.ltb_lt. tauto.
Qed.

(** Four of five images with an alt attribute: no deduction. *)
Lemma alt_coverage_test_is_exact_witness :
  JS.lt (Auditor.altTextCoverage 5 4) (JS.of_Z 80) = true
  <-> 0 < 5 /\ 5 * 4 < 4 * 5.
Proof.
  apply (proj1 (alt_coverage_test_is_exact 5 4
                  (conj (Zle_0_pos 4) (Zle_bool_imp_le 4 5 eq_refl))
                  (Zle_bool_imp_le 5 100 eq_refl))).
Defined.

(** X13: the degraded SEO scorer is stricter than the full one on every
    bundle: it scores the same checks at least 3 points lower, and it never
    gives more than 97. *)
Theorem degraded_seo_profile_is_stricter (s : SeoChecks.t) :
  SimpleAuditor.calculateSEOScore s + 3 <= Auditor.calculateSEOScore s
  /\ SimpleAuditor.calculateSEOScore s <= 97.
Proof.
  unfold SimpleAuditor.calculateSEOScore, Auditor.calculateSEOScore.
  cbv zeta.
  rewrite !charge_either, !charge, !credit. unfold pick.
  destruct (negb (TextCheck.present (SeoChecks.title s)));
    destruct (negb (TextCheck.optimal (SeoChecks.title s)));
    destruct (negb (TextCheck.present (SeoChecks.metaDescription s)));
    destruct (negb (TextCheck.optimal (SeoChecks.metaDescription s)));
    destruct (negb (Headings.hasH1 (SeoChecks.headings s)));
    destruct (Headings.multipleH1 (SeoChecks.headings s));
    destruct (JS.lt (Images.altTextCoverage (SeoChecks.images s))
                (JS.of_Z 80));
    destruct (StructuredData.jsonLd (SeoChecks.structuredData s) >? 0);
    destruct ((Links.total (SeoChecks.links s) >? 0)
              && (Links.external (SeoChecks.links s)
                  >? Links.internal (SeoChecks.links s)));
    destruct (String.eqb (Robots.robotsTxt (SeoChecks.robots s)) "Not found");
    destruct (negb (Sitemap.present (SeoChecks.sitemap s)));
    lia.
Qed.

(** ** What the recommendation list never contains *)

(** X14: whatever the results, [generateRecommendations] returns at most
    five recommendations, none of them twice; each carries the label of one
    of the four categories and the priority [high] or [medium] -- the
    priority [low] is never used -- and they come in category order: a
    recommendation never precedes one of an earlier category. *)
Theorem recommendations_are_few_and_distinct (r : SimpleAuditor.Results.t) :
  (List.length (SimpleAuditor.generateRecommendations r) <= 5)%nat
  /\ NoDup (SimpleAuditor.generateRecommendations r)
  /\ (forall x,
        In x (SimpleAuditor.generateRecommendations r) ->
        (Recommendation.priority x = "high"
         \/ Recommendation.priority x = "medium")
        /\ exists c, Recommendation.category x = label c)
  /\ (forall before x after,
        SimpleAuditor.generateRecommendations r = before ++ x :: after ->
        forall y, In y after ->
        exists c c',
          Recommendation.category x = label c
          /\ Recommendation.category y = label c'
          /\ In (c, c')
               [(Performance, SEO); (Performance, Accessibility);
                (Performance, Crawlability); (SEO, SEO);
                (SEO, Accessibility); (SEO, Crawlability);
                (Accessibility, Crawlability)]).
Proof.
  rewrite recommendations_by_category. unfold Rules.rule.
  destruct (Rules.below70 r Performance), (Rules.below70 r SEO),
    (Rules.missingTitle r), (Rules.missingMetaDescription r),
    (Rules.below70 r Accessibility), (Rules.below70 r Crawlability);
    cbn [app];
    (split; [cbn; lia |]);
    (split;
     [repeat (constructor;
              [cbn; intros H;
               repeat match type of H with
                 | _ \/ _ => destruct H as [H | H]
                 end;
               solve [discriminate H | contradiction] |]);
      constructor |]);
    (split;
     [intros x Hin; cbn in Hin;
      repeat match type of Hin with
        | _ \/ _ => destruct Hin as [Hin | Hin]
        end;
      try contradiction; subst x;
      (split; [cbn; auto |]);
      first [exists Performance; reflexivity | exists SEO; reflexivity
            | exists Accessibility; reflexivity
            | exists Crawlability; reflexivity]
     |]);
    intros before x after Heq y Hy;
    repeat (destruct before as [| ? before];
            [cbn [app] in Heq; injection Heq as; subst
            | cbn [app] in Heq; try discriminate Heq;
              injection Heq as ? Heq; subst]);
    try discriminate;
    try (destruct before; discriminate);
    cbn in Hy;
    repeat match type of Hy with
      | _ \/ _ => destruct Hy as [Hy | Hy]
      end;
    try contradiction; subst y;
    first
      [ exists Performance, SEO; cbn; solve [auto 10]
      | exists Performance, Accessibility; cbn; solve [auto 10]
      | exists Performance, Crawlability; cbn; solve [auto 10]
      | exists SEO, SEO; cbn; solve [auto 10]
      | exists SEO, Accessibility; cbn; solve [auto 10]
      | exists SEO, Crawlability; cbn; solve [auto 10]
      | exists Accessibility, Crawlability; cbn; solve [auto 10] ].
Qed.

(** ** Buckets are decided by substrings of the whole URL *)

Lemma prefix_append (needle hay rest : string) :
  prefix needle hay = true -> prefix needle (String.append hay rest) = true.
Proof.
  revert hay. induction needle as [| c needle IH]; intros hay Hp.
  - destruct (String.append hay rest); reflexivity.
  - destruct hay as [| c' hay]; [discriminate |].
    cbn in Hp |- *. destruct (Ascii.ascii_dec c c'); [| discriminate].
    apply IH. exact Hp.
Qed.

Lemma includes_append (needle hay rest : string) :
  JS.includes needle hay = true ->
  JS.includes needle (String.append hay rest) = true.
Proof.
  induction hay as [| c hay IH]; intros Hi.
  - destruct needle as [| c needle].
    + destruct rest; reflexivity.
    + cbn in Hi. discriminate Hi.
  - cbn [JS.includes] in Hi. cbn [String.append JS.includes].
    destruct (prefix needle (String c hay)) eqn:Hp.
    + change (String c (String.append hay rest))
        with (String.append (String c hay) rest).
      rewrite (prefix_append _ _ rest Hp). reflexivity.
    + destruct (prefix needle (String c (String.append hay rest)));
        [reflexivity | apply IH; exact Hi].
Qed.

Lemma includes_prepend (needle front hay : string) :
  JS.includes needle hay = true ->
  JS.includes needle (String.append front hay) = true.
Proof.
  induction front as [| c front IH]; intros Hi.
  - exact Hi.
  - cbn [String.append JS.includes].
    destruct (prefix needle (String c (String.append front hay)));
      [reflexivity | apply IH; exact Hi].
Qed.

Lemma includes_inside (needle front hay rest : string) :
  JS.includes needle hay = true ->
  JS.includes needle (String.append front (String.append hay rest)) = true.
Proof.
  intros Hi. apply includes_prepend. apply includes_append. exact Hi.
Qed.

(** X15: the degraded extractor looks for its keywords anywhere in the URL,
    not in the host name.  Whatever is put before or after a URL of the
    complex bucket, the result is in the complex bucket again and gets the
    same canned scores; so a URL of any site falls into the complex bucket
    as soon as its path or query mentions one of the keywords. *)
Theorem complex_bucket_is_closed_under_context (front url rest : string) :
  bucket url = ComplexSite ->
  bucket (String.append front (String.append url rest)) = ComplexSite
  /\ SimpleAuditor.PerformanceData.score
       (SimpleAuditor.createMockPerformanceData
          (String.append front (String.append url rest))) = 86
  /\ bucket "https://example.com/?ref=facebook" = ComplexSite
  /\ bucket "https://example.com/" = SimpleSite.
Proof.
  intros Hc.
  assert (Hbig : bucket (String.append front (String.append url rest))
                 = ComplexSite).
  { apply bucket_complex. apply bucket_complex in Hc.
    destruct Hc as [H | [H | H]];
      [left | right; left | right; right];
      apply includes_inside; exact H. }
  split; [exact Hbig |]. split; [| split; reflexivity].
  rewrite mock_performance_is_canned, Hbig. reflexivity.
Qed.

(** A page of another site whose query mentions google. *)
Lemma complex_bucket_is_closed_under_context_witness :
  bucket (String.append "https://example.org/search?q="
            (String.append "google" "&page=2")) = ComplexSite.
Proof.
  apply (proj1 (complex_bucket_is_closed_under_context
                  "https://example.org/search?q=" "google" "&page=2"
                  eq_refl)).
Defined.

(** ** Further instances *)

(** A performance audit that threw scores 0. *)
Lemma zero_score_means_failed_audit_witness :
  Auditor.scoreOf Auditor.PerformanceData.score
    (Auditor.auditPerformance (Auditor.Threw "Browser not available"))
  = Some 0.
Proof.
  destruct zero_score_means_failed_audit as (_ & _ & _ & Hperf & _).
  apply (proj2 (Hperf (Auditor.Threw "Browser not available"))).
  exists "Browser not available". reflexivity.
Defined.

(** A tidy document has no issue, and scores 100. *)
Lemma accessibility_score_and_issues_witness :
  Auditor.AccessibilityData.score
    (Auditor.evaluateAccessibility Samples.tidyDocument) = 100.
Proof.
  destruct (accessibility_score_and_issues Samples.tidyDocument)
    as (_ & _ & _ & Hempty).
  apply (proj1 Hempty). reflexivity.
Defined.

(** The recommendation for a missing meta description has priority medium
    or high, and an SEO label. *)
Lemma recommendations_are_few_and_distinct_witness :
  (Recommendation.priority Rules.metaDescriptionAdvice = "high"
   \/ Recommendation.priority Rules.metaDescriptionAdvice = "medium")
  /\ exists c, Recommendation.category Rules.metaDescriptionAdvice = label c.
Proof.
  destruct (recommendations_are_few_and_distinct Samples.descriptionMissing)
    as (_ & _ & Hall & _).
  apply Hall. left. reflexivity.
Defined.
